(** * Session-log converters: a shallow embedding and its properties

    The repository holds two batch converters,
    [scripts/convert_export.py] (format A: one JSONL file per session) and
    [scripts/convert_opencode.py] (format B: a storage tree of session,
    message and part files).  Both filter the records of a session, collapse
    long code blocks and long code-like lines, and render a plain-text
    transcript.

    Python values are embedded as follows: a [str] is the list of its code
    points, a decoded JSON document is a [json] tree, an exception is the
    [Raise] outcome of a [result], mutable converter fields are threaded as
    explicit state, [print] appends an [event] to a log. *)

From Stdlib Require Import ZArith NArith Lia Bool.
From Stdlib Require Import Strings.Ascii Strings.String.
From Stdlib Require Init.Decimal.
From stdpp Require Import base decidable countable list gmap.

Set Warnings "-register-all".
Local Open Scope nat_scope.
Local Open Scope list_scope.

(* ===================================================================== *)
(** ** Python strings *)
(* ===================================================================== *)

Module Py.

(** A Python [str]: its sequence of Unicode code points. *)
Abbreviation str := (list N).

(** A literal of the source, given as an ASCII string. *)
Definition lit (s : String.string) : str :=
  List.map N_of_ascii (list_ascii_of_string s).
Arguments lit s%_string.

Definition newline : N := 10%N.

(** [str.isspace] on one code point: the whitespace table of CPython
    ([_PyUnicode_IsWhitespace]). *)
Definition is_space (c : N) : bool :=
  ((9 <=? c) && (c <=? 13) || (28 <=? c) && (c <=? 32)
   || (c =? 133) || (c =? 160) || (c =? 5760)
   || (8192 <=? c) && (c <=? 8202)
   || (c =? 8232) || (c =? 8233) || (c =? 8239) || (c =? 8287)
   || (c =? 12288))%N.

(** [s.lstrip()] *)
Fixpoint lstrip (s : str) : str :=
  match s with
  | [] => []
  | c :: s' => if is_space c then lstrip s' else s
  end.

(** [s.rstrip()]: a character is kept when it is not whitespace or when
    something is kept to its right. *)
Fixpoint rstrip (s : str) : str :=
  match s with
  | [] => []
  | c :: s' =>
      match rstrip s' with
      | [] => if is_space c then [] else [c]
      | r => c :: r
      end
  end.

(** [s.strip()] *)
Definition strip (s : str) : str := rstrip (lstrip s).

(** [s.startswith(p)] *)
Fixpoint startswith (p s : str) : bool :=
  match p, s with
  | [], _ => true
  | _ :: _, [] => false
  | a :: p', b :: s' => (a =? b)%N && startswith p' s'
  end.

(** [sub in s] *)
Fixpoint contains (sub s : str) : bool :=
  startswith sub s ||
  match s with
  | [] => false
  | _ :: s' => contains sub s'
  end.

(** [s.split(sep)] for a one-character separator: never the empty list. *)
Fixpoint split_char (sep : N) (s : str) : list str :=
  match s with
  | [] => [[]]
  | c :: s' =>
      if (c =? sep)%N then [] :: split_char sep s'
      else match split_char sep s' with
           | [] => [[c]]
           | l :: ls => (c :: l) :: ls
           end
  end.

(** [s.split("\n")] *)
Definition split_nl (s : str) : list str := split_char newline s.

(** ["\n".join(ls)] *)
Fixpoint join_nl (ls : list str) : str :=
  match ls with
  | [] => []
  | [l] => l
  | l :: ls' => l ++ newline :: join_nl ls'
  end.

(** [s.replace(a, b)] for one-character [a] and [b]. *)
Definition replace_char (a b : N) (s : str) : str :=
  List.map (fun c => if (c =? a)%N then b else c) s.

(** The decimal digits of a [Decimal.uint], most significant first. *)
Fixpoint uint_digits (d : Decimal.uint) : str :=
  match d with
  | Decimal.Nil => []
  | Decimal.D0 d => 48%N :: uint_digits d
  | Decimal.D1 d => 49%N :: uint_digits d
  | Decimal.D2 d => 50%N :: uint_digits d
  | Decimal.D3 d => 51%N :: uint_digits d
  | Decimal.D4 d => 52%N :: uint_digits d
  | Decimal.D5 d => 53%N :: uint_digits d
  | Decimal.D6 d => 54%N :: uint_digits d
  | Decimal.D7 d => 55%N :: uint_digits d
  | Decimal.D8 d => 56%N :: uint_digits d
  | Decimal.D9 d => 57%N :: uint_digits d
  end.

(** [str(n)] for a non-negative [int], as an f-string renders [{n}]. *)
Definition decimal (n : nat) : str := uint_digits (Nat.to_uint n).

(** A line holds no newline character. *)
Definition newline_free (s : str) : bool :=
  forallb (fun c => negb (c =? newline)%N) s.

End Py.

(* ===================================================================== *)
(** ** The text normalizer: [_collapse_code_blocks]

    [convert_export.py] (lines 55-105) and [convert_opencode.py]
    (lines 27-77) carry the same method, character for character; one
    embedding serves both. *)
(* ===================================================================== *)

Module Normalizer.
Import Py.

(** [line.strip().startswith("```")] *)
Definition is_fence (line : str) : bool :=
  startswith (lit "```") (strip line).

Definition indicators : list str :=
  [lit "def "; lit "class "; lit "import "; lit "function "; lit "{"].

(** [len(line) > 500 and any(indicator in line for indicator in [...])] *)
Definition is_file_dump (line : str) : bool :=
  (500 <? length line) && existsb (fun indicator => contains indicator line) indicators.

Definition file_dump_placeholder : str :=
  lit "[file dump: long code output stripped]".

(** The body of the [else] branch of the outer loop: one line outside a
    fenced block. *)
Definition emit_line (line : str) : str :=
  if is_file_dump line then file_dump_placeholder else line.

(** The label of a collapsed block: [first_line] as the source computes it
    from [code_lines]. *)
Definition block_label (code_lines : list str) : str :=
  let first_line := strip (List.nth 0 code_lines []) in
  let first_line :=
    if startswith (lit "```") first_line then strip (drop 3 first_line)
    else first_line in
  match first_line with
  | [] =>
      match code_lines with
      | _ :: second :: _ => strip second
      | _ => lit "code"
      end
  | _ => first_line
  end.

(** [f"[code block: {first_line}... ({len(code_lines)} lines)]"] *)
Definition block_summary (code_lines : list str) : str :=
  lit "[code block: " ++ block_label code_lines ++ lit "... ("
    ++ decimal (length code_lines) ++ lit " lines)]".

(** What a collected block adds to [result]. *)
Definition emit_block (code_lines : list str) : list str :=
  if 10 <? length code_lines then [block_summary code_lines] else code_lines.

(** The two nested [while] loops over [lines].  [scan_lines] is the outer
    loop, returning what it appends to [result] from the current index on;
    [scan_block code_lines] is the inner loop that collects the lines of an
    open block, then appends the closing fence when there is one, emits the
    block and goes on with the outer loop. *)
Fixpoint scan_lines (lines : list str) : list str :=
  match lines with
  | [] => []
  | line :: rest =>
      if is_fence line then scan_block [line] rest
      else emit_line line :: scan_lines rest
  end
with scan_block (code_lines : list str) (lines : list str) {struct lines} : list str :=
  match lines with
  | [] => emit_block code_lines
  | line :: rest =>
      if is_fence line then emit_block (code_lines ++ [line]) ++ scan_lines rest
      else scan_block (code_lines ++ [line]) rest
  end.

(** [_collapse_code_blocks]: split into lines, scan, join. *)
Definition _collapse_code_blocks (text : str) : str :=
  join_nl (scan_lines (split_nl text)).

(** The fenced blocks the scan collects, in order: the [code_lines] of each
    pass through the inner loop. *)
Fixpoint blocks_of (lines : list str) : list (list str) :=
  match lines with
  | [] => []
  | line :: rest =>
      if is_fence line then block_from [line] rest else blocks_of rest
  end
with block_from (code_lines : list str) (lines : list str) {struct lines}
  : list (list str) :=
  match lines with
  | [] => [code_lines]
  | line :: rest =>
      if is_fence line then (code_lines ++ [line]) :: blocks_of rest
      else block_from (code_lines ++ [line]) rest
  end.

(** The summary lines the scan writes: one per block of more than 10 lines. *)
Definition collapsed_summaries (lines : list str) : list str :=
  List.map block_summary
    (List.filter (fun code_lines => 10 <? length code_lines) (blocks_of lines)).

(** The number of fence lines in a run of lines; the scan is outside a block
    after a run with an even number of them. *)
Definition fence_count (lines : list str) : nat :=
  length (List.filter is_fence lines).

Definition outside_after (lines : list str) : bool := Nat.even (fence_count lines).

End Normalizer.

(* ===================================================================== *)
(** ** Decoded JSON and the Python operations the converters apply to it *)
(* ===================================================================== *)

Module Json.
Import Py.

(** What [json.loads] / [json.load] returns.  Numbers are the integers (the
    schema's millisecond epochs and counters); an object is the list of its
    members, each key once, as the decoded [dict] holds them. *)
Inductive json : Type :=
| JNull
| JBool (b : bool)
| JNum (z : Z)
| JStr (s : str)
| JArr (items : list json)
| JObj (members : list (str * json)).

(** The outcome of a Python expression or block: a value, or an exception
    that leaves it. *)
Inductive result (A : Type) : Type :=
| Ok (a : A)
| Raise.
Arguments Ok {A} a.
Arguments Raise {A}.

Definition bind {A B : Type} (r : result A) (k : A -> result B) : result B :=
  match r with
  | Ok a => k a
  | Raise => Raise
  end.

Notation "x <- r ;; k" := (bind r (fun x => k))
  (at level 100, r at next level, right associativity).

(** Truthiness: [bool(v)], as [if v:] and [not v] test it. *)
Definition truthy (v : json) : bool :=
  match v with
  | JNull => false
  | JBool b => b
  | JNum z => negb (z =? 0)%Z
  | JStr [] | JArr [] | JObj [] => false
  | JStr _ | JArr _ | JObj _ => true
  end.

(** [d.get(key, default)] on the members of a [dict]. *)
Fixpoint get_or (default : json) (key : str) (members : list (str * json)) : json :=
  match members with
  | [] => default
  | (k, v) :: rest => if bool_decide (k = key) then v else get_or default key rest
  end.

(** [d.get(key)]: [None] when the key is absent. *)
Definition get (key : str) (members : list (str * json)) : json :=
  get_or JNull key members.

(** [key in d] *)
Definition has_key (key : str) (members : list (str * json)) : bool :=
  existsb (fun kv => bool_decide (kv.1 = key)) members.

(** [v == "literal"]: only a [str] equals a [str]. *)
Definition is_str (s : str) (v : json) : bool :=
  match v with
  | JStr t => bool_decide (t = s)
  | _ => false
  end.

(** A hashable value as a [set] holds it: [None], a number ([True] and
    [False] hash and compare as [1] and [0]) or a [str].  Lists and dicts are
    unhashable. *)
Abbreviation hashable := (option (Z + str)%type).

Definition hash_key (v : json) : result hashable :=
  match v with
  | JNull => Ok None
  | JBool b => Ok (Some (inl (Z.b2z b)))
  | JNum z => Ok (Some (inl z))
  | JStr s => Ok (Some (inr s))
  | JArr _ | JObj _ => Raise
  end.

(** ["\n".join(texts)]: a [TypeError] unless every item is a [str]. *)
Fixpoint strs_of (texts : list json) : result (list str) :=
  match texts with
  | [] => Ok []
  | JStr s :: rest => ss <- strs_of rest ;; Ok (s :: ss)
  | _ :: _ => Raise
  end.

Definition join_texts (texts : list json) : result str :=
  ss <- strs_of texts ;; Ok (join_nl ss).

End Json.

(* ===================================================================== *)
(** ** The Python runtime the converters call into

    [str.lower] and the [datetime] library are not code of the repository;
    the converters are embedded over an arbitrary implementation of them,
    and so is the file system's answer to opening an output file. *)
(* ===================================================================== *)

Module Runtime.
Import Py Json.

(** How the attempt to write an output file can fail (the [try] block that
    ends a conversion: [open(path, "w")], [f.write(text)], the closing of the
    file, then the [print] of the success line). *)
Inductive failure : Type :=
| NotOpened                (** [open] raised: the file is as it was *)
| Partial (content : str)  (** the file was created or emptied, then the write
                               or the closing raised: it holds [content] *)
| Unreported.              (** the file is complete; printing the success
                               line raised *)

Record runtime : Type := {
  (** [s.lower()] *)
  lower : str -> str;
  (** the values of [datetime] *)
  datetime : Type;
  (** [datetime.fromisoformat(s)]; [None] when it raises *)
  fromisoformat : str -> option datetime;
  (** [datetime.fromtimestamp(ms_epoch / 1000.0, tz=timezone.utc)];
      [None] when the division or the conversion raises *)
  fromtimestamp_ms : json -> option datetime;
  (** [dt.strftime(format)] *)
  strftime : datetime -> str -> str;
  (** [str(v)] of a value that is not a [str], as an f-string renders it *)
  to_str : json -> str;
  (** whether [open(output_dir / name, "w")], the write and the [print] of
      the success line all succeed *)
  writable : str -> bool;
  (** where the attempt to write the text [text] to [name] stops when it
      does not succeed *)
  write_failure : str -> str -> failure;
}.

(** The output directory after a failed attempt to write [text] to
    [name]. *)
Definition left_behind (E : runtime) (name text : str) (files : gmap str str)
  : gmap str str :=
  match write_failure E name text with
  | NotOpened => files
  | Partial content => <[name := content]> files
  | Unreported => <[name := text]> files
  end.

(** [f"{v}"] *)
Definition fstr (E : runtime) (v : json) : str :=
  match v with
  | JStr s => s
  | _ => to_str E v
  end.

(** [re.sub(r"[^a-z0-9]+", "-", s)]: each maximal run of characters outside
    [a-z0-9] becomes one hyphen. *)
Definition is_slug_char (c : N) : bool :=
  ((97 <=? c) && (c <=? 122) || (48 <=? c) && (c <=? 57))%N.

Fixpoint hyphenate (in_run : bool) (s : str) : str :=
  match s with
  | [] => []
  | c :: s' =>
      if is_slug_char c then c :: hyphenate false s'
      else if in_run then hyphenate true s'
      else 45%N :: hyphenate true s'
  end.

(** [s.strip("-")] *)
Fixpoint lstrip_hyphen (s : str) : str :=
  match s with
  | [] => []
  | c :: s' => if (c =? 45)%N then lstrip_hyphen s' else s
  end.

Fixpoint rstrip_hyphen (s : str) : str :=
  match s with
  | [] => []
  | c :: s' =>
      match rstrip_hyphen s' with
      | [] => if (c =? 45)%N then [] else [c]
      | r => c :: r
      end
  end.

(** [re.sub(r"[^a-z0-9]+", "-", title.lower())[:40].strip("-")] *)
Definition slug (E : runtime) (title : str) : str :=
  rstrip_hyphen (lstrip_hyphen (take 40 (hyphenate false (lower E title)))).

End Runtime.

(* ===================================================================== *)
(** ** Format A: [convert_export.py], class [JSONLConverter] *)
(* ===================================================================== *)

Module ConvertExport.
Import Py Json Runtime Normalizer.

(** [_is_command_message] (lines 28-30):
    [bool(re.search(r"<(local-)?command-", content))]; the pattern matches
    exactly where one of its two expansions occurs. *)
Definition _is_command_message (content : str) : bool :=
  contains (lit "<command-") content || contains (lit "<local-command-") content.

(** One step of the loop of [_extract_text_blocks] over a block list. *)
Definition text_of_block (block : json) : list json :=
  match block with
  | JObj b =>
      if is_str (lit "text") (get (lit "type") b) && has_key (lit "text") b
      then [get (lit "text") b]
      else []
  | _ => []
  end.

(** [_extract_text_blocks] (lines 37-53): the [text] values collected, of
    whatever type they are. *)
Definition _extract_text_blocks (content : json) : list json :=
  match content with
  | JStr s => if _is_command_message s then [] else [JStr s]
  | JArr blocks => flat_map text_of_block blocks
  | _ => []
  end.

Definition non_conversation_types : list str :=
  [lit "queue-operation"; lit "file-history-snapshot"; lit "system"; lit "summary"].

(** [_should_skip_message] (lines 107-128); a record that is not a [dict]
    has no [get]. *)
Definition _should_skip_message (msg_obj : json) : result bool :=
  match msg_obj with
  | JObj o =>
      if existsb (fun t => is_str t (get (lit "type") o)) non_conversation_types
      then Ok true
      else if negb (has_key (lit "message") o) then Ok true
      else if truthy (get (lit "isMeta") o) then Ok true
      else Ok false
  | _ => Raise
  end.

(** The loop of [_extract_user_message] that sets the flags
    [(has_text, has_tool_result)]. *)
Definition flag_block (flags : bool * bool) (block : json) : bool * bool :=
  match block with
  | JObj b =>
      if is_str (lit "tool_result") (get (lit "type") b) then (flags.1, true)
      else if is_str (lit "text") (get (lit "type") b) then (true, flags.2)
      else flags
  | _ => flags
  end.

Definition block_flags (blocks : list json) : bool * bool :=
  fold_left flag_block blocks (false, false).

(** [msg_obj.get("message", {})], then [message.get(...)]: the members of
    the message, or an [AttributeError]. *)
Definition message_of (o : list (str * json)) : result (list (str * json)) :=
  match get_or (JObj []) (lit "message") o with
  | JObj m => Ok m
  | _ => Raise
  end.

(** [_extract_user_message] (lines 130-169). *)
Definition _extract_user_message (msg_obj : json) : result (option str) :=
  skip <- _should_skip_message msg_obj ;;
  if skip then Ok None
  else
    match msg_obj with
    | JObj o =>
        message <- message_of o ;;
        if negb (is_str (lit "user") (get (lit "role") message)) then Ok None
        else
          match get (lit "content") message with
          | JStr content =>
              if _is_command_message content then Ok None
              else Ok (Some (strip content))
          | JArr blocks =>
              let '(has_text, has_tool_result) := block_flags blocks in
              if has_tool_result && negb has_text then Ok None
              else
                match _extract_text_blocks (JArr blocks) with
                | [] => Ok None
                | texts => s <- join_texts texts ;; Ok (Some (strip s))
                end
          | _ => Ok None
          end
    | _ => Raise
    end.

(** [_extract_assistant_message] (lines 171-191). *)
Definition _extract_assistant_message (msg_obj : json) : result (option str) :=
  skip <- _should_skip_message msg_obj ;;
  if skip then Ok None
  else
    match msg_obj with
    | JObj o =>
        message <- message_of o ;;
        if negb (is_str (lit "assistant") (get (lit "role") message)) then Ok None
        else
          match get (lit "content") message with
          | JArr blocks =>
              match _extract_text_blocks (JArr blocks) with
              | [] => Ok None
              | texts => s <- join_texts texts ;; Ok (Some (strip s))
              end
          | _ => Ok None
          end
    | _ => Raise
    end.

(** [iso_timestamp.replace("Z", "+00:00")] *)
Definition z_to_offset (s : str) : str :=
  flat_map (fun c => if (c =? 90)%N then lit "+00:00" else [c]) s.

(** [_format_timestamp] and [_get_date_from_timestamp] (lines 193-207): the
    bare [except] also catches the [AttributeError] of a timestamp that is
    not a [str]. *)
Definition parse_iso (E : runtime) (iso_timestamp : json) : option (datetime E) :=
  match iso_timestamp with
  | JStr s => fromisoformat E (z_to_offset s)
  | _ => None
  end.

Definition _format_timestamp (E : runtime) (iso_timestamp : json) : str :=
  match parse_iso E iso_timestamp with
  | Some dt => strftime E dt (lit "%H:%M")
  | None => lit "??:??"
  end.

Definition _get_date_from_timestamp (E : runtime) (iso_timestamp : json) : str :=
  match parse_iso E iso_timestamp with
  | Some dt => strftime E dt (lit "%Y-%m-%d")
  | None => lit "unknown-date"
  end.

Inductive role : Type := user | assistant.

(** An element of [messages]. *)
Record turn : Type := {
  turn_role : role;
  turn_text : str;
  turn_timestamp : json;
}.

(** The local variables of [convert_jsonl] that the parse loop updates;
    [None] is [JNull], resp. [None]. *)
Record parsed : Type := {
  messages : list turn;
  first_timestamp : json;
  first_user_message : option str;
  session_id : json;
  project_path : json;
}.

Definition parse_start : parsed :=
  {| messages := []; first_timestamp := JNull; first_user_message := None;
     session_id := JNull; project_path := JNull |}.

(** [if first_timestamp is None:] capture the metadata of this record. *)
Definition capture_metadata (p : parsed) (msg_obj : json) : result parsed :=
  match first_timestamp p with
  | JNull =>
      match msg_obj with
      | JObj o =>
          Ok {| messages := messages p;
                first_timestamp := get (lit "timestamp") o;
                first_user_message := first_user_message p;
                session_id := get (lit "sessionId") o;
                project_path := get (lit "cwd") o |}
      | _ => Raise
      end
  | _ => Ok p
  end.

(** [msg_obj.get("timestamp")] of a record that passed the extraction. *)
Definition record_timestamp (msg_obj : json) : json :=
  match msg_obj with
  | JObj o => get (lit "timestamp") o
  | _ => JNull
  end.

Definition nonempty (text : option str) : option str :=
  match text with
  | Some (c :: s) => Some (c :: s)
  | _ => None
  end.

(** The conversation turn one decoded record contributes, if any: the two
    extractions of the loop body, in the order the source tries them. *)
Definition record_turn (msg_obj : json) : result (option turn) :=
  user_text <- _extract_user_message msg_obj ;;
  match nonempty user_text with
  | Some text =>
      Ok (Some {| turn_role := user; turn_text := text;
                  turn_timestamp := record_timestamp msg_obj |})
  | None =>
      assistant_text <- _extract_assistant_message msg_obj ;;
      match nonempty assistant_text with
      | Some text =>
          Ok (Some {| turn_role := assistant; turn_text := text;
                      turn_timestamp := record_timestamp msg_obj |})
      | None => Ok None
      end
  end.

(** One iteration of the parse loop on a decoded line. *)
Definition parse_record (p : parsed) (msg_obj : json) : result parsed :=
  p <- capture_metadata p msg_obj ;;
  t <- record_turn msg_obj ;;
  match t with
  | Some t =>
      Ok {| messages := messages p ++ [t];
            first_timestamp := first_timestamp p;
            first_user_message :=
              match turn_role t, first_user_message p with
              | user, None => Some (turn_text t)
              | _, fum => fum
              end;
            session_id := session_id p;
            project_path := project_path p |}
  | None => Ok p
  end.

(** The parse loop over the lines of the file; [None] is a blank line or
    one [json.loads] rejects, which the loop passes over. *)
Fixpoint parse_lines (p : parsed) (lines : list (option json)) : result parsed :=
  match lines with
  | [] => Ok p
  | None :: rest => parse_lines p rest
  | Some msg_obj :: rest => p <- parse_record p msg_obj ;; parse_lines p rest
  end.

(** A session file as [convert_jsonl] meets it. *)
Inductive content : Type :=
| Missing                              (* [jsonl_path.exists()] is false *)
| Unreadable                           (* opening or reading raises *)
| Lines (lines : list (option json)).  (* the lines, decoded where possible *)

Record jsonl_file : Type := {
  jsonl_path : str;
  jsonl_content : content;
  (** [sessions-index.json] beside the file, decoded; [None] when it is
      absent or cannot be read or decoded *)
  sessions_index : option json;
}.

(** The loop of [_load_session_metadata] (lines 209-227) over
    [index.get("entries", [])];
    an entry that is not a [dict] raises, and the bare [except] returns
    [None]. *)
Fixpoint find_entry (path : str) (entries : list json) : option (list (str * json)) :=
  match entries with
  | [] => None
  | JObj entry :: rest =>
      if is_str path (get (lit "fullPath") entry) then Some entry
      else find_entry path rest
  | _ :: _ => None
  end.

Definition _load_session_metadata (file : jsonl_file) : option (list (str * json)) :=
  match sessions_index file with
  | Some (JObj index) =>
      match get_or (JArr []) (lit "entries") index with
      | JArr entries => find_entry (jsonl_path file) entries
      | _ => None
      end
  | _ => None
  end.

(** [_get_summary] (lines 229-243); the summary of the index is returned as
    it is, whatever its type. *)
Definition _get_summary (file : jsonl_file) (first_user_message : option str) : json :=
  let from_message :=
    match first_user_message with
    | Some (c :: s) =>
        let message := c :: s in
        let summary := replace_char newline 32%N (take 60 message) in
        JStr (if 60 <? length message then summary ++ lit "..." else summary)
    | _ => JStr (lit "Untitled Session")
    end in
  match _load_session_metadata file with
  | Some (kv :: metadata) =>
      if truthy (get (lit "summary") (kv :: metadata))
      then get (lit "summary") (kv :: metadata)
      else from_message
  | _ => from_message
  end.

(** What [print] writes, one constructor per message of the source. *)
Inductive event : Type :=
| ErrorFileNotFound (path : str)
| ErrorReading (path : str)
| WarningNoMessages (path : str)
| WarningAlreadyProcessed (session_id : json)
| Converted (output_filename : str) (n_messages : nat)
| ErrorWriting (output_filename : str)
| WarningNoFiles.

(** The converter object together with the output directory it writes to. *)
Record converter : Type := {
  processed_sessions : gset hashable;
  written : gmap str str;
}.

Definition new_converter : converter :=
  {| processed_sessions := ∅; written := ∅ |}.

(** One call of a method: what it returned ([None] when an exception left
    it), what it printed, and the converter afterwards. *)
Record outcome : Type := {
  returned : option bool;
  printed : list event;
  after : converter;
}.

Definition date_str (E : runtime) (p : parsed) : str :=
  if truthy (first_timestamp p) then _get_date_from_timestamp E (first_timestamp p)
  else lit "unknown-date".

Definition time_str (E : runtime) (p : parsed) : str :=
  replace_char 58%N 45%N
    (if truthy (first_timestamp p) then _format_timestamp E (first_timestamp p)
     else lit "00-00").

Definition output_filename (E : runtime) (p : parsed) (summary : str) : str :=
  lit "session_" ++ date_str E p ++ lit "_" ++ time_str E p ++ lit "_"
    ++ slug E summary ++ lit ".txt".

(** The header lines of [output_lines]. *)
Definition header (E : runtime) (p : parsed) (summary : str) : list str :=
  [lit "=== Session: " ++ summary ++ lit " ===";
   lit "Date: " ++ date_str E p ++ lit " " ++ replace_char 45%N 58%N (time_str E p)]
  ++ (if truthy (project_path p) then [lit "Project: " ++ fstr E (project_path p)] else [])
  ++ (if truthy (session_id p) then [lit "Session ID: " ++ fstr E (session_id p)] else [])
  ++ [lit "Messages: " ++ decimal (length (messages p));
      lit "===" ++ [newline]].

Definition speaker (t : turn) : str :=
  match turn_role t with
  | user => lit "User"
  | assistant => lit "Assistant"
  end.

(** The three lines one turn adds to [output_lines]. *)
Definition turn_block (E : runtime) (t : turn) : list str :=
  let timestamp :=
    if truthy (turn_timestamp t) then _format_timestamp E (turn_timestamp t)
    else lit "??:??" in
  [lit "[" ++ timestamp ++ lit "] " ++ speaker t ++ lit ":";
   _collapse_code_blocks (turn_text t);
   []].

Definition output_lines (E : runtime) (p : parsed) (summary : str) : list str :=
  header E p summary ++ flat_map (turn_block E) (messages p).

(** The rest of [convert_jsonl] once the duplicate check has passed: name,
    render and write.  A summary that is not a [str] has no [lower].  The
    [try] block of lines 362-371 returns [True] when the file was written
    and the success line printed; when it fails, the file may already have
    been created, emptied or written. *)
Definition write_session (E : runtime) (c : converter) (file : jsonl_file)
    (p : parsed) : outcome :=
  match _get_summary file (first_user_message p) with
  | JStr summary =>
      let name := output_filename E p summary in
      if writable E name then
        {| returned := Some true;
           printed := [Converted name (length (messages p))];
           after := {| processed_sessions := processed_sessions c;
                       written := <[name := join_nl (output_lines E p summary)]> (written c) |} |}
      else
        {| returned := Some false; printed := [ErrorWriting name];
           after := {| processed_sessions := processed_sessions c;
                       written := left_behind E name (join_nl (output_lines E p summary))
                                    (written c) |} |}
  | _ => {| returned := None; printed := []; after := c |}
  end.

Definition mark_processed (c : converter) (k : hashable) : converter :=
  {| processed_sessions := {[ k ]} ∪ processed_sessions c; written := written c |}.

(** [convert_jsonl] (lines 245-371): the parse loop, the check for content,
    the check for duplicates, then the writing. *)
Definition convert_jsonl (E : runtime) (c : converter) (file : jsonl_file) : outcome :=
  match jsonl_content file with
  | Missing =>
      {| returned := Some false; printed := [ErrorFileNotFound (jsonl_path file)]; after := c |}
  | Unreadable =>
      {| returned := Some false; printed := [ErrorReading (jsonl_path file)]; after := c |}
  | Lines lines =>
      match parse_lines parse_start lines with
      | Raise =>
          {| returned := Some false; printed := [ErrorReading (jsonl_path file)]; after := c |}
      | Ok p =>
          match messages p with
          | [] =>
              {| returned := Some false;
                 printed := [WarningNoMessages (jsonl_path file)]; after := c |}
          | _ :: _ =>
              if truthy (session_id p) then
                match hash_key (session_id p) with
                | Raise => {| returned := None; printed := []; after := c |}
                | Ok k =>
                    if bool_decide (k ∈ processed_sessions c) then
                      {| returned := Some false;
                         printed := [WarningAlreadyProcessed (session_id p)];
                         after := c |}
                    else write_session E (mark_processed c k) file p
                end
              else write_session E c file p
          end
      end
  end.

(** A run over the files of a directory, in sorted order. *)
Record run : Type := {
  count : nat;
  log : list event;
  final : converter;
  crashed : bool;
}.

Fixpoint convert_files (E : runtime) (c : converter) (files : list jsonl_file) : run :=
  match files with
  | [] => {| count := 0; log := []; final := c; crashed := false |}
  | file :: rest =>
      let o := convert_jsonl E c file in
      match returned o with
      | None => {| count := 0; log := printed o; final := after o; crashed := true |}
      | Some ok =>
          let r := convert_files E (after o) rest in
          {| count := (if ok then 1 else 0) + count r;
             log := printed o ++ log r;
             final := final r;
             crashed := crashed r |}
      end
  end.

(** [convert_directory] (lines 373-392) on an existing directory whose
    [*.jsonl] files are [files], sorted. *)
Definition convert_directory (E : runtime) (c : converter) (files : list jsonl_file) : run :=
  match files with
  | [] => {| count := 0; log := [WarningNoFiles]; final := c; crashed := false |}
  | _ => convert_files E c files
  end.

End ConvertExport.

(* ===================================================================== *)
(** ** Format B: [convert_opencode.py], class [OpenCodeConverter] *)
(* ===================================================================== *)

Module ConvertOpencode.
Import Py Json Runtime Normalizer.

(** [_format_timestamp_ms], [_get_date_from_ms], [_get_time_from_ms]
    (lines 79-102): the bare [except] gives the fallback text. *)
Definition _format_timestamp_ms (E : runtime) (ms_epoch : json) : str :=
  match fromtimestamp_ms E ms_epoch with
  | Some dt => strftime E dt (lit "%H:%M")
  | None => lit "??:??"
  end.

Definition _get_date_from_ms (E : runtime) (ms_epoch : json) : str :=
  match fromtimestamp_ms E ms_epoch with
  | Some dt => strftime E dt (lit "%Y-%m-%d")
  | None => lit "unknown-date"
  end.

Definition _get_time_from_ms (E : runtime) (ms_epoch : json) : str :=
  match fromtimestamp_ms E ms_epoch with
  | Some dt => strftime E dt (lit "%H-%M")
  | None => lit "00-00"
  end.

(** [parts[-1]] of [agent_str.split("-")] *)
Definition base_agent (agent_str : str) : str :=
  List.last (split_char 45%N agent_str) agent_str.

(** [_normalize_agent_name] (lines 104-119): the displayed name and the
    updated [agent_case_map].  A truthy agent that is not a [str] has no
    [split]. *)
Definition _normalize_agent_name (E : runtime) (agent_case_map : gmap str str)
    (agent_str : json) : result (str * gmap str str) :=
  if negb (truthy agent_str) then Ok ([], agent_case_map)
  else
    match agent_str with
    | JStr agent_str =>
        let lower_base := lower E (base_agent agent_str) in
        match agent_case_map !! lower_base with
        | Some shown => Ok (shown, agent_case_map)
        | None =>
            Ok (base_agent agent_str,
                <[lower_base := base_agent agent_str]> agent_case_map)
        end
    | _ => Raise
    end.

(** [_load_session], [_load_message], [_load_part] (lines 121-152): the
    decoded file when it is a [dict]; a file is [None] when opening or
    decoding it raises. *)
Definition load_dict (file : option json) : option (list (str * json)) :=
  match file with
  | Some (JObj members) => Some members
  | _ => None
  end.

Definition excluded_types : list str :=
  [lit "reasoning"; lit "tool"; lit "step-start"; lit "step-finish";
   lit "file"; lit "compaction"; lit "subtask"].

(** [_should_skip_part] (lines 154-179). *)
Definition _should_skip_part (part : list (str * json)) : bool :=
  let part_type := get (lit "type") part in
  if negb (is_str (lit "text") part_type) then true
  else if truthy (get (lit "synthetic") part) then true
  else if existsb (fun t => is_str t part_type) excluded_types then true
  else false.

(** [_extract_part_text] (lines 181-190); a [text] that is not a [str] has
    no [strip]. *)
Definition _extract_part_text (part : list (str * json)) : result (option str) :=
  if _should_skip_part part then Ok None
  else
    match get_or (JStr []) (lit "text") part with
    | JStr text =>
        match strip text with
        | [] => Ok None
        | text => Ok (Some text)
        end
    | _ => Raise
    end.

(** [_get_part_timestamp] (lines 192-200). *)
Definition _get_part_timestamp (part : list (str * json)) (message_time_ms : json) : json :=
  match get_or (JObj []) (lit "time") part with
  | JObj part_time =>
      let start_ms := get (lit "start") part_time in
      if truthy start_ms then start_ms else message_time_ms
  | _ => message_time_ms
  end.

(** An element of [messages]. *)
Record turn : Type := {
  turn_role : json;
  turn_text : str;
  timestamp_ms : json;
  turn_agent : json;
}.

(** The storage tree: the decoded files of [session/global], and for each
    identifier the sorted files of [message/<id>] and [part/<id>], or [None]
    where the directory does not exist. *)
Record storage : Type := {
  session_files : list (option json);
  message_files : str -> option (list (option json));
  part_files : str -> option (list (option json));
}.

(** The inner loop of [convert_session]: the turns the parts of one message
    add to [messages]. *)
Fixpoint part_turns (role agent message_time_ms : json) (files : list (option json))
  : result (list turn) :=
  match files with
  | [] => Ok []
  | file :: rest =>
      match load_dict file with
      | None | Some [] => part_turns role agent message_time_ms rest
      | Some part =>
          text <- _extract_part_text part ;;
          match text with
          | None => part_turns role agent message_time_ms rest
          | Some text =>
              more <- part_turns role agent message_time_ms rest ;;
              Ok ({| turn_role := role; turn_text := text;
                     timestamp_ms := _get_part_timestamp part message_time_ms;
                     turn_agent := agent |} :: more)
          end
      end
  end.

(** [message_time_ms] of a loaded message. *)
Definition message_time (message : list (str * json)) : json :=
  match get_or (JObj []) (lit "time") message with
  | JObj message_time_data => get (lit "created") message_time_data
  | _ => JNull
  end.

(** One iteration of the loop over the message files: the turns it adds and
    the value of [first_timestamp_ms] afterwards.  A truthy message id that
    is not a [str] cannot be joined to a path. *)
Definition message_turns (S : storage) (first_timestamp_ms : json) (file : option json)
  : result (list turn * json) :=
  match load_dict file with
  | None | Some [] => Ok ([], first_timestamp_ms)
  | Some message =>
      let message_time_ms := message_time message in
      if negb (truthy message_time_ms) then Ok ([], first_timestamp_ms)
      else
        let first_timestamp_ms :=
          match first_timestamp_ms with
          | JNull => message_time_ms
          | _ => first_timestamp_ms
          end in
        let message_id := get (lit "id") message in
        if negb (truthy message_id) then Ok ([], first_timestamp_ms)
        else
          match message_id with
          | JStr message_id =>
              match part_files S message_id with
              | None => Ok ([], first_timestamp_ms)
              | Some files =>
                  turns <- part_turns (get (lit "role") message)
                             (get_or (JStr []) (lit "agent") message)
                             message_time_ms files ;;
                  Ok (turns, first_timestamp_ms)
              end
          | _ => Raise
          end
  end.

(** The loop over the message files of a session. *)
Fixpoint collect_messages (S : storage) (first_timestamp_ms : json)
    (files : list (option json)) : result (list turn * json) :=
  match files with
  | [] => Ok ([], first_timestamp_ms)
  | file :: rest =>
      r <- message_turns S first_timestamp_ms file ;;
      r' <- collect_messages S r.2 rest ;;
      Ok (r.1 ++ r'.1, r'.2)
  end.

(** [a == b] on decoded JSON values: numbers by value ([True] and [False]
    as [1] and [0]), strings by code points, lists item by item, dicts by
    their keys and the values under them; values of different kinds are
    not equal. *)
Fixpoint py_eq (a b : json) {struct a} : bool :=
  match a, b with
  | JNull, JNull => true
  | JBool x, JBool y => Bool.eqb x y
  | JBool x, JNum y => (Z.b2z x =? y)%Z
  | JNum x, JBool y => (x =? Z.b2z y)%Z
  | JNum x, JNum y => (x =? y)%Z
  | JStr x, JStr y => bool_decide (x = y)
  | JArr xs, JArr ys =>
      (fix items (xs ys : list json) {struct xs} : bool :=
         match xs, ys with
         | [], [] => true
         | x :: xs', y :: ys' => py_eq x y && items xs' ys'
         | _, _ => false
         end) xs ys
  | JObj xs, JObj ys =>
      (fix members (seen : list str) (xs : list (str * json)) {struct xs} : bool :=
         match xs with
         | [] => true
         | (k, v) :: xs' =>
             (if existsb (fun s => bool_decide (s = k)) seen then true
              else has_key k ys && py_eq v (get k ys))
             && members (k :: seen) xs'
         end) [] xs
      && forallb (fun kv => has_key kv.1 xs) ys
  | _, _ => false
  end.

(** [a < b] on sort keys: numbers by value ([True] and [False] as [1] and
    [0]), strings by code points, lists by their first pair of unequal
    items (a proper prefix is smaller); [TypeError] between two kinds and on
    [None] and dicts. *)
Fixpoint str_lt (a b : str) : bool :=
  match a, b with
  | _, [] => false
  | [], _ :: _ => true
  | x :: a', y :: b' => (x <? y)%N || (x =? y)%N && str_lt a' b'
  end.

Fixpoint py_lt (a b : json) {struct a} : result bool :=
  match a, b with
  | JNum x, JNum y => Ok (x <? y)%Z
  | JNum x, JBool y => Ok (x <? Z.b2z y)%Z
  | JBool x, JNum y => Ok (Z.b2z x <? y)%Z
  | JBool x, JBool y => Ok (Z.b2z x <? Z.b2z y)%Z
  | JStr x, JStr y => Ok (str_lt x y)
  | JArr xs, JArr ys =>
      (fix items (xs ys : list json) {struct xs} : result bool :=
         match xs, ys with
         | [], [] => Ok false
         | [], _ :: _ => Ok true
         | _ :: _, [] => Ok false
         | x :: xs', y :: ys' => if py_eq x y then items xs' ys' else py_lt x y
         end) xs ys
  | _, _ => Raise
  end.

(** [messages.sort(key=lambda m: m["timestamp_ms"])] as a stable insertion
    sort: a turn goes before the first turn whose key is greater.  It
    agrees with [list.sort] on keys that [<] orders. *)
Fixpoint insert_turn (m : turn) (sorted : list turn) : result (list turn) :=
  match sorted with
  | [] => Ok [m]
  | x :: rest =>
      lt <- py_lt (timestamp_ms m) (timestamp_ms x) ;;
      if lt then Ok (m :: x :: rest)
      else rest' <- insert_turn m rest ;; Ok (x :: rest')
  end.

Definition sort_messages (messages : list turn) : result (list turn) :=
  fold_left (fun sorted m => sorted <- sorted ;; insert_turn m sorted) messages (Ok []).

(** [f"Assistant ({agent_name})" if agent_name else "Assistant"] *)
Definition assistant_label (agent_name : str) : str :=
  match agent_name with
  | [] => lit "Assistant"
  | _ => lit "Assistant (" ++ agent_name ++ lit ")"
  end.

(** The speaker of a turn and the [agent_case_map] afterwards. *)
Definition speaker (E : runtime) (agent_case_map : gmap str str) (msg : turn)
  : result (str * gmap str str) :=
  if is_str (lit "user") (turn_role msg) then Ok (lit "User", agent_case_map)
  else
    r <- _normalize_agent_name E agent_case_map (turn_agent msg) ;;
    Ok (assistant_label r.1, r.2).

(** The three lines one turn adds to [output_lines], given its speaker. *)
Definition turn_block (E : runtime) (msg : turn) (speaker : str) : list str :=
  [lit "[" ++ _format_timestamp_ms E (timestamp_ms msg) ++ lit "] " ++ speaker ++ lit ":";
   _collapse_code_blocks (turn_text msg);
   []].

(** The rendering loop over the sorted turns: the lines it appends to
    [output_lines] and the [agent_case_map] afterwards. *)
Fixpoint render_turns (E : runtime) (agent_case_map : gmap str str) (messages : list turn)
  : result (list str * gmap str str) :=
  match messages with
  | [] => Ok ([], agent_case_map)
  | msg :: rest =>
      s <- speaker E agent_case_map msg ;;
      r <- render_turns E s.2 rest ;;
      Ok (turn_block E msg s.1 ++ r.1, r.2)
  end.

Definition output_filename (E : runtime) (first_timestamp_ms : json) (title : str) : str :=
  lit "session_" ++ _get_date_from_ms E first_timestamp_ms ++ lit "_"
    ++ _get_time_from_ms E first_timestamp_ms ++ lit "_" ++ slug E title ++ lit ".txt".

(** The header lines of [output_lines]. *)
Definition header (E : runtime) (first_timestamp_ms : json) (title session_id : str)
    (n_messages : nat) : list str :=
  [lit "=== Session: " ++ title ++ lit " (" ++ slug E title ++ lit ") ===";
   lit "Date: " ++ _get_date_from_ms E first_timestamp_ms ++ lit " "
     ++ replace_char 45%N 58%N (_get_time_from_ms E first_timestamp_ms);
   lit "Session ID: " ++ session_id;
   lit "Messages: " ++ decimal n_messages;
   lit "===" ++ [newline]].

(** What [print] writes. *)
Inductive event : Type :=
| Converted (output_filename : str) (n_messages : nat)
| ErrorWriting (output_filename : str)
| WarningNoSessionFiles.

(** The converter object together with the output directory it writes to. *)
Record converter : Type := {
  processed_sessions : gset hashable;
  agent_case_map : gmap str str;
  written : gmap str str;
}.

Definition new_converter : converter :=
  {| processed_sessions := ∅; agent_case_map := ∅; written := ∅ |}.

Record outcome : Type := {
  returned : option bool;
  printed : list event;
  after : converter;
}.

Definition silent (ret : option bool) (c : converter) : outcome :=
  {| returned := ret; printed := []; after := c |}.

Definition mark_processed (c : converter) (k : hashable) : converter :=
  {| processed_sessions := {[ k ]} ∪ processed_sessions c;
     agent_case_map := agent_case_map c; written := written c |}.

(** The end of [convert_session] (lines 290-341): sort, name, render and
    write.  The names learnt while rendering stay in [agent_case_map] when
    the [try] block of lines 332-341 fails, and the file may then already
    have been created, emptied or written. *)
Definition write_session (E : runtime) (c : converter) (session : list (str * json))
    (session_id : str) (messages : list turn) (first_timestamp_ms : json) : outcome :=
  match sort_messages messages with
  | Raise => silent None c
  | Ok messages =>
      if negb (truthy first_timestamp_ms) then silent (Some false) c
      else
        match get_or (JStr (lit "Untitled Session")) (lit "title") session with
        | JStr title =>
            let name := output_filename E first_timestamp_ms title in
            match render_turns E (agent_case_map c) messages with
            | Raise => silent None c
            | Ok (lines, agents) =>
                let text :=
                  join_nl (header E first_timestamp_ms title session_id (length messages)
                           ++ lines) in
                if writable E name then
                  {| returned := Some true;
                     printed := [Converted name (length messages)];
                     after := {| processed_sessions := processed_sessions c;
                                 agent_case_map := agents;
                                 written := <[name := text]> (written c) |} |}
                else
                  {| returned := Some false; printed := [ErrorWriting name];
                     after := {| processed_sessions := processed_sessions c;
                                 agent_case_map := agents;
                                 written := left_behind E name text (written c) |} |}
            end
        | _ => silent None c
        end
  end.

(** [convert_session] (lines 202-341): the checks on the session, the walk
    over its messages, the check for content, then the writing.  The
    identifier is added to [processed_sessions] right after the check for
    it. *)
Definition convert_session (E : runtime) (S : storage) (c : converter)
    (session_file : option json) : outcome :=
  match load_dict session_file with
  | None | Some [] => silent (Some false) c
  | Some session =>
      let session_id := get (lit "id") session in
      if truthy (get (lit "parentID") session) then silent (Some false) c
      else
        match hash_key session_id with
        | Raise => silent None c
        | Ok k =>
            if bool_decide (k ∈ processed_sessions c) then silent (Some false) c
            else
              let c := mark_processed c k in
              if negb (truthy session_id) then silent (Some false) c
              else
                match session_id with
                | JStr session_id =>
                    match message_files S session_id with
                    | None | Some [] => silent (Some false) c
                    | Some files =>
                        match collect_messages S JNull files with
                        | Raise => silent None c
                        | Ok ([], _) => silent (Some false) c
                        | Ok (messages, first_timestamp_ms) =>
                            write_session E c session session_id messages first_timestamp_ms
                        end
                    end
                | _ => silent None c
                end
        end
  end.

Record run : Type := {
  count : nat;
  log : list event;
  final : converter;
  crashed : bool;
}.

Fixpoint convert_sessions (E : runtime) (S : storage) (c : converter)
    (files : list (option json)) : run :=
  match files with
  | [] => {| count := 0; log := []; final := c; crashed := false |}
  | file :: rest =>
      let o := convert_session E S c file in
      match returned o with
      | None => {| count := 0; log := printed o; final := after o; crashed := true |}
      | Some ok =>
          let r := convert_sessions E S (after o) rest in
          {| count := (if ok then 1 else 0) + count r;
             log := printed o ++ log r;
             final := final r;
             crashed := crashed r |}
      end
  end.

(** [convert_directory] (lines 343-366) on a storage directory with a
    [session/global] directory. *)
Definition convert_directory (E : runtime) (S : storage) (c : converter) : run :=
  match session_files S with
  | [] => {| count := 0; log := [WarningNoSessionFiles]; final := c; crashed := false |}
  | files => convert_sessions E S c files
  end.

End ConvertOpencode.

(* ===================================================================== *)
(** ** A concrete runtime for the examples

    CPython's answers on the inputs the closed examples below use: ASCII
    text, UTC timestamps written [YYYY-MM-DDTHH:MM:SS] with a [Z] or
    [+00:00] suffix, integer millisecond epochs of the years 1000 to 9999,
    and scalar values in f-strings; every output file can be written.  The
    theorems quantify over every runtime and do not depend on this one. *)
(* ===================================================================== *)

Module Reference.
Import Py Json Runtime.

Definition ascii_lower (s : str) : str :=
  List.map (fun c => if ((65 <=? c) && (c <=? 90))%N then (c + 32)%N else c) s.

Record civil : Type := {
  year : Z; month : Z; day : Z; hour : Z; minute : Z;
}.

(** The proleptic Gregorian date of a day count from 1970-01-01. *)
Definition civil_of_days (days : Z) : Z * Z * Z :=
  let z := (days + 719468)%Z in
  let era := (z / 146097)%Z in
  let doe := (z - era * 146097)%Z in
  let yoe := ((doe - doe / 1460 + doe / 36524 - doe / 146096) / 365)%Z in
  let doy := (doe - (365 * yoe + yoe / 4 - yoe / 100))%Z in
  let mp := ((5 * doy + 2) / 153)%Z in
  let d := (doy - (153 * mp + 2) / 5 + 1)%Z in
  let m := (if (mp <? 10)%Z then mp + 3 else mp - 9)%Z in
  let y := (yoe + era * 400 + (if (m <=? 2)%Z then 1 else 0))%Z in
  (y, m, d).

Definition civil_of_ms (ms : Z) : option civil :=
  let minutes := (ms / 60000)%Z in
  let '(y, m, d) := civil_of_days (minutes / 1440)%Z in
  if ((1 <=? y) && (y <=? 9999))%Z then
    Some {| year := y; month := m; day := d;
            hour := (minutes mod 1440 / 60)%Z; minute := (minutes mod 60)%Z |}
  else None.

Definition utc_of_ms (ms_epoch : json) : option civil :=
  match ms_epoch with
  | JNum ms => civil_of_ms ms
  | JBool b => civil_of_ms (Z.b2z b)
  | _ => None
  end.

(** A non-negative number in at least [width] decimal digits. *)
Definition padded (width : nat) (z : Z) : str :=
  let digits := decimal (Z.to_nat z) in
  List.repeat 48%N (width - length digits) ++ digits.

(** [strftime] for the directives the converters use. *)
Fixpoint format_civil (dt : civil) (format : str) : str :=
  match format with
  | 37%N :: 72%N :: rest => padded 2 (hour dt) ++ format_civil dt rest
  | 37%N :: 77%N :: rest => padded 2 (minute dt) ++ format_civil dt rest
  | 37%N :: 89%N :: rest => padded 4 (year dt) ++ format_civil dt rest
  | 37%N :: 109%N :: rest => padded 2 (month dt) ++ format_civil dt rest
  | 37%N :: 100%N :: rest => padded 2 (day dt) ++ format_civil dt rest
  | c :: rest => c :: format_civil dt rest
  | [] => []
  end.

Definition digit (c : N) : option Z :=
  if ((48 <=? c) && (c <=? 57))%N then Some (Z.of_N c - 48)%Z else None.

Fixpoint number (acc : Z) (s : str) : option Z :=
  match s with
  | [] => Some acc
  | c :: s' =>
      match digit c with
      | Some d => number (10 * acc + d)%Z s'
      | None => None
      end
  end.

(** [fromisoformat] on [YYYY-MM-DDTHH:MM:SS+00:00]. *)
Definition parse_utc (s : str) : option civil :=
  if bool_decide (length s = 25) && bool_decide (drop 19 s = lit "+00:00")
     && bool_decide (List.map (fun i => List.nth i s 0%N) [4; 7; 10; 13; 16]
                     = lit "--T::")
  then
    match number 0 (take 4 s), number 0 (take 2 (drop 5 s)),
          number 0 (take 2 (drop 8 s)), number 0 (take 2 (drop 11 s)),
          number 0 (take 2 (drop 14 s)), number 0 (take 2 (drop 17 s)) with
    | Some y, Some m, Some d, Some h, Some mi, Some _ =>
        Some {| year := y; month := m; day := d; hour := h; minute := mi |}
    | _, _, _, _, _, _ => None
    end
  else None.

(** [str(v)] of a scalar; lists and dicts are not rendered by this runtime. *)
Definition scalar_str (v : json) : str :=
  match v with
  | JNull => lit "None"
  | JBool true => lit "True"
  | JBool false => lit "False"
  | JNum z => (if (z <? 0)%Z then lit "-" else []) ++ decimal (Z.abs_nat z)
  | JStr s => s
  | JArr _ | JObj _ => []
  end.

Definition cpython : runtime :=
  {| lower := ascii_lower;
     datetime := civil;
     fromisoformat := parse_utc;
     fromtimestamp_ms := utc_of_ms;
     strftime := format_civil;
     to_str := scalar_str;
     writable := fun _ => true;
     write_failure := fun _ _ => NotOpened |}.

(** The same runtime over an output directory in which the file [name]
    cannot be opened for writing. *)
Definition cpython_readonly (name : str) : runtime :=
  {| lower := ascii_lower;
     datetime := civil;
     fromisoformat := parse_utc;
     fromtimestamp_ms := utc_of_ms;
     strftime := format_civil;
     to_str := scalar_str;
     writable := fun n => negb (bool_decide (n = name));
     write_failure := fun _ _ => NotOpened |}.

End Reference.

(* ===================================================================== *)
(** ** Predicates and sample inputs of the statements *)
(* ===================================================================== *)

Section NormalizerTerms.
Import Py Normalizer.

Definition not_fence (line : str) : bool := negb (is_fence line).

(** A summary line that the long-line rule leaves alone. *)
Definition summary_kept (summary : str) : bool := negb (is_file_dump summary).

Definition long_block (code_lines : list str) : bool := 10 <? length code_lines.

(** A text with a collapsed block, a short block, a long code-like line and
    plain lines. *)
Definition sample_text : str :=
  lit "intro" ++ [newline] ++ lit "```python" ++ [newline]
  ++ List.concat (List.repeat (lit "x = 1" ++ [newline]) 12)
  ++ lit "```" ++ [newline]
  ++ lit "import " ++ List.repeat 97%N 600 ++ [newline]
  ++ lit "```" ++ [newline] ++ lit "short" ++ [newline] ++ lit "```" ++ [newline]
  ++ lit "end".

(** A fence whose language tag is 501 characters long and holds a brace,
    followed by ten lines and never closed. *)
Definition long_tag_text : str :=
  lit "```{" ++ List.repeat 97%N 500
  ++ List.concat (List.repeat ([newline] ++ lit "x") 10).

(** A ten-line block between two plain lines. *)
Definition ten_line_block : list str :=
  lit "```sh" :: List.repeat (lit "code") 8 ++ [lit "```"].

(** A 501-character line holding ["import "], after a short closed block. *)
Definition import_line : str := lit "import " ++ List.repeat 120%N 494.

End NormalizerTerms.

Section FilterTerms.
Import Py Json ConvertExport.

(** A block of a content list whose type is [tool_result]. *)
Definition is_tool_result (block : json) : bool :=
  match block with
  | JObj b => is_str (lit "tool_result") (get (lit "type") b)
  | _ => false
  end.

(** The record of the specification's example. *)
Definition command_text : str := lit "please run <command-name>build</command-name>".

Definition command_message : list (str * json) :=
  [(lit "role", JStr (lit "user")); (lit "content", JStr command_text)].

Definition command_record : list (str * json) :=
  [(lit "type", JStr (lit "user"));
   (lit "message", JObj command_message);
   (lit "timestamp", JStr (lit "2024-01-01T10:05:00Z"));
   (lit "sessionId", JStr (lit "s1"))].

(** A user record that carries one [tool_result] block and nothing else. *)
Definition tool_result_blocks : list json :=
  [JObj [(lit "type", JStr (lit "tool_result"));
         (lit "tool_use_id", JStr (lit "t1"));
         (lit "content", JStr (lit "ok"))]].

Definition tool_result_message : list (str * json) :=
  [(lit "role", JStr (lit "user")); (lit "content", JArr tool_result_blocks)].

Definition tool_result_record : list (str * json) :=
  [(lit "type", JStr (lit "user"));
   (lit "message", JObj tool_result_message);
   (lit "timestamp", JStr (lit "2024-01-01T10:06:00Z"));
   (lit "sessionId", JStr (lit "s1"))].

End FilterTerms.

Section OpencodeTerms.
Import Py Json Runtime ConvertOpencode.

(** The [start] of a part when its [time] is an object, [None] otherwise. *)
Definition part_start (part : list (str * json)) : json :=
  match get_or (JObj []) (lit "time") part with
  | JObj part_time => get (lit "start") part_time
  | _ => JNull
  end.

(** What a part of a message adds to [messages]: nothing when it yields no
    text; else one turn, stamped with the [start] of the part's [time] when
    that is an object with a truthy [start], and with [created], the
    [time.created] of the owning message, otherwise. *)
Definition stamped_turn (role agent created : json) (part : list (str * json))
  : list turn :=
  match _extract_part_text part with
  | Ok (Some text) =>
      [{| turn_role := role; turn_text := text;
          timestamp_ms :=
            match get_or (JObj []) (lit "time") part with
            | JObj part_time =>
                if truthy (get (lit "start") part_time)
                then get (lit "start") part_time
                else created
            | _ => created
            end;
          turn_agent := agent |}]
  | _ => []
  end.

(** The turns the rendering loop of a session goes through (lines 315-329):
    those collected from the message files of the session, sorted. *)
Definition session_turns (S : storage) (file : option json) : option (list turn) :=
  match load_dict file with
  | Some session =>
      match get (lit "id") session with
      | JStr session_id =>
          match message_files S session_id with
          | Some files =>
              match collect_messages S JNull files with
              | Ok (messages, _) =>
                  match sort_messages messages with
                  | Ok sorted => Some sorted
                  | Raise => None
                  end
              | Raise => None
              end
          | None => None
          end
      | _ => None
      end
  | None => None
  end.

(** A turn the rendering loop can label: a user turn, or a turn whose agent
    is falsy or a [str]. *)
Definition renderable (msg : turn) : bool :=
  is_str (lit "user") (turn_role msg)
  || match turn_agent msg with
     | JStr _ => true
     | agent => negb (truthy agent)
     end.

(** The key under which the rendering loop looks a turn's agent up, if it
    does. *)
Definition agent_key (E : runtime) (msg : turn) : option str :=
  if is_str (lit "user") (turn_role msg) then None
  else
    match turn_agent msg with
    | JStr (c :: agent) => Some (lower E (base_agent (c :: agent)))
    | _ => None
    end.

(** The two assistant turns of the specification's example. *)
Definition planner_turn (agent : str) (ms : Z) : turn :=
  {| turn_role := JStr (lit "assistant"); turn_text := lit "ok";
     timestamp_ms := JNum ms; turn_agent := JStr agent |}.

Definition sisyphus_turns : list turn :=
  [planner_turn (lit "Planner-Sisyphus") 1704103500000;
   planner_turn (lit "PLANNER-SISYPHUS") 1704103560000].

(** The speaker of a turn of format B: [User], [Assistant] or
    [Assistant (<name>)]. *)
Definition is_speaker (label : str) : Prop :=
  label = lit "User" \/ exists name, label = ConvertOpencode.assistant_label name.

End OpencodeTerms.

(* ===================================================================== *)
(** ** Sample sessions *)
(* ===================================================================== *)

Section Samples.
Import Py Json Runtime Reference.

(** Format A: a user line and an assistant line of session [s1]. *)
Definition hello_lines : list (option json) :=
  [Some (JObj [(lit "type", JStr (lit "user"));
               (lit "message", JObj [(lit "role", JStr (lit "user"));
                                     (lit "content", JStr (lit "hello"))]);
               (lit "timestamp", JStr (lit "2024-01-01T10:05:00Z"));
               (lit "sessionId", JStr (lit "s1"))]);
   Some (JObj [(lit "type", JStr (lit "assistant"));
               (lit "message",
                JObj [(lit "role", JStr (lit "assistant"));
                      (lit "content",
                       JArr [JObj [(lit "type", JStr (lit "text"));
                                   (lit "text", JStr (lit "hi there"))]])]);
               (lit "timestamp", JStr (lit "2024-01-01T10:05:30Z"));
               (lit "sessionId", JStr (lit "s1"))])].

Definition hello_file : ConvertExport.jsonl_file :=
  {| ConvertExport.jsonl_path := lit "/logs/a.jsonl";
     ConvertExport.jsonl_content := ConvertExport.Lines hello_lines;
     ConvertExport.sessions_index := None |}.

(** Format A: a later export of the same session [s1] with another first
    message. *)
Definition again_file : ConvertExport.jsonl_file :=
  {| ConvertExport.jsonl_path := lit "/logs/b.jsonl";
     ConvertExport.jsonl_content :=
       ConvertExport.Lines
         [Some (JObj [(lit "type", JStr (lit "user"));
                      (lit "message", JObj [(lit "role", JStr (lit "user"));
                                            (lit "content", JStr (lit "again"))]);
                      (lit "timestamp", JStr (lit "2024-01-01T11:00:00Z"));
                      (lit "sessionId", JStr (lit "s1"))])];
     ConvertExport.sessions_index := None |}.

(** Format A: a session whose only record is a tool result. *)
Definition tool_only_file : ConvertExport.jsonl_file :=
  {| ConvertExport.jsonl_path := lit "/logs/c.jsonl";
     ConvertExport.jsonl_content := ConvertExport.Lines [Some (JObj tool_result_record)];
     ConvertExport.sessions_index := None |}.

(** Format B: the session [s2] titled [Demo], with one user message of one
    text part. *)
Definition demo_session : json :=
  JObj [(lit "id", JStr (lit "s2")); (lit "title", JStr (lit "Demo"));
        (lit "time", JObj [(lit "created", JNum 1704103500000)])].

Definition demo_storage (sessions : list (option json)) : ConvertOpencode.storage :=
  {| ConvertOpencode.session_files := sessions;
     ConvertOpencode.message_files := fun session_id =>
       if bool_decide (session_id = lit "s2") then
         Some [Some (JObj [(lit "id", JStr (lit "m1")); (lit "role", JStr (lit "user"));
                           (lit "time", JObj [(lit "created", JNum 1704103500000)])])]
       else if bool_decide (session_id = lit "s3") then
         Some [Some (JObj [(lit "id", JStr (lit "m2")); (lit "role", JStr (lit "assistant"));
                           (lit "time", JObj [(lit "created", JNum 1704103600000)])])]
       else None;
     ConvertOpencode.part_files := fun message_id =>
       if bool_decide (message_id = lit "m1") then
         Some [Some (JObj [(lit "type", JStr (lit "text")); (lit "text", JStr (lit "hey"));
                           (lit "time", JObj [(lit "start", JNum 1704103501000)])])]
       else if bool_decide (message_id = lit "m2") then
         Some [Some (JObj [(lit "type", JStr (lit "tool")); (lit "tool", JStr (lit "bash"))]);
               Some (JObj [(lit "type", JStr (lit "text")); (lit "text", JStr (lit "note"));
                           (lit "synthetic", JBool true)])]
       else None |}.

(** Format B: the session [s3], whose only message holds a tool part and a
    synthetic text part. *)
Definition tools_session : json :=
  JObj [(lit "id", JStr (lit "s3")); (lit "title", JStr (lit "Tools"));
        (lit "time", JObj [(lit "created", JNum 1704103600000)])].

(** Format B: the message [m3], created at 10:00, with a text part that has
    a start time, a tool part, a file that is no dict, and a text part whose
    start time is zero. *)
Definition stamped_message : list (str * json) :=
  [(lit "id", JStr (lit "m3")); (lit "role", JStr (lit "assistant"));
   (lit "agent", JStr (lit "build"));
   (lit "time", JObj [(lit "created", JNum 1704103200000)])].

Definition stamped_parts : list (option json) :=
  [Some (JObj [(lit "type", JStr (lit "text")); (lit "text", JStr (lit "one"));
               (lit "time", JObj [(lit "start", JNum 1704103500000)])]);
   Some (JObj [(lit "type", JStr (lit "tool")); (lit "tool", JStr (lit "bash"));
               (lit "time", JObj [(lit "start", JNum 1704103400000)])]);
   None;
   Some (JObj [(lit "type", JStr (lit "text")); (lit "text", JStr (lit "two"));
               (lit "time", JObj [(lit "start", JNum 0)])])].

Definition stamped_storage : ConvertOpencode.storage :=
  {| ConvertOpencode.session_files := [];
     ConvertOpencode.message_files := fun _ => None;
     ConvertOpencode.part_files := fun message_id =>
       if bool_decide (message_id = lit "m3") then Some stamped_parts else None |}.

(** Format B: a message whose [time.created] is zero. *)
Definition unstamped_message : list (str * json) :=
  [(lit "id", JStr (lit "m3")); (lit "role", JStr (lit "assistant"));
   (lit "time", JObj [(lit "created", JNum 0)])].

(** Format B: the sessions [s4] and [s5] of one storage tree.  Each has one
    assistant message of one text part; the agent of the first is
    [Planner-Sisyphus], that of the second [PLANNER-SISYPHUS]. *)
Definition first_session : json :=
  JObj [(lit "id", JStr (lit "s4")); (lit "title", JStr (lit "First"))].

Definition second_session : json :=
  JObj [(lit "id", JStr (lit "s5")); (lit "title", JStr (lit "Second"))].

Definition agent_message (message_id agent : str) (created : Z) : json :=
  JObj [(lit "id", JStr message_id); (lit "role", JStr (lit "assistant"));
        (lit "agent", JStr agent);
        (lit "time", JObj [(lit "created", JNum created)])].

Definition agents_storage : ConvertOpencode.storage :=
  {| ConvertOpencode.session_files := [Some first_session; Some second_session];
     ConvertOpencode.message_files := fun session_id =>
       if bool_decide (session_id = lit "s4") then
         Some [Some (agent_message (lit "m4") (lit "Planner-Sisyphus") 1704103500000)]
       else if bool_decide (session_id = lit "s5") then
         Some [Some (agent_message (lit "m5") (lit "PLANNER-SISYPHUS") 1704103560000)]
       else None;
     ConvertOpencode.part_files := fun message_id =>
       if bool_decide (message_id = lit "m4") || bool_decide (message_id = lit "m5") then
         Some [Some (JObj [(lit "type", JStr (lit "text")); (lit "text", JStr (lit "ok"))])]
       else None |}.

End Samples.

Section RunSamples.
Import Py Json Runtime Reference.

(** The converter after the session [s1] of format A was converted. *)
Definition after_hello : ConvertExport.converter :=
  ConvertExport.after
    (ConvertExport.convert_jsonl cpython ConvertExport.new_converter hello_file).

(** What the parse loop makes of [again_file]. *)
Definition again_parsed : ConvertExport.parsed :=
  {| ConvertExport.messages :=
       [{| ConvertExport.turn_role := ConvertExport.user;
           ConvertExport.turn_text := lit "again";
           ConvertExport.turn_timestamp := JStr (lit "2024-01-01T11:00:00Z") |}];
     ConvertExport.first_timestamp := JStr (lit "2024-01-01T11:00:00Z");
     ConvertExport.first_user_message := Some (lit "again");
     ConvertExport.session_id := JStr (lit "s1");
     ConvertExport.project_path := JNull |}.

End RunSamples.

(* ===================================================================== *)
(** ** Format A: the project directory of [auto_discover] *)
(* ===================================================================== *)

Module Discovery.
Import Py.

Definition slash : N := 47%N.
Definition hyphen : N := 45%N.

(** [s.lstrip("/")] *)
Fixpoint lstrip_slash (s : str) : str :=
  match s with
  | [] => []
  | c :: s' => if (c =? slash)%N then lstrip_slash s' else s
  end.

(** The directory name [auto_discover] (lines 394-410) looks up under
    [~/.claude/projects] for the working directory [cwd]:
    ["-" + cwd.as_posix().lstrip("/").replace("/", "-")]. *)
Definition encoded (cwd : str) : str :=
  lit "-" ++ replace_char slash hyphen (lstrip_slash cwd).

End Discovery.

(* ===================================================================== *)
(** ** Predicates of the invariants and of the runs *)
(* ===================================================================== *)

Section FurtherTerms.
Import Py Json Runtime Normalizer.

(** A line that is no fence and no long code-like line. *)
Definition plain_line (line : str) : bool :=
  negb (is_fence line) && negb (is_file_dump line).

(** A fenced block of at most 10 lines. *)
Definition short_block (code_lines : list str) : bool :=
  negb (10 <? length code_lines).

(** No two hyphens in a row. *)
Fixpoint no_double_hyphen (s : str) : bool :=
  match s with
  | a :: (b :: _) as rest =>
      negb ((a =? 45)%N && (b =? 45)%N) && no_double_hyphen rest
  | _ => true
  end.

(** A character of a slug: a lower-case ASCII letter, a digit or a hyphen. *)
Definition slug_or_hyphen (c : N) : bool := is_slug_char c || (c =? 45)%N.

(** A text as the converters keep it: not empty, and with no whitespace at
    either end. *)
Definition kept_text (text : str) : Prop := text <> [] /\ strip text = text.

(** The lines of a file that [json.loads] decoded. *)
Definition decoded (lines : list (option json)) : list json :=
  omap (fun line => line) lines.

(** A decoded line that is a record without a timestamp, or no record of
    its own (a blank or undecodable line). *)
Definition no_timestamp (line : option json) : bool :=
  match line with
  | Some (JObj o) =>
      match get (lit "timestamp") o with
      | JNull => true
      | _ => false
      end
  | Some _ => false
  | None => true
  end.

(** Every remembered casing lower-cases to the key it is stored under. *)
Definition casing_consistent (E : runtime) (m : gmap str str) : Prop :=
  forall k v, m !! k = Some v -> lower E v = k.



Definition opencode_converted (ev : ConvertOpencode.event) : bool :=
  match ev with
  | ConvertOpencode.Converted _ _ => true
  | _ => false
  end.

Definition opencode_names (log : list ConvertOpencode.event) : list str :=
  omap (fun ev => match ev with
                  | ConvertOpencode.Converted name _ => Some name
                  | _ => None
                  end) log.


Definition opencode_failed (log : list ConvertOpencode.event) : list str :=
  omap (fun ev => match ev with
                  | ConvertOpencode.ErrorWriting name => Some name
                  | _ => None
                  end) log.

(** What one conversion of format B may do to the converter, to the output
    directory and to the log. *)
Definition step_ok (E : runtime) (c : ConvertOpencode.converter)
    (o : ConvertOpencode.outcome) : Prop :=
  ConvertOpencode.processed_sessions c
    ⊆ ConvertOpencode.processed_sessions (ConvertOpencode.after o)
  /\ (casing_consistent E (ConvertOpencode.agent_case_map c) ->
      casing_consistent E (ConvertOpencode.agent_case_map (ConvertOpencode.after o)))
  /\ match ConvertOpencode.returned o with
     | Some true =>
         exists name text n,
           ConvertOpencode.printed o = [ConvertOpencode.Converted name n]
           /\ writable E name = true
           /\ ConvertOpencode.written (ConvertOpencode.after o)
              = <[name := text]> (ConvertOpencode.written c)
     | Some false =>
         (ConvertOpencode.printed o = []
          /\ ConvertOpencode.written (ConvertOpencode.after o)
             = ConvertOpencode.written c)
         \/ exists name text,
              ConvertOpencode.printed o = [ConvertOpencode.ErrorWriting name]
              /\ writable E name = false
              /\ ConvertOpencode.written (ConvertOpencode.after o)
                 = left_behind E name text (ConvertOpencode.written c)
     | None =>
         ConvertOpencode.printed o = []
         /\ ConvertOpencode.written (ConvertOpencode.after o) = ConvertOpencode.written c
     end.

(** A turn of format B whose sort key is an integer, and that integer. *)
Definition int_keyed (t : ConvertOpencode.turn) : bool :=
  match ConvertOpencode.timestamp_ms t with
  | JNum _ => true
  | _ => false
  end.

Definition key_of (t : ConvertOpencode.turn) : Z :=
  match ConvertOpencode.timestamp_ms t with
  | JNum z => z
  | _ => 0%Z
  end.

(** The turns with the sort key [z], in the order of the list. *)
Definition with_key (z : Z) (turns : list ConvertOpencode.turn) : list ConvertOpencode.turn :=
  List.filter (fun t => (key_of t =? z)%Z) turns.

(** Sort keys that never decrease along the list. *)
Fixpoint keys_sorted (turns : list ConvertOpencode.turn) : bool :=
  match turns with
  | [] => true
  | t :: rest => forallb (fun u => (key_of t <=? key_of u)%Z) rest && keys_sorted rest
  end.

(** The turn a record with a block list as content contributes: the texts
    of its text blocks, joined and stripped. *)
Definition block_list_turn (role : ConvertExport.role) (timestamp : json)
    (blocks : list json) : result (option ConvertExport.turn) :=
  match flat_map ConvertExport.text_of_block blocks with
  | [] => Ok None
  | texts =>
      s <- join_texts texts ;;
      match strip s with
      | [] => Ok None
      | text =>
          Ok (Some {| ConvertExport.turn_role := role;
                      ConvertExport.turn_text := text;
                      ConvertExport.turn_timestamp := timestamp |})
      end
  end.

(** The role a record's message names, when it is one the converter keeps. *)
Definition kept_role (message : list (str * json)) : option ConvertExport.role :=
  if is_str (lit "user") (get (lit "role") message) then Some ConvertExport.user
  else if is_str (lit "assistant") (get (lit "role") message)
       then Some ConvertExport.assistant
       else None.

(** An assistant record with a thinking block, two text blocks and a tool
    call between them. *)
Definition mixed_blocks : list json :=
  [JObj [(lit "type", JStr (lit "thinking")); (lit "thinking", JStr (lit "hm"))];
   JObj [(lit "type", JStr (lit "text")); (lit "text", JStr (lit " one"))];
   JObj [(lit "type", JStr (lit "tool_use")); (lit "name", JStr (lit "ls"))];
   JObj [(lit "type", JStr (lit "text")); (lit "text", JStr (lit "two "))]].

Definition mixed_message : list (str * json) :=
  [(lit "role", JStr (lit "assistant")); (lit "content", JArr mixed_blocks)].

Definition mixed_record : list (str * json) :=
  [(lit "type", JStr (lit "assistant")); (lit "message", JObj mixed_message)].

(** A system record whose message is not an object, and a summary record
    without a timestamp. *)
Definition system_record : list (str * json) :=
  [(lit "type", JStr (lit "system")); (lit "message", JStr (lit "boot"));
   (lit "timestamp", JStr (lit "2024-01-01T09:00:00Z"))].

Definition summary_record : list (str * json) :=
  [(lit "type", JStr (lit "summary")); (lit "sessionId", JStr (lit "old"))].

(** What the parse loop makes of [hello_lines]. *)
Definition hello_parsed : ConvertExport.parsed :=
  {| ConvertExport.messages :=
       [{| ConvertExport.turn_role := ConvertExport.user;
           ConvertExport.turn_text := lit "hello";
           ConvertExport.turn_timestamp := JStr (lit "2024-01-01T10:05:00Z") |};
        {| ConvertExport.turn_role := ConvertExport.assistant;
           ConvertExport.turn_text := lit "hi there";
           ConvertExport.turn_timestamp := JStr (lit "2024-01-01T10:05:30Z") |}];
     ConvertExport.first_timestamp := JStr (lit "2024-01-01T10:05:00Z");
     ConvertExport.first_user_message := Some (lit "hello");
     ConvertExport.session_id := JStr (lit "s1");
     ConvertExport.project_path := JNull |}.

(** Format B: the message files of the session [s2] and the turn they give. *)
Definition demo_messages : list (option json) :=
  [Some (JObj [(lit "id", JStr (lit "m1")); (lit "role", JStr (lit "user"));
               (lit "time", JObj [(lit "created", JNum 1704103500000)])])].

Definition demo_turn : ConvertOpencode.turn :=
  {| ConvertOpencode.turn_role := JStr (lit "user");
     ConvertOpencode.turn_text := lit "hey";
     ConvertOpencode.timestamp_ms := JNum 1704103501000;
     ConvertOpencode.turn_agent := JStr [] |}.

(** Format B: three turns out of order, two of them with the same key. *)
Definition keyed_turn (text : String.string) (z : Z) : ConvertOpencode.turn :=
  {| ConvertOpencode.turn_role := JStr (lit "user");
     ConvertOpencode.turn_text := lit text;
     ConvertOpencode.timestamp_ms := JNum z;
     ConvertOpencode.turn_agent := JStr [] |}.

Definition unsorted_turns : list ConvertOpencode.turn :=
  [keyed_turn "b" 2000; keyed_turn "a" 1000; keyed_turn "c" 2000].

End FurtherTerms.

(* ===================================================================== *)
(** ** The embedding on small inputs *)
(* ===================================================================== *)

Section Checks.
Import Py Json Runtime Normalizer Reference.

Example strip_both_ends : strip (lit "  a b 	") = lit "a b".
Proof. vm_compute. reflexivity. Qed.

Example split_keeps_empty_lines :
  split_nl (lit "a" ++ [newline; newline] ++ lit "b" ++ [newline])
  = [lit "a"; lit ""; lit "b"; lit ""].
Proof. vm_compute. reflexivity. Qed.

Example decimal_of_eleven : decimal 11 = lit "11" /\ decimal 0 = lit "0".
Proof. split; vm_compute; reflexivity. Qed.

Example fence_lines :
  is_fence (lit "  ```python") = true /\ is_fence (lit "```") = true
  /\ is_fence (lit "x ```") = false /\ is_fence (lit "``") = false.
Proof. repeat split; vm_compute; reflexivity. Qed.

(** An eleven-line block with a language tag, and one without. *)
Example long_block_collapsed :
  _collapse_code_blocks
    (join_nl (lit "```py" :: List.repeat (lit "pass") 9 ++ [lit "```"; lit "done"]))
  = join_nl [lit "[code block: py... (11 lines)]"; lit "done"]
  /\ _collapse_code_blocks
       (join_nl (lit "```" :: lit "  x = 1" :: List.repeat (lit "pass") 9))
     = lit "[code block: x = 1... (11 lines)]".
Proof. split; vm_compute; reflexivity. Qed.

Example command_tags :
  ConvertExport._is_command_message (lit "<local-command-stdout>ok") = true
  /\ ConvertExport._is_command_message (lit "run the <command> now") = false.
Proof. split; vm_compute; reflexivity. Qed.

Example slug_of_title :
  slug cpython (lit "Hello, World!  It's 9am") = lit "hello-world-it-s-9am".
Proof. vm_compute. reflexivity. Qed.

Example last_segment :
  ConvertOpencode.base_agent (lit "Planner-Sisyphus") = lit "Sisyphus"
  /\ ConvertOpencode.base_agent (lit "solo") = lit "solo"
  /\ ConvertOpencode.base_agent (lit "a-b-") = lit "".
Proof. repeat split; vm_compute; reflexivity. Qed.

(** The sort is stable: of two turns with one timestamp the earlier stays
    first. *)
Example sort_is_stable :
  ConvertOpencode.sort_messages
    [planner_turn (lit "b") 2; planner_turn (lit "first") 1; planner_turn (lit "second") 1]
  = Ok [planner_turn (lit "first") 1; planner_turn (lit "second") 1; planner_turn (lit "b") 2].
Proof. vm_compute. reflexivity. Qed.

(** The first sample session of format A converts to one file. *)
Example hello_converted :
  ConvertExport.returned
    (ConvertExport.convert_jsonl cpython ConvertExport.new_converter hello_file)
  = Some true
  /\ ConvertExport.printed
       (ConvertExport.convert_jsonl cpython ConvertExport.new_converter hello_file)
     = [ConvertExport.Converted (lit "session_2024-01-01_10-05_hello.txt") 2].
Proof. split; vm_compute; reflexivity. Qed.

End Checks.

(* ===================================================================== *)
(** ** Properties of the Python string operations *)
(* ===================================================================== *)

Section StringFacts.
Import Py.

Lemma split_char_nonempty (sep : N) (s : str) : split_char sep s <> [].
Proof.
  induction s as [|c s IH]; simpl; [discriminate|].
  destruct (c =? sep)%N; [discriminate|].
  destruct (split_char sep s); discriminate.
Qed.

Lemma newline_free_cons (c : N) (s : str) :
  newline_free (c :: s) = negb (c =? newline)%N && newline_free s.
Proof. reflexivity. Qed.

Lemma newline_free_app (s t : str) :
  newline_free (s ++ t) = newline_free s && newline_free t.
Proof. unfold newline_free. apply forallb_app. Qed.

(** Splitting a line without newlines gives the line. *)
Lemma split_nl_line (l : str) : newline_free l = true -> split_nl l = [l].
Proof.
  unfold split_nl. induction l as [|c l IH]; simpl; [reflexivity|].
  intros H. apply andb_true_iff in H as [Hc Hl].
  apply negb_true_iff in Hc. rewrite Hc, (IH Hl). reflexivity.
Qed.

Lemma split_nl_app (l s : str) :
  newline_free l = true -> split_nl (l ++ newline :: s) = l :: split_nl s.
Proof.
  unfold split_nl. induction l as [|c l IH]; simpl.
  - intros _. reflexivity.
  - intros H. apply andb_true_iff in H as [Hc Hl].
    apply negb_true_iff in Hc. rewrite Hc, (IH Hl). reflexivity.
Qed.

(** [split] undoes [join] on a non-empty list of lines. *)
Lemma split_join (ls : list str) :
  ls <> [] -> forallb newline_free ls = true -> split_nl (join_nl ls) = ls.
Proof.
  induction ls as [|l ls IH]; [congruence|].
  intros _ H. simpl in H. apply andb_true_iff in H as [Hl Hls].
  destruct ls as [|l' ls].
  - simpl. apply split_nl_line, Hl.
  - change (join_nl (l :: l' :: ls)) with (l ++ newline :: join_nl (l' :: ls)).
    rewrite split_nl_app by exact Hl.
    rewrite IH; [reflexivity | discriminate | exact Hls].
Qed.

(** The lines [split] returns hold no newline. *)
Lemma split_newline_free (s : str) : forallb newline_free (split_nl s) = true.
Proof.
  unfold split_nl. induction s as [|c s IH]; simpl; [reflexivity|].
  destruct (c =? newline)%N eqn:Hc; simpl; [exact IH|].
  destruct (split_char newline s) as [|l ls]; simpl in *.
  - rewrite Hc. reflexivity.
  - rewrite Hc. exact IH.
Qed.

Lemma startswith_take (p s : str) (n : nat) :
  startswith p (take n s) = true -> startswith p s = true.
Proof.
  revert s n. induction p as [|a p IH]; intros s n; [reflexivity|].
  destruct s as [|b s]; destruct n as [|n]; simpl; try discriminate.
  intros H. apply andb_true_iff in H as [Hab Hp].
  rewrite Hab. simpl. eapply IH, Hp.
Qed.

Lemma is_space_eqb (a c : N) : (a =? c)%N = true -> is_space a = is_space c.
Proof. intros H. apply N.eqb_eq in H. congruence. Qed.

(** A prefix without whitespace survives [rstrip]. *)
Lemma startswith_rstrip (p y : str) :
  forallb (fun c => negb (is_space c)) p = true ->
  startswith p (rstrip y) = startswith p y.
Proof.
  revert p. induction y as [|c y IH]; intros p Hp; [reflexivity|].
  destruct p as [|a p]; [reflexivity|].
  simpl in Hp. apply andb_true_iff in Hp as [Ha Hp].
  apply negb_true_iff in Ha.
  specialize (IH p Hp). simpl.
  destruct (rstrip y) as [|r0 r] eqn:Hr.
  - destruct (is_space c) eqn:Hc.
    + simpl. destruct (a =? c)%N eqn:Hac; [|reflexivity].
      apply is_space_eqb in Hac. congruence.
    + simpl. rewrite <- IH. reflexivity.
  - simpl. rewrite <- IH. reflexivity.
Qed.

Lemma rstrip_newline_free (s : str) :
  newline_free s = true -> newline_free (rstrip s) = true.
Proof.
  induction s as [|c s IH]; [reflexivity|].
  rewrite newline_free_cons. intros H. apply andb_true_iff in H as [Hc Hs].
  specialize (IH Hs). simpl.
  destruct (rstrip s) as [|r0 r].
  - destruct (is_space c); [reflexivity|]. simpl. rewrite Hc. reflexivity.
  - rewrite newline_free_cons, Hc. exact IH.
Qed.

Lemma lstrip_newline_free (s : str) :
  newline_free s = true -> newline_free (lstrip s) = true.
Proof.
  induction s as [|c s IH]; [reflexivity|].
  intros H. simpl. destruct (is_space c); [|exact H].
  rewrite newline_free_cons in H. apply andb_true_iff in H as [_ Hs]. exact (IH Hs).
Qed.

Lemma strip_newline_free (s : str) :
  newline_free s = true -> newline_free (strip s) = true.
Proof. intros H. apply rstrip_newline_free, lstrip_newline_free, H. Qed.

Lemma drop_newline_free (n : nat) (s : str) :
  newline_free s = true -> newline_free (drop n s) = true.
Proof.
  revert s. induction n as [|n IH]; intros s H; [exact H|].
  destruct s as [|c s]; [reflexivity|].
  rewrite newline_free_cons in H. apply andb_true_iff in H as [_ Hs]. exact (IH s Hs).
Qed.

Lemma take_newline_free (n : nat) (s : str) :
  newline_free s = true -> newline_free (take n s) = true.
Proof.
  revert s. induction n as [|n IH]; intros s H; [reflexivity|].
  destruct s as [|c s]; [reflexivity|].
  rewrite newline_free_cons in H. apply andb_true_iff in H as [Hc Hs].
  change (take (S n) (c :: s)) with (c :: take n s).
  rewrite newline_free_cons, Hc. exact (IH s Hs).
Qed.

Lemma uint_digits_newline_free (d : Decimal.uint) : newline_free (uint_digits d) = true.
Proof. induction d; simpl; auto. Qed.

End StringFacts.

(* ===================================================================== *)
(** ** The scan of [_collapse_code_blocks] *)
(* ===================================================================== *)

Section ScanFacts.
Import Py Normalizer.

(** Only leading whitespace matters to the fence test. *)
Lemma is_fence_lstrip (line : str) :
  is_fence line = startswith (lit "```") (lstrip line).
Proof. unfold is_fence, strip. apply startswith_rstrip. reflexivity. Qed.

Lemma startswith_lstrip_take (p line : str) (n : nat) :
  startswith p (lstrip (take n line)) = true -> startswith p (lstrip line) = true.
Proof.
  revert n. induction line as [|c line IH]; intros n Ht.
  - destruct n; exact Ht.
  - destruct n as [|n]; [destruct p; [reflexivity | discriminate Ht]|].
    change (take (S n) (c :: line)) with (c :: take n line) in Ht.
    cbn [lstrip] in *. destruct (is_space c).
    + apply (IH n Ht).
    + apply (startswith_take _ (c :: line) (S n)). exact Ht.
Qed.

(** Cutting a line short does not make it a fence. *)
Lemma is_fence_take (n : nat) (line : str) :
  is_fence line = false -> is_fence (take n line) = false.
Proof.
  rewrite !is_fence_lstrip. intros H.
  destruct (startswith (lit "```") (lstrip (take n line))) eqn:Ht; [|reflexivity].
  rewrite <- H. symmetry. eapply startswith_lstrip_take, Ht.
Qed.

Lemma is_fence_summary (code_lines : list str) :
  is_fence (block_summary code_lines) = false.
Proof. rewrite is_fence_lstrip. reflexivity. Qed.

Lemma emit_line_not_fence (line : str) :
  is_fence line = false -> is_fence (emit_line line) = false.
Proof. unfold emit_line. destruct (is_file_dump line); [reflexivity | auto]. Qed.

(** A line the scan has passed through is passed through again. *)
Lemma emit_line_idem (line : str) : emit_line (emit_line line) = emit_line line.
Proof.
  unfold emit_line at 2 3. destruct (is_file_dump line) eqn:H; [reflexivity|].
  unfold emit_line. rewrite H. reflexivity.
Qed.

Lemma fence_count_cons (line : str) (lines : list str) :
  fence_count (line :: lines) =
  if is_fence line then S (fence_count lines) else fence_count lines.
Proof. unfold fence_count. simpl. destruct (is_fence line); reflexivity. Qed.

Lemma outside_after_cons (line : str) (lines : list str) :
  outside_after (line :: lines) =
  if is_fence line then negb (outside_after lines) else outside_after lines.
Proof.
  unfold outside_after. rewrite fence_count_cons.
  destruct (is_fence line); [|reflexivity].
  rewrite Nat.even_succ, <- Nat.negb_even. reflexivity.
Qed.

(** The inner loop runs through lines that are not fences. *)
Lemma scan_block_inner (inner : list str) :
  forall code_lines rest,
    forallb not_fence inner = true ->
    scan_block code_lines (inner ++ rest) = scan_block (code_lines ++ inner) rest.
Proof.
  induction inner as [|l inner IH]; intros code_lines rest H.
  - rewrite app_nil_r. reflexivity.
  - simpl in H. apply andb_true_iff in H as [Hl Hin].
    apply negb_true_iff in Hl. simpl. rewrite Hl.
    rewrite IH by exact Hin. rewrite <- app_assoc. reflexivity.
Qed.

(** A closed block in front of the scan. *)
Lemma scan_lines_closed_block (opening closing : str) (inner rest : list str) :
  is_fence opening = true -> forallb not_fence inner = true ->
  is_fence closing = true ->
  scan_lines (opening :: inner ++ closing :: rest) =
  emit_block (opening :: inner ++ [closing]) ++ scan_lines rest.
Proof.
  intros Ho Hin Hc. simpl. rewrite Ho.
  rewrite scan_block_inner by exact Hin. simpl. rewrite Hc. reflexivity.
Qed.

(** A fence that is never closed takes the remaining lines. *)
Lemma scan_lines_open_block (opening : str) (inner : list str) :
  is_fence opening = true -> forallb not_fence inner = true ->
  scan_lines (opening :: inner) = emit_block (opening :: inner).
Proof.
  intros Ho Hin. simpl. rewrite Ho.
  rewrite <- (app_nil_r inner) at 1.
  rewrite scan_block_inner by exact Hin. reflexivity.
Qed.

(** After a run of lines with an even number of fences the scan is outside
    a block, and goes on as from the start. *)
Lemma scan_app_both (pre rest : list str) :
  (outside_after pre = true ->
   scan_lines (pre ++ rest) = scan_lines pre ++ scan_lines rest) /\
  (outside_after pre = false ->
   forall code_lines,
     scan_block code_lines (pre ++ rest) = scan_block code_lines pre ++ scan_lines rest).
Proof.
  induction pre as [|line pre [IHout IHin]].
  - split; [reflexivity | discriminate].
  - rewrite outside_after_cons. simpl.
    destruct (is_fence line) eqn:Hf; split; intros H.
    + apply negb_true_iff in H. apply IHin, H.
    + apply negb_false_iff in H. intros code_lines.
      rewrite (IHout H), app_assoc. reflexivity.
    + rewrite (IHout H). reflexivity.
    + intros code_lines. apply IHin, H.
Qed.

Lemma scan_lines_app (pre rest : list str) :
  outside_after pre = true ->
  scan_lines (pre ++ rest) = scan_lines pre ++ scan_lines rest.
Proof. apply scan_app_both. Qed.

Lemma emit_block_nonempty (code_lines : list str) :
  code_lines <> [] -> emit_block code_lines <> [].
Proof.
  unfold emit_block. destruct (10 <? length code_lines); [discriminate | auto].
Qed.

Lemma scan_block_nonempty (lines code_lines : list str) :
  code_lines <> [] -> scan_block code_lines lines <> [].
Proof.
  revert code_lines. induction lines as [|l lines IH]; intros code_lines H; simpl.
  - apply emit_block_nonempty, H.
  - destruct (is_fence l).
    + intros E. apply app_eq_nil in E as [E _].
      revert E. apply emit_block_nonempty. destruct code_lines; discriminate.
    + apply IH. destruct code_lines; discriminate.
Qed.

(** The scan writes at least one line for a non-empty input. *)
Lemma scan_lines_nonempty (lines : list str) : lines <> [] -> scan_lines lines <> [].
Proof.
  destruct lines as [|l lines]; [congruence|]. intros _. simpl.
  destruct (is_fence l); [apply scan_block_nonempty|]; discriminate.
Qed.

Lemma block_label_newline_free (code_lines : list str) :
  forallb newline_free code_lines = true -> newline_free (block_label code_lines) = true.
Proof.
  intros H. unfold block_label.
  assert (H0 : newline_free (strip (List.nth 0 code_lines [])) = true).
  { apply strip_newline_free. destruct code_lines as [|l ?]; [reflexivity|].
    simpl in *. apply andb_true_iff in H as [H _]. exact H. }
  set (first_line := strip (List.nth 0 code_lines [])) in *.
  assert (H1 : newline_free (if startswith (lit "```") first_line
                             then strip (drop 3 first_line) else first_line) = true).
  { destruct (startswith (lit "```") first_line); [|exact H0].
    apply strip_newline_free, drop_newline_free, H0. }
  destruct (if startswith (lit "```") first_line
            then strip (drop 3 first_line) else first_line) as [|c s]; [|exact H1].
  destruct code_lines as [|l0 [|l1 ?]]; try reflexivity.
  apply strip_newline_free. simpl in H.
  apply andb_true_iff in H as [_ H]. apply andb_true_iff in H as [H _]. exact H.
Qed.

Lemma block_summary_newline_free (code_lines : list str) :
  forallb newline_free code_lines = true -> newline_free (block_summary code_lines) = true.
Proof.
  intros H. unfold block_summary. rewrite !newline_free_app.
  rewrite (block_label_newline_free _ H).
  unfold decimal. rewrite uint_digits_newline_free. reflexivity.
Qed.

Lemma emit_block_newline_free (code_lines : list str) :
  forallb newline_free code_lines = true ->
  forallb newline_free (emit_block code_lines) = true.
Proof.
  intros H. unfold emit_block. destruct (10 <? length code_lines); [|exact H].
  cbn [forallb]. rewrite (block_summary_newline_free _ H). reflexivity.
Qed.

Lemma emit_line_newline_free (line : str) :
  newline_free line = true -> newline_free (emit_line line) = true.
Proof. unfold emit_line. destruct (is_file_dump line); [reflexivity | auto]. Qed.

Lemma scan_newline_free_both (lines : list str) :
  forallb newline_free lines = true ->
  forallb newline_free (scan_lines lines) = true /\
  forall code_lines,
    forallb newline_free code_lines = true ->
    forallb newline_free (scan_block code_lines lines) = true.
Proof.
  induction lines as [|l lines IH]; intros H.
  - split; [reflexivity|]. intros code_lines Hc. apply emit_block_newline_free, Hc.
  - simpl in H. apply andb_true_iff in H as [Hl Hls].
    destruct (IH Hls) as [IHout IHin]. simpl.
    assert (Hext : forall code_lines, forallb newline_free code_lines = true ->
                     forallb newline_free (code_lines ++ [l]) = true).
    { intros code_lines Hc. rewrite forallb_app, Hc. simpl. rewrite Hl. reflexivity. }
    split.
    + destruct (is_fence l).
      * apply IHin. simpl. rewrite Hl. reflexivity.
      * simpl. rewrite (emit_line_newline_free _ Hl). exact IHout.
    + intros code_lines Hc. destruct (is_fence l).
      * rewrite forallb_app, (emit_block_newline_free _ (Hext _ Hc)). exact IHout.
      * apply IHin, Hext, Hc.
Qed.

(** The scan writes no newline into a line. *)
Lemma scan_lines_newline_free (lines : list str) :
  forallb newline_free lines = true -> forallb newline_free (scan_lines lines) = true.
Proof. intros H. apply scan_newline_free_both, H. Qed.

(** On text given by its lines, the normalizer is the scan of the lines. *)
Lemma collapse_join (lines : list str) :
  lines <> [] -> forallb newline_free lines = true ->
  _collapse_code_blocks (join_nl lines) = join_nl (scan_lines lines).
Proof.
  intros Hne Hnl. unfold _collapse_code_blocks. rewrite split_join by assumption.
  reflexivity.
Qed.

End ScanFacts.

(* ===================================================================== *)
(** ** Claims on the text normalizer *)
(* ===================================================================== *)

Section NormalizerClaims.
Import Py Normalizer.

Lemma summaries_cons (code_lines : list str) (blocks : list (list str)) :
  forallb summary_kept (List.map block_summary (List.filter long_block (code_lines :: blocks)))
  = (if long_block code_lines then summary_kept (block_summary code_lines) else true)
    && forallb summary_kept (List.map block_summary (List.filter long_block blocks)).
Proof. simpl. destruct (long_block code_lines); reflexivity. Qed.

Lemma scan_lines_kept_summary (code_lines rest : list str) :
  summary_kept (block_summary code_lines) = true ->
  scan_lines (block_summary code_lines :: rest) = block_summary code_lines :: scan_lines rest.
Proof.
  intros H. cbn [scan_lines]. rewrite is_fence_summary.
  unfold emit_line. apply negb_true_iff in H. rewrite H. reflexivity.
Qed.

(** Scanning again what a closed block has produced. *)
Lemma rescan_closed_block (opening closing : str) (inner rest : list str) :
  let code_lines := opening :: inner ++ [closing] in
  is_fence opening = true -> forallb not_fence inner = true ->
  is_fence closing = true ->
  (if long_block code_lines then summary_kept (block_summary code_lines) else true) = true ->
  scan_lines (emit_block code_lines ++ rest) = emit_block code_lines ++ scan_lines rest.
Proof.
  intros code_lines Ho Hin Hc Hk. unfold emit_block at 1.
  unfold long_block in Hk. destruct (10 <? length code_lines) eqn:Hlen.
  - cbn [app]. rewrite scan_lines_kept_summary by exact Hk.
    unfold emit_block. rewrite Hlen. reflexivity.
  - subst code_lines. cbn [app]. rewrite <- app_assoc. cbn [app].
    apply scan_lines_closed_block; assumption.
Qed.

(** Scanning again what an unterminated block has produced. *)
Lemma rescan_open_block (opening : str) (inner : list str) :
  let code_lines := opening :: inner in
  is_fence opening = true -> forallb not_fence inner = true ->
  (if long_block code_lines then summary_kept (block_summary code_lines) else true) = true ->
  scan_lines (emit_block code_lines) = emit_block code_lines.
Proof.
  intros code_lines Ho Hin Hk. unfold emit_block at 1.
  unfold long_block in Hk. destruct (10 <? length code_lines) eqn:Hlen.
  - rewrite scan_lines_kept_summary by exact Hk.
    unfold emit_block. rewrite Hlen. reflexivity.
  - apply scan_lines_open_block; assumption.
Qed.

Lemma scan_idem_both (lines : list str) :
  (forallb summary_kept (collapsed_summaries lines) = true ->
   scan_lines (scan_lines lines) = scan_lines lines) /\
  (forall opening inner,
     is_fence opening = true -> forallb not_fence inner = true ->
     forallb summary_kept
       (List.map block_summary
          (List.filter long_block (block_from (opening :: inner) lines))) = true ->
     scan_lines (scan_block (opening :: inner) lines)
     = scan_block (opening :: inner) lines).
Proof.
  induction lines as [|l lines [IHout IHin]].
  - split; [reflexivity|]. intros opening inner Ho Hin Hk.
    cbn [scan_block block_from] in *. rewrite summaries_cons, andb_true_r in Hk.
    apply rescan_open_block; assumption.
  - unfold collapsed_summaries in *. cbn [scan_lines scan_block blocks_of block_from].
    destruct (is_fence l) eqn:Hl; split.
    + intros Hk. apply (IHin l []); [exact Hl | reflexivity | exact Hk].
    + intros opening inner Ho Hin Hk.
      rewrite summaries_cons in Hk. apply andb_true_iff in Hk as [Hk Hrest].
      cbn [app] in *. rewrite rescan_closed_block by assumption.
      rewrite (IHout Hrest). reflexivity.
    + intros Hk. cbn [scan_lines]. rewrite (emit_line_not_fence _ Hl), emit_line_idem.
      rewrite (IHout Hk). reflexivity.
    + intros opening inner Ho Hin Hk. cbn [app] in *.
      apply (IHin opening (inner ++ [l])); [exact Ho | | exact Hk].
      rewrite forallb_app, Hin. unfold not_fence at 1. cbn [forallb].
      rewrite Hl. reflexivity.
Qed.

(** A summary line differs from the file-dump placeholder. *)
Lemma summary_fixed_kept (code_lines : list str) :
  emit_line (block_summary code_lines) = block_summary code_lines ->
  summary_kept (block_summary code_lines) = true.
Proof.
  unfold emit_line, summary_kept.
  destruct (is_file_dump (block_summary code_lines)); [|reflexivity].
  intros H. apply (f_equal (fun s => List.nth 1 s 0%N)) in H.
  vm_compute in H. discriminate H.
Qed.

(** Conversely, a scan that a second scan leaves alone has kept every
    summary line. *)
Lemma scan_fixed_both (lines : list str) :
  (scan_lines (scan_lines lines) = scan_lines lines ->
   forallb summary_kept (collapsed_summaries lines) = true) /\
  (forall opening inner,
     is_fence opening = true -> forallb not_fence inner = true ->
     scan_lines (scan_block (opening :: inner) lines)
     = scan_block (opening :: inner) lines ->
     forallb summary_kept
       (List.map block_summary
          (List.filter long_block (block_from (opening :: inner) lines))) = true).
Proof.
  induction lines as [|l lines [IHout IHin]].
  - split; [reflexivity|]. intros opening inner Ho Hin H.
    cbn [scan_block block_from] in *. rewrite summaries_cons, andb_true_r.
    unfold long_block, emit_block in *.
    destruct (10 <? length (opening :: inner)); [|reflexivity].
    cbn [scan_lines] in H. rewrite is_fence_summary in H.
    injection H as H. apply summary_fixed_kept, H.
  - unfold collapsed_summaries in *. cbn [scan_lines scan_block blocks_of block_from].
    destruct (is_fence l) eqn:Hl; split.
    + intros H. apply (IHin l []); [exact Hl | reflexivity | exact H].
    + intros opening inner Ho Hin H. cbn [app] in *.
      rewrite summaries_cons. apply andb_true_iff.
      unfold long_block, emit_block in *.
      destruct (10 <? length (opening :: inner ++ [l])) eqn:Hlen.
      * cbn [app scan_lines] in H. rewrite is_fence_summary in H.
        injection H as Hsum Hrest. split; [apply summary_fixed_kept, Hsum|].
        apply IHout, Hrest.
      * split; [reflexivity|]. apply IHout.
        cbn [app] in H. rewrite <- app_assoc in H. cbn [app] in H.
        rewrite scan_lines_closed_block in H by assumption.
        unfold emit_block in H. rewrite Hlen in H.
        cbn [app] in H. rewrite <- app_assoc in H. cbn [app] in H.
        injection H as H. apply app_inv_head in H. injection H as H. exact H.
    + intros H. cbn [scan_lines] in H. rewrite (emit_line_not_fence _ Hl) in H.
      injection H as _ H. apply IHout, H.
    + intros opening inner Ho Hin H. cbn [app] in *.
      apply (IHin opening (inner ++ [l])); [exact Ho | | exact H].
      rewrite forallb_app, Hin. unfold not_fence at 1. cbn [forallb].
      rewrite Hl. reflexivity.
Qed.

(** Every summary line counted by [collapsed_summaries] is a line of the
    scan's output. *)
Lemma collapsed_summaries_written (lines : list str) :
  (forall s, In s (collapsed_summaries lines) -> In s (scan_lines lines)) /\
  (forall code_lines s,
     In s (List.map block_summary (List.filter long_block (block_from code_lines lines))) ->
     In s (scan_block code_lines lines)).
Proof.
  assert (Hemit : forall code_lines s,
            In s (List.map block_summary (List.filter long_block [code_lines])) ->
            In s (emit_block code_lines)).
  { intros code_lines s. cbn [List.filter]. unfold long_block, emit_block.
    destruct (10 <? length code_lines); [exact (fun H => H) | intros []]. }
  induction lines as [|l lines [IHout IHin]].
  - split; [intros s []|]. intros code_lines s. apply Hemit.
  - unfold collapsed_summaries in *. cbn [scan_lines scan_block blocks_of block_from].
    destruct (is_fence l); split.
    + intros s. apply IHin.
    + intros code_lines s H. apply in_or_app.
      change ((code_lines ++ [l]) :: blocks_of lines)
        with ([code_lines ++ [l]] ++ blocks_of lines) in H.
      rewrite List.filter_app, List.map_app in H. apply in_app_or in H as [H|H].
      * left. apply Hemit, H.
      * right. apply IHout, H.
    + intros s H. right. apply IHout, H.
    + intros code_lines s. apply IHin.
Qed.

(** C1 (amended): the normalizer is idempotent exactly on the texts in which
    no summary line written for a collapsed block is itself a long code-like
    line, that is, longer than 500 characters with a code indicator in it:
    [normalize (normalize x) = normalize x] holds for such a text, and for
    no other. *)
Theorem normalizer_idempotent_iff_summaries_kept (x : str) :
  _collapse_code_blocks (_collapse_code_blocks x) = _collapse_code_blocks x
  <-> forallb summary_kept (collapsed_summaries (split_nl x)) = true.
Proof.
  assert (Hne : scan_lines (split_nl x) <> [])
    by apply scan_lines_nonempty, split_char_nonempty.
  assert (Hnl : forallb newline_free (scan_lines (split_nl x)) = true)
    by apply scan_lines_newline_free, split_newline_free.
  unfold _collapse_code_blocks. rewrite split_join by assumption. split.
  - intros H. apply scan_fixed_both.
    apply (f_equal split_nl) in H.
    rewrite (split_join _ Hne Hnl) in H.
    rewrite split_join in H;
      [exact H | apply scan_lines_nonempty, Hne | apply scan_lines_newline_free, Hnl].
  - intros Hk. f_equal. apply scan_idem_both, Hk.
Qed.

(** C1 on [sample_text]: every summary is kept, and a second pass changes
    nothing. *)
Lemma normalizer_idempotent_witness :
  forallb summary_kept (collapsed_summaries (split_nl sample_text)) = true /\
  _collapse_code_blocks (_collapse_code_blocks sample_text)
  = _collapse_code_blocks sample_text.
Proof.
  split.
  - vm_compute. reflexivity.
  - apply (proj2 (normalizer_idempotent_iff_summaries_kept sample_text)).
    vm_compute. reflexivity.
Defined.

(** C1 (as stated) fails: the summary of the collapsed block is longer than
    500 characters and holds a brace, so the second pass replaces it by the
    file-dump placeholder. *)
Lemma normalizer_not_idempotent :
  _collapse_code_blocks long_tag_text
  = lit "[code block: {" ++ List.repeat 97%N 500 ++ lit "... (11 lines)]"
  /\ _collapse_code_blocks (_collapse_code_blocks long_tag_text)
     = lit "[file dump: long code output stripped]"
  /\ _collapse_code_blocks (_collapse_code_blocks long_tag_text)
     <> _collapse_code_blocks long_tag_text.
Proof.
  split; [vm_compute; reflexivity|].
  split; [vm_compute; reflexivity|].
  vm_compute. discriminate.
Qed.

(** C4: in a text given by its lines, a fenced block that starts outside any
    block is written out line for line, fences included, when it spans at
    most 10 lines (so at exactly 10), and is replaced by the one line
    [[code block: <label>... (<N> lines)]] when it spans 11 lines or more,
    [N] counting both fences; a fence that is never closed spans all the
    remaining lines. *)
Theorem fenced_block_threshold
    (pre : list str) (opening : str) (inner : list str) (closing : str)
    (post : list str) :
  forallb newline_free (pre ++ opening :: inner ++ closing :: post) = true ->
  outside_after pre = true ->
  is_fence opening = true ->
  forallb not_fence inner = true ->
  is_fence closing = true ->
  (length inner <= 8 ->
   _collapse_code_blocks (join_nl (pre ++ opening :: inner ++ closing :: post))
   = join_nl (scan_lines pre ++ (opening :: inner ++ [closing]) ++ scan_lines post))
  /\ (9 <= length inner ->
      _collapse_code_blocks (join_nl (pre ++ opening :: inner ++ closing :: post))
      = join_nl (scan_lines pre
                 ++ [lit "[code block: " ++ block_label (opening :: inner ++ [closing])
                     ++ lit "... (" ++ decimal (length inner + 2) ++ lit " lines)]"]
                 ++ scan_lines post))
  /\ (10 <= length inner ->
      _collapse_code_blocks (join_nl (pre ++ opening :: inner))
      = join_nl (scan_lines pre
                 ++ [lit "[code block: " ++ block_label (opening :: inner)
                     ++ lit "... (" ++ decimal (length inner + 1) ++ lit " lines)]"])).
Proof.
  intros Hnl Hpre Ho Hin Hc.
  assert (Hclosed :
    _collapse_code_blocks (join_nl (pre ++ opening :: inner ++ closing :: post))
    = join_nl (scan_lines pre ++ emit_block (opening :: inner ++ [closing])
               ++ scan_lines post)).
  { rewrite collapse_join; [| destruct pre; discriminate | exact Hnl].
    rewrite scan_lines_app by exact Hpre.
    rewrite scan_lines_closed_block by assumption. reflexivity. }
  assert (Hlen : length (opening :: inner ++ [closing]) = length inner + 2).
  { cbn [length]. rewrite length_app. cbn [length]. lia. }
  split; [|split]; intros Hn.
  - rewrite Hclosed. unfold emit_block. rewrite Hlen.
    destruct (Nat.ltb_spec 10 (length inner + 2)); [lia | reflexivity].
  - rewrite Hclosed. unfold emit_block, block_summary. rewrite Hlen.
    destruct (Nat.ltb_spec 10 (length inner + 2)); [reflexivity | lia].
  - rewrite collapse_join.
    + rewrite scan_lines_app by exact Hpre.
      rewrite scan_lines_open_block by assumption.
      unfold emit_block, block_summary. cbn [length].
      replace (S (length inner)) with (length inner + 1) by lia.
      destruct (Nat.ltb_spec 10 (length inner + 1)); [reflexivity | lia].
    + destruct pre; discriminate.
    + rewrite forallb_app in Hnl |- *. apply andb_true_iff in Hnl as [Hp Hrest].
      rewrite Hp. cbn [forallb] in Hrest |- *.
      apply andb_true_iff in Hrest as [Hop Hrest]. rewrite Hop.
      rewrite forallb_app in Hrest. apply andb_true_iff in Hrest as [Hrest _].
      exact Hrest.
Qed.

(** C4 on a block of exactly ten lines between two plain lines: it is
    written out as it stands. *)
Lemma fenced_block_threshold_witness :
  forallb newline_free ([lit "before"] ++ ten_line_block ++ [lit "after"]) = true
  /\ outside_after [lit "before"] = true
  /\ _collapse_code_blocks (join_nl ([lit "before"] ++ ten_line_block ++ [lit "after"]))
     = join_nl ([lit "before"] ++ ten_line_block ++ [lit "after"]).
Proof.
  split; [vm_compute; reflexivity|]. split; [vm_compute; reflexivity|].
  destruct (fenced_block_threshold [lit "before"] (lit "```sh")
              (List.repeat (lit "code") 8) (lit "```") [lit "after"])
    as [Hshort _]; [vm_compute; reflexivity .. | ].
  apply Hshort. vm_compute. lia.
Defined.

(** C5: in a text given by its lines, a line outside every fenced block is
    replaced by [[file dump: long code output stripped]] exactly when it is
    longer than 500 characters and holds a code indicator, and is written
    out unchanged otherwise; so a 501-character line holding ["import "] is
    replaced, and the same line cut to 500 characters is not. *)
Theorem long_line_suppression (pre : list str) (line : str) (post : list str) :
  forallb newline_free (pre ++ line :: post) = true ->
  outside_after pre = true ->
  is_fence line = false ->
  _collapse_code_blocks (join_nl (pre ++ line :: post))
  = join_nl (scan_lines pre
             ++ [if (500 <? length line)
                    && existsb (fun indicator => contains indicator line) indicators
                 then lit "[file dump: long code output stripped]"
                 else line]
             ++ scan_lines post)
  /\ (length line = 501 -> contains (lit "import ") line = true ->
      _collapse_code_blocks (join_nl (pre ++ line :: post))
      = join_nl (scan_lines pre ++ [lit "[file dump: long code output stripped]"]
                 ++ scan_lines post)
      /\ _collapse_code_blocks (join_nl (pre ++ take 500 line :: post))
         = join_nl (scan_lines pre ++ [take 500 line] ++ scan_lines post)).
Proof.
  intros Hnl Hpre Hf.
  assert (Hone : forall l, forallb newline_free (pre ++ l :: post) = true ->
            is_fence l = false ->
            _collapse_code_blocks (join_nl (pre ++ l :: post))
            = join_nl (scan_lines pre ++ [emit_line l] ++ scan_lines post)).
  { intros l Hl Hfl. rewrite collapse_join; [| destruct pre; discriminate | exact Hl].
    rewrite scan_lines_app by exact Hpre. cbn [scan_lines]. rewrite Hfl. reflexivity. }
  split; [apply (Hone line Hnl Hf)|].
  intros Hlen Himport. split.
  - rewrite (Hone line Hnl Hf). unfold emit_line, is_file_dump, indicators.
    rewrite Hlen. cbn [existsb]. rewrite Himport, !orb_true_r. reflexivity.
  - rewrite Hone.
    + unfold emit_line, is_file_dump. rewrite length_take, Hlen. reflexivity.
    + rewrite forallb_app in Hnl |- *. apply andb_true_iff in Hnl as [Hp Hrest].
      rewrite Hp. cbn [forallb] in Hrest |- *.
      apply andb_true_iff in Hrest as [Hline Hrest].
      rewrite (take_newline_free _ _ Hline). exact Hrest.
    + apply is_fence_take, Hf.
Qed.

(** C5 on a 501-character line holding ["import "] after a short closed
    block: the line is replaced, its first 500 characters are not. *)
Lemma long_line_suppression_witness :
  forallb newline_free ([lit "```"; lit "ls"; lit "```"] ++ import_line :: [lit "end"]) = true
  /\ outside_after [lit "```"; lit "ls"; lit "```"] = true
  /\ is_fence import_line = false
  /\ _collapse_code_blocks
       (join_nl ([lit "```"; lit "ls"; lit "```"] ++ import_line :: [lit "end"]))
     = join_nl ([lit "```"; lit "ls"; lit "```"]
                ++ [lit "[file dump: long code output stripped]"] ++ [lit "end"])
  /\ _collapse_code_blocks
       (join_nl ([lit "```"; lit "ls"; lit "```"] ++ take 500 import_line :: [lit "end"]))
     = join_nl ([lit "```"; lit "ls"; lit "```"] ++ [take 500 import_line] ++ [lit "end"]).
Proof.
  split; [vm_compute; reflexivity|]. split; [vm_compute; reflexivity|].
  split; [vm_compute; reflexivity|].
  destruct (long_line_suppression [lit "```"; lit "ls"; lit "```"] import_line
              [lit "end"]) as [_ Hcut]; [vm_compute; reflexivity .. | ].
  apply Hcut; vm_compute; reflexivity.
Defined.

End NormalizerClaims.

(* ===================================================================== *)
(** ** Claims on the message filter of format A *)
(* ===================================================================== *)

Section FilterClaims.
Import Py Json ConvertExport.

Lemma should_skip_dict (o : list (str * json)) :
  exists skip, _should_skip_message (JObj o) = Ok skip.
Proof.
  unfold _should_skip_message.
  repeat match goal with |- context [if ?b then _ else _] => destruct b end; eauto.
Qed.

(** A record whose message has the role [user] yields no assistant text. *)
Lemma user_role_no_assistant_text (o message : list (str * json)) :
  message_of o = Ok message ->
  is_str (lit "user") (get (lit "role") message) = true ->
  _extract_assistant_message (JObj o) = Ok None.
Proof.
  intros Hm Hrole. unfold _extract_assistant_message.
  destruct (should_skip_dict o) as [skip ->]. cbn [bind].
  destruct skip; [reflexivity|]. rewrite Hm. cbn [bind].
  destruct (get (lit "role") message) as [| | |r| |]; try discriminate Hrole.
  unfold is_str in *. apply bool_decide_eq_true in Hrole. subst r. reflexivity.
Qed.

(** A record without a turn leaves [messages] as it is. *)
Lemma parse_record_no_turn (p : parsed) (o : list (str * json)) :
  record_turn (JObj o) = Ok None ->
  exists p', parse_record p (JObj o) = Ok p' /\ messages p' = messages p.
Proof.
  intros Hturn. unfold parse_record, capture_metadata. rewrite Hturn.
  destruct (first_timestamp p); cbn [bind]; eexists; split; reflexivity.
Qed.

(** C6: in format A, a record whose message has the role [user] and whose
    content is a string holding [<command-] or [<local-command-] is dropped:
    the parse loop adds no turn for it. *)
Theorem command_message_dropped (o message : list (str * json)) (content : str) :
  message_of o = Ok message ->
  is_str (lit "user") (get (lit "role") message) = true ->
  get (lit "content") message = JStr content ->
  contains (lit "<command-") content = true
  \/ contains (lit "<local-command-") content = true ->
  record_turn (JObj o) = Ok None
  /\ forall p, exists p',
       parse_record p (JObj o) = Ok p' /\ messages p' = messages p.
Proof.
  intros Hm Hrole Hcontent Htag.
  assert (Hcmd : _is_command_message content = true).
  { unfold _is_command_message. destruct Htag as [-> | ->];
      [reflexivity | apply orb_true_r]. }
  assert (Hturn : record_turn (JObj o) = Ok None).
  { unfold record_turn.
    assert (Huser : _extract_user_message (JObj o) = Ok None).
    { unfold _extract_user_message.
      destruct (should_skip_dict o) as [skip ->]. cbn [bind].
      destruct skip; [reflexivity|]. rewrite Hm. cbn [bind].
      rewrite Hrole, Hcontent, Hcmd. reflexivity. }
    rewrite Huser. cbn [bind nonempty].
    rewrite (user_role_no_assistant_text o message Hm Hrole). reflexivity. }
  split; [exact Hturn|]. intros p. apply parse_record_no_turn, Hturn.
Qed.

(** C6 on the record of the specification's example. *)
Lemma command_message_dropped_witness :
  message_of command_record = Ok command_message
  /\ is_str (lit "user") (get (lit "role") command_message) = true
  /\ get (lit "content") command_message = JStr command_text
  /\ contains (lit "<command-") command_text = true
  /\ record_turn (JObj command_record) = Ok None.
Proof.
  repeat (split; [vm_compute; reflexivity|]).
  refine (proj1 (command_message_dropped command_record command_message
                   command_text _ _ _ _)).
  - vm_compute; reflexivity.
  - vm_compute; reflexivity.
  - vm_compute; reflexivity.
  - left. vm_compute; reflexivity.
Defined.

Lemma flags_of_tool_results (blocks : list json) (flags : bool * bool) :
  forallb is_tool_result blocks = true ->
  fold_left flag_block blocks flags
  = (flags.1, flags.2 || negb (bool_decide (blocks = []))).
Proof.
  revert flags. induction blocks as [|block blocks IH]; intros [ht htr] H.
  - cbn. rewrite orb_false_r. reflexivity.
  - cbn [forallb] in H. apply andb_true_iff in H as [Hb Hbs].
    cbn [fold_left]. rewrite (IH _ Hbs).
    destruct block as [| | | | |b]; try discriminate Hb.
    cbn [is_tool_result] in Hb. unfold flag_block. rewrite Hb. cbn.
    rewrite orb_true_r. destruct blocks; reflexivity.
Qed.

Lemma no_text_in_tool_results (blocks : list json) :
  forallb is_tool_result blocks = true -> flat_map text_of_block blocks = [].
Proof.
  induction blocks as [|block blocks IH]; [reflexivity|].
  cbn [forallb flat_map]. intros H. apply andb_true_iff in H as [Hb Hbs].
  rewrite (IH Hbs), app_nil_r.
  destruct block as [| | | | |b]; try discriminate Hb.
  cbn [is_tool_result] in Hb. unfold text_of_block.
  destruct (get (lit "type") b) as [| | |t| |]; try discriminate Hb.
  unfold is_str in *. apply bool_decide_eq_true in Hb. subst t. reflexivity.
Qed.

(** C7: in format A, a record whose message has the role [user] and whose
    content is a list of blocks that are all [tool_result] blocks (so none
    is a [text] block) is dropped: the parse loop adds no turn for it. *)
Theorem tool_result_only_message_dropped
    (o message : list (str * json)) (blocks : list json) :
  message_of o = Ok message ->
  is_str (lit "user") (get (lit "role") message) = true ->
  get (lit "content") message = JArr blocks ->
  forallb is_tool_result blocks = true ->
  record_turn (JObj o) = Ok None
  /\ forall p, exists p',
       parse_record p (JObj o) = Ok p' /\ messages p' = messages p.
Proof.
  intros Hm Hrole Hcontent Hblocks.
  assert (Hturn : record_turn (JObj o) = Ok None).
  { unfold record_turn.
    assert (Huser : _extract_user_message (JObj o) = Ok None).
    { unfold _extract_user_message.
      destruct (should_skip_dict o) as [skip ->]. cbn [bind].
      destruct skip; [reflexivity|]. rewrite Hm. cbn [bind].
      rewrite Hrole, Hcontent. cbn [negb].
      unfold block_flags. rewrite (flags_of_tool_results _ _ Hblocks).
      cbn [fst snd orb negb andb].
      destruct (negb (bool_decide (blocks = []))); [reflexivity|].
      cbn [_extract_text_blocks]. rewrite (no_text_in_tool_results _ Hblocks).
      reflexivity. }
    rewrite Huser. cbn [bind nonempty].
    rewrite (user_role_no_assistant_text o message Hm Hrole). reflexivity. }
  split; [exact Hturn|]. intros p. apply parse_record_no_turn, Hturn.
Qed.

(** C7 on a user record that carries one [tool_result] block and nothing
    else. *)
Lemma tool_result_only_message_dropped_witness :
  message_of tool_result_record = Ok tool_result_message
  /\ is_str (lit "user") (get (lit "role") tool_result_message) = true
  /\ get (lit "content") tool_result_message = JArr tool_result_blocks
  /\ forallb is_tool_result tool_result_blocks = true
  /\ record_turn (JObj tool_result_record) = Ok None.
Proof.
  repeat (split; [vm_compute; reflexivity|]).
  refine (proj1 (tool_result_only_message_dropped tool_result_record
                   tool_result_message tool_result_blocks _ _ _ _));
    vm_compute; reflexivity.
Defined.

End FilterClaims.

(* ===================================================================== *)
(** ** Claims on the timestamps of format B *)
(* ===================================================================== *)

Section TimestampClaims.
Import Py Json ConvertOpencode.

Lemma part_timestamp_cases (part : list (str * json)) (message_time_ms : json) :
  _get_part_timestamp part message_time_ms
  = if truthy (part_start part) then part_start part else message_time_ms.
Proof.
  unfold _get_part_timestamp, part_start.
  destruct (get_or (JObj []) (lit "time") part); reflexivity.
Qed.

(** The turns of the parts of a message, each stamped from its own part. *)
Lemma part_turns_each (role agent created : json) (files : list (option json)) :
  Forall (fun part => exists r, _extract_part_text part = Ok r) (omap load_dict files) ->
  part_turns role agent created files
  = Ok (flat_map (stamped_turn role agent created) (omap load_dict files)).
Proof.
  induction files as [|file files IH]; intros Hall; [reflexivity|].
  assert (Hcons : omap load_dict (file :: files)
                  = match load_dict file with
                    | Some part => part :: omap load_dict files
                    | None => omap load_dict files
                    end) by reflexivity.
  rewrite Hcons in Hall |- *. clear Hcons. cbn [part_turns].
  destruct (load_dict file) as [part|].
  - cbn [flat_map]. apply Forall_cons in Hall as [[r Hr] Hrest].
    specialize (IH Hrest). unfold stamped_turn at 1. rewrite Hr.
    destruct part as [|kv part].
    + rewrite IH. cbn in Hr. injection Hr as <-. reflexivity.
    + cbn [bind]. destruct r as [text|]; [|rewrite IH; reflexivity].
      rewrite IH. cbn [bind app]. unfold _get_part_timestamp.
      destruct (get_or (JObj []) (lit "time") (kv :: part)); reflexivity.
  - apply IH, Hall.
Qed.

(** C10: in format B, every retained part of a message gives one turn, and
    the timestamp of that turn is the [time.start] of the part when the
    part's [time] is an object with a truthy [start], and the [time.created]
    of the owning message otherwise; a message whose [time.created] is
    missing, zero or otherwise falsy adds no turn, reads no part and leaves
    the first timestamp as it was. *)
Theorem part_timestamp_fallback :
  (forall part part_time message_time_ms,
      get_or (JObj []) (lit "time") part = JObj part_time ->
      truthy (get (lit "start") part_time) = true ->
      _get_part_timestamp part message_time_ms = get (lit "start") part_time)
  /\ (forall part message_time_ms,
         (forall part_time,
             get_or (JObj []) (lit "time") part = JObj part_time ->
             truthy (get (lit "start") part_time) = false) ->
         _get_part_timestamp part message_time_ms = message_time_ms)
  /\ (forall S first file message message_time_data message_id files,
         load_dict file = Some message ->
         get_or (JObj []) (lit "time") message = JObj message_time_data ->
         truthy (get (lit "created") message_time_data) = true ->
         get (lit "id") message = JStr message_id ->
         message_id <> [] ->
         part_files S message_id = Some files ->
         Forall (fun part => exists r, _extract_part_text part = Ok r)
                (omap load_dict files) ->
         message_turns S first file
         = Ok (flat_map (stamped_turn (get (lit "role") message)
                           (get_or (JStr []) (lit "agent") message)
                           (get (lit "created") message_time_data))
                        (omap load_dict files),
               match first with
               | JNull => get (lit "created") message_time_data
               | _ => first
               end))
  /\ (forall S first file message,
         load_dict file = Some message ->
         (forall message_time_data,
             get_or (JObj []) (lit "time") message = JObj message_time_data ->
             truthy (get (lit "created") message_time_data) = false) ->
         message_turns S first file = Ok ([], first)).
Proof.
  split; [|split; [|split]].
  - intros part part_time t Htime Hstart. unfold _get_part_timestamp.
    rewrite Htime, Hstart. reflexivity.
  - intros part t Hstart. unfold _get_part_timestamp.
    destruct (get_or (JObj []) (lit "time") part) as [| | | | |part_time];
      try reflexivity.
    rewrite (Hstart part_time eq_refl). reflexivity.
  - intros S first file message d message_id files Hload Htime Hcreated Hid Hne
      Hfiles Hall.
    unfold message_turns. rewrite Hload.
    destruct message as [|kv message]; [discriminate Hid|].
    unfold message_time. rewrite Htime, Hcreated, Hid. cbn [negb].
    destruct message_id as [|ch message_id]; [congruence|]. cbn [truthy negb].
    rewrite Hfiles, (part_turns_each _ _ _ _ Hall). reflexivity.
  - intros S first file message Hload Htime. unfold message_turns.
    rewrite Hload. destruct message as [|kv message]; [reflexivity|].
    unfold message_time.
    destruct (get_or (JObj []) (lit "time") (kv :: message)) as [| | | | |d];
      try reflexivity.
    rewrite (Htime d eq_refl). reflexivity.
Qed.

(** C10 on the message [m3]: its first text part has a start time, its last
    one a start time of zero; and on a message created at zero. *)
Lemma part_timestamp_fallback_witness :
  message_turns stamped_storage JNull (Some (JObj stamped_message))
  = Ok ([{| turn_role := JStr (lit "assistant"); turn_text := lit "one";
            timestamp_ms := JNum 1704103500000; turn_agent := JStr (lit "build") |};
         {| turn_role := JStr (lit "assistant"); turn_text := lit "two";
            timestamp_ms := JNum 1704103200000; turn_agent := JStr (lit "build") |}],
        JNum 1704103200000)
  /\ message_turns stamped_storage (JNum 5) (Some (JObj unstamped_message))
     = Ok ([], JNum 5)
  /\ _get_part_timestamp
       [(lit "type", JStr (lit "text"));
        (lit "time", JObj [(lit "start", JNum 1704103500000)])]
       (JNum 1704103000000)
     = JNum 1704103500000
  /\ _get_part_timestamp
       [(lit "type", JStr (lit "text")); (lit "time", JObj [(lit "start", JNum 0)])]
       (JNum 1704103000000)
     = JNum 1704103000000.
Proof.
  destruct part_timestamp_fallback as (Hstart & Hfallback & Hmessage & Hskip).
  split; [|split; [|split]].
  - rewrite (Hmessage stamped_storage JNull (Some (JObj stamped_message)) stamped_message
               [(lit "created", JNum 1704103200000)] (lit "m3") stamped_parts).
    + vm_compute. reflexivity.
    + reflexivity.
    + reflexivity.
    + reflexivity.
    + reflexivity.
    + discriminate.
    + reflexivity.
    + vm_compute. repeat constructor; eexists; reflexivity.
  - apply (Hskip stamped_storage (JNum 5) (Some (JObj unstamped_message))
             unstamped_message); [reflexivity|].
    intros d Hd. vm_compute in Hd. injection Hd as <-. reflexivity.
  - apply (Hstart _ [(lit "start", JNum 1704103500000)]); vm_compute; reflexivity.
  - apply Hfallback. intros d Hd. vm_compute in Hd. injection Hd as <-. reflexivity.
Defined.

End TimestampClaims.

(* ===================================================================== *)
(** ** Claims on sessions without turns and on repeated sessions *)
(* ===================================================================== *)

Section SessionClaims.
Import Py Json Runtime Reference.

(** C8 (amended): a session that retains no turn produces no output file
    and the run goes on with the next session, in both formats; format A
    prints the warning [No messages extracted], format B prints nothing and
    keeps the session's identifier among the processed ones. *)
Theorem empty_session_skipped :
  (forall E c file lines p rest,
      ConvertExport.jsonl_content file = ConvertExport.Lines lines ->
      ConvertExport.parse_lines ConvertExport.parse_start lines = Ok p ->
      ConvertExport.messages p = [] ->
      ConvertExport.convert_jsonl E c file
      = {| ConvertExport.returned := Some false;
           ConvertExport.printed :=
             [ConvertExport.WarningNoMessages (ConvertExport.jsonl_path file)];
           ConvertExport.after := c |}
      /\ ConvertExport.convert_files E c (file :: rest)
         = let r := ConvertExport.convert_files E c rest in
           {| ConvertExport.count := ConvertExport.count r;
              ConvertExport.log :=
                ConvertExport.WarningNoMessages (ConvertExport.jsonl_path file)
                :: ConvertExport.log r;
              ConvertExport.final := ConvertExport.final r;
              ConvertExport.crashed := ConvertExport.crashed r |})
  /\ (forall E S c file session session_id files first rest,
         ConvertOpencode.load_dict file = Some session ->
         truthy (get (lit "parentID") session) = false ->
         get (lit "id") session = JStr session_id ->
         session_id <> [] ->
         Some (inr session_id) ∉ ConvertOpencode.processed_sessions c ->
         ConvertOpencode.message_files S session_id = Some files ->
         ConvertOpencode.collect_messages S JNull files = Ok ([], first) ->
         let c' := ConvertOpencode.mark_processed c (Some (inr session_id)) in
         ConvertOpencode.convert_session E S c file
         = {| ConvertOpencode.returned := Some false;
              ConvertOpencode.printed := [];
              ConvertOpencode.after := c' |}
         /\ ConvertOpencode.written c' = ConvertOpencode.written c
         /\ ConvertOpencode.convert_sessions E S c (file :: rest)
            = ConvertOpencode.convert_sessions E S c' rest).
Proof.
  split.
  - intros E c file lines p rest Hcontent Hparse Hempty.
    assert (Hone : ConvertExport.convert_jsonl E c file
                   = {| ConvertExport.returned := Some false;
                        ConvertExport.printed :=
                          [ConvertExport.WarningNoMessages (ConvertExport.jsonl_path file)];
                        ConvertExport.after := c |}).
    { unfold ConvertExport.convert_jsonl. rewrite Hcontent, Hparse, Hempty. reflexivity. }
    split; [exact Hone|].
    cbn [ConvertExport.convert_files]. rewrite Hone. reflexivity.
  - intros E S c file session session_id files first rest
      Hload Hparent Hid Hne Hnew Hfiles Hnone c'.
    assert (Hone : ConvertOpencode.convert_session E S c file
                   = ConvertOpencode.silent (Some false) c').
    { unfold ConvertOpencode.convert_session. rewrite Hload.
      destruct session as [|kv session]; [discriminate Hid|].
      rewrite Hparent, Hid. cbn [hash_key].
      rewrite (bool_decide_eq_false_2 _ Hnew).
      destruct session_id as [|ch session_id]; [congruence|]. cbn [truthy negb].
      rewrite Hfiles. destruct files as [|f files]; [reflexivity|].
      rewrite Hnone. reflexivity. }
    split; [exact Hone|]. split; [reflexivity|].
    cbn [ConvertOpencode.convert_sessions]. rewrite Hone.
    cbn. destruct (ConvertOpencode.convert_sessions E S c' rest). reflexivity.
Qed.

(** C8 on a session of each format that retains no turn. *)
Lemma empty_session_skipped_witness :
  (ConvertExport.parse_lines ConvertExport.parse_start [Some (JObj tool_result_record)]
   = Ok {| ConvertExport.messages := [];
           ConvertExport.first_timestamp := JStr (lit "2024-01-01T10:06:00Z");
           ConvertExport.first_user_message := None;
           ConvertExport.session_id := JStr (lit "s1");
           ConvertExport.project_path := JNull |}
   /\ ConvertExport.convert_jsonl cpython ConvertExport.new_converter tool_only_file
      = {| ConvertExport.returned := Some false;
           ConvertExport.printed := [ConvertExport.WarningNoMessages (lit "/logs/c.jsonl")];
           ConvertExport.after := ConvertExport.new_converter |})
  /\ (ConvertOpencode.collect_messages (demo_storage [Some tools_session]) JNull
        [Some (JObj [(lit "id", JStr (lit "m2")); (lit "role", JStr (lit "assistant"));
                     (lit "time", JObj [(lit "created", JNum 1704103600000)])])]
      = Ok ([], JNum 1704103600000)
      /\ ConvertOpencode.convert_session cpython (demo_storage [Some tools_session])
           ConvertOpencode.new_converter (Some tools_session)
         = {| ConvertOpencode.returned := Some false;
              ConvertOpencode.printed := [];
              ConvertOpencode.after :=
                ConvertOpencode.mark_processed ConvertOpencode.new_converter
                  (Some (inr (lit "s3"))) |}).
Proof.
  split; (split; [vm_compute; reflexivity|]).
  - refine (proj1 (proj1 empty_session_skipped cpython ConvertExport.new_converter
                     tool_only_file [Some (JObj tool_result_record)] _ [] _ _ _)).
    + reflexivity.
    + vm_compute; reflexivity.
    + reflexivity.
  - refine (proj1 (proj2 empty_session_skipped cpython
                     (demo_storage [Some tools_session]) ConvertOpencode.new_converter
                     (Some tools_session) _ (lit "s3") _ _ [] _ _ _ _ _ _ _)).
    + reflexivity.
    + vm_compute; reflexivity.
    + vm_compute; reflexivity.
    + discriminate.
    + apply not_elem_of_empty.
    + vm_compute; reflexivity.
    + vm_compute; reflexivity.
Defined.

(** C8 (as stated) fails in format B: the session [s3] retains no turn, and
    [convert_session] returns [False] without printing anything. *)
Lemma empty_session_not_reported :
  ConvertOpencode.collect_messages (demo_storage [Some tools_session]) JNull
    [Some (JObj [(lit "id", JStr (lit "m2")); (lit "role", JStr (lit "assistant"));
                 (lit "time", JObj [(lit "created", JNum 1704103600000)])])]
  = Ok ([], JNum 1704103600000)
  /\ ConvertOpencode.returned
       (ConvertOpencode.convert_session cpython (demo_storage [Some tools_session])
          ConvertOpencode.new_converter (Some tools_session))
     = Some false
  /\ ConvertOpencode.printed
       (ConvertOpencode.convert_session cpython (demo_storage [Some tools_session])
          ConvertOpencode.new_converter (Some tools_session))
     = []
  /\ ConvertOpencode.log
       (ConvertOpencode.convert_directory cpython (demo_storage [Some tools_session])
          ConvertOpencode.new_converter)
     = [].
Proof. repeat split; vm_compute; reflexivity. Qed.

Lemma elem_of_mark (k : hashable) (seen : gset hashable) : k ∈ {[ k ]} ∪ seen.
Proof. set_solver. Qed.

(** C2 (amended): in both formats a session whose identifier is already
    among the processed ones is skipped: nothing is written and the converter
    is left as it was; format A prints the warning [already processed],
    format B prints nothing.  An identifier becomes processed when a session
    with it passes this check - in format A only a truthy identifier of a
    session that retained a turn, in format B the identifier of any top-level
    session - and before the session is written, so it stays processed also
    when that session produces no file. *)
Theorem repeated_session_skipped :
  (forall E c file lines p k,
      ConvertExport.jsonl_content file = ConvertExport.Lines lines ->
      ConvertExport.parse_lines ConvertExport.parse_start lines = Ok p ->
      ConvertExport.messages p <> [] ->
      truthy (ConvertExport.session_id p) = true ->
      hash_key (ConvertExport.session_id p) = Ok k ->
      (k ∈ ConvertExport.processed_sessions c ->
       ConvertExport.convert_jsonl E c file
       = {| ConvertExport.returned := Some false;
            ConvertExport.printed :=
              [ConvertExport.WarningAlreadyProcessed (ConvertExport.session_id p)];
            ConvertExport.after := c |})
      /\ k ∈ ConvertExport.processed_sessions
                (ConvertExport.after (ConvertExport.convert_jsonl E c file)))
  /\ (forall E S c file kv session k,
         ConvertOpencode.load_dict file = Some (kv :: session) ->
         truthy (get (lit "parentID") (kv :: session)) = false ->
         hash_key (get (lit "id") (kv :: session)) = Ok k ->
         (k ∈ ConvertOpencode.processed_sessions c ->
          ConvertOpencode.convert_session E S c file
          = {| ConvertOpencode.returned := Some false;
               ConvertOpencode.printed := [];
               ConvertOpencode.after := c |})
         /\ k ∈ ConvertOpencode.processed_sessions
                   (ConvertOpencode.after (ConvertOpencode.convert_session E S c file))).
Proof.
  split.
  - intros E c file lines p k Hcontent Hparse Hturns Hid Hk.
    unfold ConvertExport.convert_jsonl. rewrite Hcontent, Hparse.
    destruct (ConvertExport.messages p) as [|t ts]; [congruence|].
    rewrite Hid, Hk. split.
    + intros Hseen. rewrite (bool_decide_eq_true_2 _ Hseen). reflexivity.
    + destruct (bool_decide (k ∈ ConvertExport.processed_sessions c)) eqn:Hseen.
      * apply bool_decide_eq_true in Hseen. exact Hseen.
      * unfold ConvertExport.write_session.
        destruct (ConvertExport._get_summary file (ConvertExport.first_user_message p));
          try apply elem_of_mark.
        destruct (writable E _); apply elem_of_mark.
  - intros E S c file kv session k Hload Hparent Hk.
    unfold ConvertOpencode.convert_session. rewrite Hload, Hparent, Hk. split.
    + intros Hseen. rewrite (bool_decide_eq_true_2 _ Hseen). reflexivity.
    + destruct (bool_decide (k ∈ ConvertOpencode.processed_sessions c)) eqn:Hseen.
      * apply bool_decide_eq_true in Hseen. exact Hseen.
      * destruct (negb (truthy (get (lit "id") (kv :: session)))); [apply elem_of_mark|].
        destruct (get (lit "id") (kv :: session)); try apply elem_of_mark.
        destruct (ConvertOpencode.message_files S s) as [[|f files]|];
          try apply elem_of_mark.
        destruct (ConvertOpencode.collect_messages S JNull (f :: files))
          as [[[|t ts] first]|]; try apply elem_of_mark.
        unfold ConvertOpencode.write_session.
        destruct (ConvertOpencode.sort_messages (t :: ts)); [|apply elem_of_mark].
        destruct (negb (truthy first)); [apply elem_of_mark|].
        destruct (get_or _ (lit "title") (kv :: session)); try apply elem_of_mark.
        destruct (ConvertOpencode.render_turns E _ a) as [[out agents]|];
          [|apply elem_of_mark].
        destruct (writable E _); apply elem_of_mark.
Qed.

(** C2 on the session [s1] of format A, met again after it was converted. *)
Lemma repeated_session_skipped_witness :
  ConvertExport.returned
    (ConvertExport.convert_jsonl cpython ConvertExport.new_converter hello_file)
  = Some true
  /\ Some (inr (lit "s1")) ∈ ConvertExport.processed_sessions after_hello
  /\ ConvertExport.convert_jsonl cpython after_hello again_file
     = {| ConvertExport.returned := Some false;
          ConvertExport.printed := [ConvertExport.WarningAlreadyProcessed (JStr (lit "s1"))];
          ConvertExport.after := after_hello |}.
Proof.
  split; [vm_compute; reflexivity|].
  assert (Hseen : Some (inr (lit "s1")) ∈ ConvertExport.processed_sessions after_hello).
  { eapply (proj2 (proj1 repeated_session_skipped cpython ConvertExport.new_converter
                     hello_file hello_lines _ (Some (inr (lit "s1"))) _ _ _ _ _)). }
  split; [exact Hseen|].
  eapply (proj1 (proj1 repeated_session_skipped cpython after_hello again_file _
                   again_parsed (Some (inr (lit "s1"))) _ _ _ _ _) Hseen).
  Unshelve.
  all: try (vm_compute; reflexivity); try discriminate.
Defined.

(** C2 (as stated) fails.  In format B the second file of the session [s2]
    is skipped without any message: the run prints the one line of the first
    conversion.  In format A a session whose output file could not be written
    still blocks the later session with its identifier: the run over
    [hello_file] and [again_file] converts nothing. *)
Lemma repeated_session_counterexample :
  ConvertOpencode.log
    (ConvertOpencode.convert_directory cpython
       (demo_storage [Some demo_session; Some demo_session]) ConvertOpencode.new_converter)
  = [ConvertOpencode.Converted (lit "session_2024-01-01_10-05_demo.txt") 1]
  /\ (let r := ConvertExport.convert_directory
                 (cpython_readonly (lit "session_2024-01-01_10-05_hello.txt"))
                 ConvertExport.new_converter [hello_file; again_file] in
      ConvertExport.log r
      = [ConvertExport.ErrorWriting (lit "session_2024-01-01_10-05_hello.txt");
         ConvertExport.WarningAlreadyProcessed (JStr (lit "s1"))]
      /\ ConvertExport.count r = 0
      /\ ConvertExport.written (ConvertExport.final r) = ∅)
  /\ ConvertExport.returned
       (ConvertExport.convert_jsonl
          (cpython_readonly (lit "session_2024-01-01_10-05_hello.txt"))
          ConvertExport.new_converter again_file)
     = Some true.
Proof. repeat split; vm_compute; reflexivity. Qed.

End SessionClaims.

(* ===================================================================== *)
(** ** Claims on agent names in format B *)
(* ===================================================================== *)

Section AgentClaims.
Import Py Json Runtime Normalizer Reference ConvertOpencode.

(** The label of an assistant turn with a non-empty agent: the remembered
    casing if there is one, else its own last segment, which is remembered. *)
Lemma speaker_of_agent (E : runtime) (m : gmap str str) (msg : turn) (agent : str) :
  is_str (lit "user") (turn_role msg) = false ->
  turn_agent msg = JStr agent -> agent <> [] ->
  speaker E m msg
  = match m !! lower E (base_agent agent) with
    | Some shown => Ok (assistant_label shown, m)
    | None => Ok (assistant_label (base_agent agent),
                  <[lower E (base_agent agent) := base_agent agent]> m)
    end.
Proof.
  intros Hrole Hagent Hne. unfold speaker, _normalize_agent_name.
  rewrite Hrole, Hagent. destruct agent as [|c agent]; [congruence|].
  cbn [truthy negb]. destruct (m !! lower E (base_agent (c :: agent))); reflexivity.
Qed.

(** Labelling a turn keeps what the map holds, and touches at most the key
    of the turn. *)
Lemma speaker_total (E : runtime) (m : gmap str str) (msg : turn) :
  renderable msg = true ->
  exists label m',
    speaker E m msg = Ok (label, m')
    /\ (forall k v, m !! k = Some v -> m' !! k = Some v)
    /\ (forall k, agent_key E msg <> Some k -> m' !! k = m !! k).
Proof.
  unfold renderable, agent_key. intros Hr.
  destruct (is_str (lit "user") (turn_role msg)) eqn:Hrole.
  - exists (lit "User"), m. unfold speaker. rewrite Hrole. auto.
  - cbn [orb] in Hr.
    destruct (turn_agent msg) as [| | |agent| |] eqn:Hagent;
      try (unfold speaker, _normalize_agent_name; rewrite Hrole, Hagent, Hr;
           eexists _, m; split; [reflexivity | auto]).
    destruct agent as [|c agent].
    + unfold speaker, _normalize_agent_name. rewrite Hrole, Hagent.
      eexists _, m. split; [reflexivity | auto].
    + rewrite (speaker_of_agent E m msg (c :: agent) Hrole Hagent) by discriminate.
      destruct (m !! lower E (base_agent (c :: agent))) as [shown|] eqn:Hm.
      * eexists _, m. split; [reflexivity | auto].
      * eexists _, _. split; [reflexivity|]. split.
        -- intros k v Hk. rewrite lookup_insert_ne; [exact Hk | congruence].
        -- intros k Hk. rewrite lookup_insert_ne; [reflexivity | congruence].
Qed.

Lemma render_turns_total (E : runtime) (msgs : list turn) :
  forall m,
    forallb renderable msgs = true ->
    exists lines m',
      render_turns E m msgs = Ok (lines, m')
      /\ length lines = 3 * length msgs
      /\ (forall k v, m !! k = Some v -> m' !! k = Some v)
      /\ (forall k, Forall (fun msg => agent_key E msg <> Some k) msgs ->
                    m' !! k = m !! k).
Proof.
  induction msgs as [|msg msgs IH]; intros m H.
  - exists [], m. cbn. auto.
  - cbn [forallb] in H. apply andb_true_iff in H as [Hmsg Hmsgs].
    destruct (speaker_total E m msg Hmsg) as (label & m1 & Hs & Hkeep1 & Hfresh1).
    destruct (IH m1 Hmsgs) as (lines & m' & Hr & Hlen & Hkeep & Hfresh).
    exists (turn_block E msg label ++ lines), m'.
    cbn [render_turns]. rewrite Hs. cbn [bind fst snd]. rewrite Hr. cbn [bind fst snd].
    split; [reflexivity|]. split; [|split].
    + rewrite length_app, Hlen. cbn [turn_block length]. lia.
    + intros k v Hk. apply Hkeep, Hkeep1, Hk.
    + intros k Hk. inversion Hk as [|? ? Hmsgk Hrest]; subst.
      rewrite (Hfresh k Hrest). apply Hfresh1, Hmsgk.
Qed.

Lemma render_turns_app (E : runtime) (l1 l2 : list turn) :
  forall m lines1 m1 lines2 m2,
    render_turns E m l1 = Ok (lines1, m1) ->
    render_turns E m1 l2 = Ok (lines2, m2) ->
    render_turns E m (l1 ++ l2) = Ok (lines1 ++ lines2, m2).
Proof.
  induction l1 as [|msg l1 IH]; intros m lines1 m1 lines2 m2 H1 H2.
  - injection H1 as <- <-. exact H2.
  - cbn [render_turns app] in *.
    destruct (speaker E m msg) as [[label ms]|]; [|discriminate H1].
    cbn [bind fst snd] in *.
    destruct (render_turns E ms l1) as [[lines m']|] eqn:Hr; [|discriminate H1].
    cbn [bind fst snd] in *. injection H1 as <- <-.
    rewrite (IH ms lines m' lines2 m2 Hr H2). cbn [bind fst snd].
    rewrite app_assoc. reflexivity.
Qed.

Lemma render_turns_cons (E : runtime) (msg : turn) (rest : list turn) :
  forall m label m1 lines m2,
    speaker E m msg = Ok (label, m1) ->
    render_turns E m1 rest = Ok (lines, m2) ->
    render_turns E m (msg :: rest) = Ok (turn_block E msg label ++ lines, m2).
Proof.
  intros m label m1 lines m2 Hs Hr. cbn [render_turns].
  rewrite Hs. cbn [bind fst snd]. rewrite Hr. reflexivity.
Qed.

(** Labelling never changes a remembered casing, whatever the turn. *)
Lemma speaker_keeps (E : runtime) (m : gmap str str) (msg : turn) :
  forall label m',
    speaker E m msg = Ok (label, m') ->
    forall k v, m !! k = Some v -> m' !! k = Some v.
Proof.
  intros label m'. unfold speaker, _normalize_agent_name.
  destruct (is_str (lit "user") (turn_role msg)).
  { intros H. injection H as _ <-. auto. }
  destruct (negb (truthy (turn_agent msg))).
  { intros H. injection H as _ <-. auto. }
  destruct (turn_agent msg) as [| | |agent| |]; try discriminate.
  destruct (m !! lower E (base_agent agent)) as [shown|] eqn:Hm.
  - intros H. injection H as _ <-. auto.
  - intros H. injection H as _ <-. intros k v Hk.
    rewrite lookup_insert_ne; [exact Hk | congruence].
Qed.

Lemma render_turns_keeps (E : runtime) (msgs : list turn) :
  forall m lines m',
    render_turns E m msgs = Ok (lines, m') ->
    forall k v, m !! k = Some v -> m' !! k = Some v.
Proof.
  induction msgs as [|msg msgs IH]; intros m lines m' H.
  - injection H as _ <-. auto.
  - cbn [render_turns] in H.
    destruct (speaker E m msg) as [[label m1]|] eqn:Hs; [|discriminate H].
    cbn [bind fst snd] in H.
    destruct (render_turns E m1 msgs) as [[rest m2]|] eqn:Hr; [|discriminate H].
    cbn [bind fst snd] in H. injection H as _ <-.
    intros k v Hk. eapply IH; [exact Hr|]. eapply speaker_keeps; eassumption.
Qed.

(** A casing remembered before a session is converted is still remembered
    after it: the map lives as long as the converter. *)
Lemma convert_session_keeps_casing (E : runtime) (S : storage) (c : converter)
    (file : option json) (k v : str) :
  agent_case_map c !! k = Some v ->
  agent_case_map (after (convert_session E S c file)) !! k = Some v.
Proof.
  intros Hk. unfold convert_session.
  destruct (load_dict file) as [[|kv session]|]; try exact Hk.
  destruct (truthy (get (lit "parentID") (kv :: session))); [exact Hk|].
  destruct (hash_key (get (lit "id") (kv :: session))) as [key|]; [|exact Hk].
  destruct (bool_decide (key ∈ processed_sessions c)); [exact Hk|].
  destruct (negb (truthy (get (lit "id") (kv :: session)))); [exact Hk|].
  destruct (get (lit "id") (kv :: session)) as [| | |session_id| |]; try exact Hk.
  destruct (message_files S session_id) as [[|f files]|]; try exact Hk.
  destruct (collect_messages S JNull (f :: files)) as [[[|t ts] first]|]; try exact Hk.
  unfold write_session.
  destruct (sort_messages (t :: ts)) as [sorted|]; [|exact Hk].
  destruct (negb (truthy first)); [exact Hk|].
  destruct (get_or _ (lit "title") (kv :: session)); try exact Hk.
  destruct (render_turns E _ sorted) as [[out agents]|] eqn:Hr; [|exact Hk].
  assert (Hagents : agents !! k = Some v)
    by (eapply render_turns_keeps; [exact Hr | exact Hk]).
  destruct (writable E _); exact Hagents.
Qed.

(** The converter a session of a run starts from is the one the sessions
    before it left. *)
Lemma convert_sessions_app (E : runtime) (S : storage) (l1 l2 : list (option json)) :
  forall c,
    crashed (convert_sessions E S c l1) = false ->
    final (convert_sessions E S c (l1 ++ l2))
    = final (convert_sessions E S (final (convert_sessions E S c l1)) l2)
    /\ crashed (convert_sessions E S c (l1 ++ l2))
       = crashed (convert_sessions E S (final (convert_sessions E S c l1)) l2).
Proof.
  induction l1 as [|file l1 IH]; intros c Hc; [split; reflexivity|].
  cbn [app convert_sessions] in *.
  destruct (returned (convert_session E S c file)) as [ok|]; [|discriminate Hc].
  cbn [final crashed] in *. apply IH, Hc.
Qed.

Lemma convert_sessions_prefix (E : runtime) (S : storage) (l1 l2 : list (option json)) :
  forall c,
    crashed (convert_sessions E S c (l1 ++ l2)) = false ->
    crashed (convert_sessions E S c l1) = false.
Proof.
  induction l1 as [|file l1 IH]; intros c Hc; [reflexivity|].
  cbn [app convert_sessions] in *.
  destruct (returned (convert_session E S c file)) as [ok|]; [|discriminate Hc].
  cbn [crashed] in *. apply IH, Hc.
Qed.

Lemma convert_sessions_one (E : runtime) (S : storage) (c : converter)
    (file : option json) :
  returned (convert_session E S c file) <> None ->
  final (convert_sessions E S c [file]) = after (convert_session E S c file)
  /\ crashed (convert_sessions E S c [file]) = false.
Proof.
  intros H. cbn [convert_sessions].
  destruct (returned (convert_session E S c file)); [split; reflexivity | congruence].
Qed.

Lemma convert_sessions_keeps_casing (E : runtime) (S : storage)
    (files : list (option json)) (k v : str) :
  forall c,
    agent_case_map c !! k = Some v ->
    agent_case_map (final (convert_sessions E S c files)) !! k = Some v.
Proof.
  induction files as [|file files IH]; intros c Hk; [exact Hk|].
  cbn [convert_sessions].
  pose proof (convert_session_keeps_casing E S c file k v Hk) as Hafter.
  destruct (returned (convert_session E S c file)); [|exact Hafter].
  cbn [final]. apply IH, Hafter.
Qed.

(** A conversion that prints a line has rendered the turns of its session,
    starting from the names the converter remembers and leaving in the
    converter the names it remembers afterwards; when it returns [True] the
    rendered lines are in the file it names. *)
Lemma convert_session_rendered (E : runtime) (S : storage) (c : converter)
    (file : option json) :
  printed (convert_session E S c file) <> [] ->
  exists sorted lines first title session_id,
    session_turns S file = Some sorted
    /\ render_turns E (agent_case_map c) sorted
       = Ok (lines, agent_case_map (after (convert_session E S c file)))
    /\ (returned (convert_session E S c file) = Some true ->
        written (after (convert_session E S c file)) !! output_filename E first title
        = Some (join_nl (header E first title session_id (length sorted) ++ lines))).
Proof.
  unfold convert_session, session_turns.
  destruct (load_dict file) as [[|kv session]|]; try (cbn; congruence).
  destruct (truthy (get (lit "parentID") (kv :: session))); [cbn; congruence|].
  destruct (hash_key (get (lit "id") (kv :: session))) as [key|]; [|cbn; congruence].
  destruct (bool_decide (key ∈ processed_sessions c)); [cbn; congruence|].
  destruct (negb (truthy (get (lit "id") (kv :: session)))); [cbn; congruence|].
  destruct (get (lit "id") (kv :: session)) as [| | |session_id| |];
    try (cbn; congruence).
  destruct (message_files S session_id) as [[|f files]|]; try (cbn; congruence).
  destruct (collect_messages S JNull (f :: files)) as [[[|t ts] first]|];
    try (cbn; congruence).
  unfold write_session.
  destruct (sort_messages (t :: ts)) as [sorted|]; [|cbn; congruence].
  destruct (negb (truthy first)); [cbn; congruence|].
  destruct (get_or (JStr (lit "Untitled Session")) (lit "title") (kv :: session))
    as [| | |title| |]; try (cbn; congruence).
  cbn [agent_case_map mark_processed].
  destruct (render_turns E (agent_case_map c) sorted) as [[lines agents]|] eqn:Hr;
    [|cbn; congruence].
  intros _. exists sorted, lines, first, title, session_id.
  destruct (writable E (output_filename E first title)); cbn.
  - split; [reflexivity|]. split; [exact Hr|]. intros _. apply lookup_insert_eq.
  - split; [reflexivity|]. split; [exact Hr | discriminate].
Qed.

(** A conversion that returns [True] has printed its success line. *)
Lemma convert_session_true_prints (E : runtime) (S : storage) (c : converter)
    (file : option json) :
  returned (convert_session E S c file) = Some true ->
  printed (convert_session E S c file) <> [].
Proof.
  unfold convert_session.
  destruct (load_dict file) as [[|kv session]|]; try (cbn; discriminate).
  destruct (truthy (get (lit "parentID") (kv :: session))); [cbn; discriminate|].
  destruct (hash_key (get (lit "id") (kv :: session))) as [key|]; [|cbn; discriminate].
  destruct (bool_decide (key ∈ processed_sessions c)); [cbn; discriminate|].
  destruct (negb (truthy (get (lit "id") (kv :: session)))); [cbn; discriminate|].
  destruct (get (lit "id") (kv :: session)) as [| | |session_id| |];
    try (cbn; discriminate).
  destruct (message_files S session_id) as [[|f files]|]; try (cbn; discriminate).
  destruct (collect_messages S JNull (f :: files)) as [[[|t ts] first]|];
    try (cbn; discriminate).
  unfold write_session.
  destruct (sort_messages (t :: ts)) as [sorted|]; [|cbn; discriminate].
  destruct (negb (truthy first)); [cbn; discriminate|].
  destruct (get_or (JStr (lit "Untitled Session")) (lit "title") (kv :: session))
    as [| | |title| |]; try (cbn; discriminate).
  cbn [agent_case_map mark_processed].
  destruct (render_turns E (agent_case_map c) sorted) as [[lines agents]|];
    [|cbn; discriminate].
  destruct (writable E (output_filename E first title)); cbn; discriminate.
Qed.

(** Labelling a turn leaves the names of the other agents alone. *)
Lemma speaker_other_key (E : runtime) (m : gmap str str) (msg : turn) (k : str) :
  forall label m',
    speaker E m msg = Ok (label, m') ->
    agent_key E msg <> Some k ->
    m' !! k = m !! k.
Proof.
  intros label m'. unfold speaker, agent_key.
  destruct (is_str (lit "user") (turn_role msg)).
  { intros H _. injection H as _ <-. reflexivity. }
  destruct (_normalize_agent_name E m (turn_agent msg)) as [[shown m1]|] eqn:Hn;
    [|discriminate].
  cbn [bind fst snd]. intros H Hk. injection H as _ <-.
  revert Hn. unfold _normalize_agent_name.
  destruct (negb (truthy (turn_agent msg))) eqn:Ht.
  { intros Hn. injection Hn as _ <-. reflexivity. }
  destruct (turn_agent msg) as [| | |agent| |]; try discriminate.
  destruct agent as [|ch agent]; [discriminate Ht|].
  destruct (m !! lower E (base_agent (ch :: agent)));
    intros Hn; injection Hn as _ <-; [reflexivity|].
  rewrite lookup_insert_ne; [reflexivity|]. intros Heq. apply Hk. rewrite Heq.
  reflexivity.
Qed.

(** In a rendering that starts without the name [k], the first turn of the
    agent [k] is labelled with its own last segment, which is remembered. *)
Lemma render_first_seen (E : runtime) (pre : list turn) (a : turn) (post : list turn)
    (agent_a : str) :
  forall m lines m',
    render_turns E m (pre ++ a :: post) = Ok (lines, m') ->
    m !! lower E (base_agent agent_a) = None ->
    Forall (fun msg => agent_key E msg <> Some (lower E (base_agent agent_a))) pre ->
    is_str (lit "user") (turn_role a) = false ->
    turn_agent a = JStr agent_a -> agent_a <> [] ->
    lines !! (3 * length pre)
    = Some (lit "[" ++ _format_timestamp_ms E (timestamp_ms a) ++ lit "] "
            ++ assistant_label (base_agent agent_a) ++ lit ":")
    /\ m' !! lower E (base_agent agent_a) = Some (base_agent agent_a).
Proof.
  induction pre as [|msg pre IH]; intros m lines m' H Hm Hpre Hrole Hagent Hne;
    [change ([] ++ a :: post) with (a :: post) in H
    |change ((msg :: pre) ++ a :: post) with (msg :: (pre ++ a :: post)) in H];
    cbn [render_turns] in H.
  - rewrite (speaker_of_agent E m a agent_a Hrole Hagent Hne), Hm in H.
    cbn [bind fst snd] in H.
    destruct (render_turns E _ post) as [[rest m2]|] eqn:Hr; [|discriminate H].
    cbn [bind fst snd] in H. injection H as <- <-. split; [reflexivity|].
    eapply render_turns_keeps; [exact Hr | apply lookup_insert_eq].
  - destruct (speaker E m msg) as [[label m1]|] eqn:Hs; [|discriminate H].
    cbn [bind fst snd] in H.
    destruct (render_turns E m1 (pre ++ a :: post)) as [[rest m2]|] eqn:Hr;
      [|discriminate H].
    cbn [bind fst snd] in H.
    assert (Hlines : lines = turn_block E msg label ++ rest) by congruence.
    assert (Hm' : m' = m2) by congruence. subst lines m'. clear H.
    apply Forall_cons in Hpre as [Hmsg Hpre].
    assert (Hm1 : m1 !! lower E (base_agent agent_a) = None)
      by (rewrite (speaker_other_key E m msg _ _ _ Hs Hmsg); exact Hm).
    destruct (IH m1 rest m2 Hr Hm1 Hpre Hrole Hagent Hne) as [Hline Hkey].
    split; [|exact Hkey].
    rewrite lookup_app_r by (cbn [turn_block length]; lia).
    replace (3 * length (msg :: pre) - length (turn_block E msg label))
      with (3 * length pre) by (cbn [turn_block length]; lia).
    exact Hline.
Qed.

(** In a rendering that starts with the name [shown] remembered for the
    agent [k], every turn of that agent is labelled with [shown]. *)
Lemma render_reuse (E : runtime) (msgs : list turn) (k shown : str) :
  forall m lines m' i b agent_b,
    render_turns E m msgs = Ok (lines, m') ->
    m !! k = Some shown ->
    msgs !! i = Some b ->
    is_str (lit "user") (turn_role b) = false ->
    turn_agent b = JStr agent_b -> agent_b <> [] ->
    lower E (base_agent agent_b) = k ->
    lines !! (3 * i)
    = Some (lit "[" ++ _format_timestamp_ms E (timestamp_ms b) ++ lit "] "
            ++ assistant_label shown ++ lit ":").
Proof.
  induction msgs as [|msg msgs IH]; intros m lines m' i b agent_b H Hm Hi Hrole Hagent
    Hne Hk; [discriminate Hi|].
  cbn [render_turns] in H.
  destruct (speaker E m msg) as [[label m1]|] eqn:Hs; [|discriminate H].
  cbn [bind fst snd] in H.
  destruct (render_turns E m1 msgs) as [[rest m2]|] eqn:Hr; [|discriminate H].
  cbn [bind fst snd] in H.
  assert (Hlines : lines = turn_block E msg label ++ rest) by congruence.
  subst lines. clear H.
  destruct i as [|i].
  - injection Hi as ->.
    rewrite (speaker_of_agent E m b agent_b Hrole Hagent Hne), Hk, Hm in Hs.
    injection Hs as <- <-. reflexivity.
  - rewrite lookup_app_r by (cbn [turn_block length]; lia).
    replace (3 * S i - length (turn_block E msg label)) with (3 * i)
      by (cbn [turn_block length]; lia).
    apply (IH m1 rest m2 i b agent_b Hr); try assumption.
    eapply speaker_keeps; eassumption.
Qed.

(** C9: in format B, when an assistant turn with a non-empty agent
    identifier is the first with its lower-cased name (the name is the last
    hyphen-delimited segment of the identifier), it is labelled with that
    segment as written, and so is every later assistant turn whose name is
    the same up to case: the later turns of the same rendering, and the
    turns of every later session of the run, whose files show that label.
    A session is rendered from the names the converter remembers and leaves
    in the converter the names it remembers afterwards, and the converter
    remembers the casing to the end of the run. *)
Theorem first_seen_casing :
  (forall (E : runtime) (m0 : gmap str str) (pre : list turn) (a : turn)
          (mid : list turn) (b : turn) (post : list turn) (agent_a agent_b : str),
      forallb renderable (pre ++ a :: mid ++ b :: post) = true ->
      is_str (lit "user") (turn_role a) = false ->
      turn_agent a = JStr agent_a -> agent_a <> [] ->
      is_str (lit "user") (turn_role b) = false ->
      turn_agent b = JStr agent_b -> agent_b <> [] ->
      lower E (base_agent agent_b) = lower E (base_agent agent_a) ->
      m0 !! lower E (base_agent agent_a) = None ->
      Forall (fun msg => agent_key E msg <> Some (lower E (base_agent agent_a))) pre ->
      exists lines m',
        render_turns E m0 (pre ++ a :: mid ++ b :: post) = Ok (lines, m')
        /\ lines !! (3 * length pre)
           = Some (lit "[" ++ _format_timestamp_ms E (timestamp_ms a) ++ lit "] "
                   ++ assistant_label (base_agent agent_a) ++ lit ":")
        /\ lines !! (3 * (length pre + 1 + length mid))
           = Some (lit "[" ++ _format_timestamp_ms E (timestamp_ms b) ++ lit "] "
                   ++ assistant_label (base_agent agent_a) ++ lit ":")
        /\ m' !! lower E (base_agent agent_a) = Some (base_agent agent_a))
  /\ (forall (E : runtime) (S : storage) (c : converter) (file : option json),
         printed (convert_session E S c file) <> [] ->
         exists sorted lines first title session_id,
           session_turns S file = Some sorted
           /\ render_turns E (agent_case_map c) sorted
              = Ok (lines, agent_case_map (after (convert_session E S c file)))
           /\ (returned (convert_session E S c file) = Some true ->
               written (after (convert_session E S c file))
                 !! output_filename E first title
               = Some (join_nl (header E first title session_id (length sorted)
                                ++ lines))))
  /\ (forall (E : runtime) (S : storage) (c : converter)
             (before : list (option json)) (fa : option json)
             (between : list (option json)) (fb : option json)
             (pre : list turn) (a : turn) (post : list turn) (agent_a : str)
             (turns_b : list turn) (i : nat) (b : turn) (agent_b : str),
         crashed (convert_sessions E S c (before ++ fa :: between)) = false ->
         agent_case_map (final (convert_sessions E S c before))
           !! lower E (base_agent agent_a) = None ->
         printed (convert_session E S (final (convert_sessions E S c before)) fa) <> [] ->
         session_turns S fa = Some (pre ++ a :: post) ->
         Forall (fun msg => agent_key E msg <> Some (lower E (base_agent agent_a))) pre ->
         is_str (lit "user") (turn_role a) = false ->
         turn_agent a = JStr agent_a -> agent_a <> [] ->
         returned (convert_session E S
                     (final (convert_sessions E S c (before ++ fa :: between))) fb)
         = Some true ->
         session_turns S fb = Some turns_b ->
         turns_b !! i = Some b ->
         is_str (lit "user") (turn_role b) = false ->
         turn_agent b = JStr agent_b -> agent_b <> [] ->
         lower E (base_agent agent_b) = lower E (base_agent agent_a) ->
         exists first title session_id lines,
           written (final (convert_sessions E S c (before ++ fa :: between ++ [fb])))
             !! output_filename E first title
           = Some (join_nl (header E first title session_id (length turns_b) ++ lines))
           /\ lines !! (3 * i)
              = Some (lit "[" ++ _format_timestamp_ms E (timestamp_ms b) ++ lit "] "
                      ++ assistant_label (base_agent agent_a) ++ lit ":")
           /\ agent_case_map
                (final (convert_sessions E S c (before ++ fa :: between ++ [fb])))
                !! lower E (base_agent agent_a)
              = Some (base_agent agent_a)).
Proof.
  split; [|split].
  - intros E m0 pre a mid b post agent_a agent_b
      Hall Hra Haa Hna Hrb Hab Hnb Hsame Hfresh Hpre.
    set (key := lower E (base_agent agent_a)) in *.
    rewrite forallb_app in Hall. apply andb_true_iff in Hall as [Hrpre Hall].
    cbn [forallb] in Hall. apply andb_true_iff in Hall as [_ Hall].
    rewrite forallb_app in Hall. apply andb_true_iff in Hall as [Hrmid Hall].
    cbn [forallb] in Hall. apply andb_true_iff in Hall as [_ Hrpost].
    destruct (render_turns_total E pre m0 Hrpre) as (l1 & m1 & H1 & Hlen1 & _ & Hfresh1).
    assert (Hm1 : m1 !! key = None) by (rewrite (Hfresh1 key Hpre); exact Hfresh).
    assert (Hsa : speaker E m1 a
                  = Ok (assistant_label (base_agent agent_a),
                        <[key := base_agent agent_a]> m1)).
    { rewrite (speaker_of_agent E m1 a agent_a Hra Haa Hna). fold key. rewrite Hm1.
      reflexivity. }
    destruct (render_turns_total E mid (<[key := base_agent agent_a]> m1) Hrmid)
      as (l3 & m3 & H3 & Hlen3 & Hkeep3 & _).
    assert (Hm3 : m3 !! key = Some (base_agent agent_a))
      by (apply Hkeep3, lookup_insert_eq).
    assert (Hsb : speaker E m3 b = Ok (assistant_label (base_agent agent_a), m3)).
    { rewrite (speaker_of_agent E m3 b agent_b Hrb Hab Hnb), Hsame. fold key.
      rewrite Hm3. reflexivity. }
    destruct (render_turns_total E post m3 Hrpost) as (l5 & m5 & H5 & _ & Hkeep5 & _).
    pose proof (render_turns_cons E b post _ _ _ _ _ Hsb H5) as Hb.
    pose proof (render_turns_app E mid (b :: post) _ _ _ _ _ H3 Hb) as Hmidb.
    pose proof (render_turns_cons E a (mid ++ b :: post) _ _ _ _ _ Hsa Hmidb) as Hamid.
    pose proof (render_turns_app E pre (a :: mid ++ b :: post) _ _ _ _ _ H1 Hamid) as Hrun.
    eexists _, m5. split; [exact Hrun|]. split; [|split].
    + rewrite lookup_app_r by lia.
      replace (3 * length pre - length l1) with 0 by lia. reflexivity.
    + rewrite lookup_app_r by lia.
      replace (3 * (length pre + 1 + length mid) - length l1)
        with (3 + length l3) by lia.
      rewrite lookup_app_r by (cbn [turn_block length]; lia).
      replace (3 + length l3
               - length (turn_block E a (assistant_label (base_agent agent_a))))
        with (length l3) by (cbn [turn_block length]; lia).
      rewrite lookup_app_r by lia. rewrite Nat.sub_diag. reflexivity.
    + apply Hkeep5, Hm3.
  - intros E S c file Hprinted. apply convert_session_rendered, Hprinted.
  - intros E S c before fa between fb pre a post agent_a turns_b i b agent_b
      Hrun Hfresh Hprinted Hturns_a Hpre Hra Haa Hna Hret Hturns_b Hi Hrb Hab Hnb Hsame.
    set (key := lower E (base_agent agent_a)) in *.
    set (ca := final (convert_sessions E S c before)) in *.
    set (cb := final (convert_sessions E S c (before ++ fa :: between))) in *.
    (* the session of the first occurrence *)
    destruct (convert_session_rendered E S ca fa Hprinted)
      as (sorted_a & lines_a & first_a & title_a & sid_a & Hsa & Hra' & _).
    rewrite Hturns_a in Hsa. injection Hsa as <-.
    destruct (render_first_seen E pre a post agent_a _ _ _ Hra' Hfresh Hpre Hra Haa Hna)
      as [_ Hlearnt].
    (* the converter the later session starts from *)
    assert (Hbefore : crashed (convert_sessions E S c before) = false)
      by (apply (convert_sessions_prefix E S before (fa :: between) c Hrun)).
    assert (Hcb : agent_case_map cb !! key = Some (base_agent agent_a)).
    { unfold cb. rewrite (proj1 (convert_sessions_app E S before (fa :: between) c Hbefore)).
      fold ca. cbn [convert_sessions].
      pose proof (convert_sessions_app E S before (fa :: between) c Hbefore) as [_ Hcr].
      fold ca in Hcr. rewrite Hrun in Hcr. cbn [convert_sessions] in Hcr.
      destruct (returned (convert_session E S ca fa)); [|discriminate Hcr].
      cbn [final]. apply convert_sessions_keeps_casing, Hlearnt. }
    (* the later session *)
    pose proof (convert_session_true_prints E S cb fb Hret) as Hprinted_b.
    destruct (convert_session_rendered E S cb fb Hprinted_b)
      as (sorted_b & lines & first & title & sid & Hsb & Hrb' & Hdoc).
    rewrite Hturns_b in Hsb. injection Hsb as <-.
    assert (Hfinal : final (convert_sessions E S c (before ++ fa :: between ++ [fb]))
                     = after (convert_session E S cb fb)).
    { change (before ++ fa :: between ++ [fb])
        with (before ++ (fa :: between) ++ [fb]).
      rewrite app_assoc.
      rewrite (proj1 (convert_sessions_app E S (before ++ fa :: between) [fb] c Hrun)).
      fold cb. apply convert_sessions_one. rewrite Hret. discriminate. }
    exists first, title, sid, lines. rewrite Hfinal.
    split; [exact (Hdoc Hret)|]. split.
    + apply (render_reuse E turns_b key (base_agent agent_a) _ _ _ i b agent_b Hrb' Hcb Hi
               Hrb Hab Hnb Hsame).
    + eapply render_turns_keeps; [exact Hrb' | exact Hcb].
Qed.

(** C9 on the two assistant turns of the specification's example: in one
    session, and in two sessions of one run. *)
Lemma first_seen_casing_witness :
  (exists lines m',
      render_turns cpython ∅ sisyphus_turns = Ok (lines, m')
      /\ lines !! 0 = Some (lit "[10:05] Assistant (Sisyphus):")
      /\ lines !! 3 = Some (lit "[10:06] Assistant (Sisyphus):")
      /\ m' !! lit "sisyphus" = Some (lit "Sisyphus"))
  /\ (exists first title session_id lines,
         written (final (convert_sessions cpython agents_storage new_converter
                           [Some first_session; Some second_session]))
           !! output_filename cpython first title
         = Some (join_nl (header cpython first title session_id 1 ++ lines))
         /\ lines !! 0 = Some (lit "[10:06] Assistant (Sisyphus):")
         /\ agent_case_map
              (final (convert_sessions cpython agents_storage new_converter
                        [Some first_session; Some second_session]))
              !! lit "sisyphus"
            = Some (lit "Sisyphus")).
Proof.
  destruct first_seen_casing as (Hwithin & _ & Hacross). split.
  - apply (Hwithin cpython ∅ []
             (planner_turn (lit "Planner-Sisyphus") 1704103500000) []
             (planner_turn (lit "PLANNER-SISYPHUS") 1704103560000) []
             (lit "Planner-Sisyphus") (lit "PLANNER-SISYPHUS")).
    + vm_compute; reflexivity.
    + reflexivity.
    + reflexivity.
    + discriminate.
    + reflexivity.
    + reflexivity.
    + discriminate.
    + vm_compute; reflexivity.
    + apply lookup_empty.
    + constructor.
  - apply (Hacross cpython agents_storage new_converter [] (Some first_session) []
             (Some second_session) []
             (planner_turn (lit "Planner-Sisyphus") 1704103500000) []
             (lit "Planner-Sisyphus")
             [planner_turn (lit "PLANNER-SISYPHUS") 1704103560000] 0
             (planner_turn (lit "PLANNER-SISYPHUS") 1704103560000)
             (lit "PLANNER-SISYPHUS")).
    + vm_compute; reflexivity.
    + apply lookup_empty.
    + vm_compute; discriminate.
    + vm_compute; reflexivity.
    + constructor.
    + reflexivity.
    + reflexivity.
    + discriminate.
    + vm_compute; reflexivity.
    + vm_compute; reflexivity.
    + reflexivity.
    + reflexivity.
    + reflexivity.
    + discriminate.
    + vm_compute; reflexivity.
Defined.

(** The example of the specification, rendered in full. *)
Example sisyphus_labels :
  render_turns cpython ∅ sisyphus_turns
  = Ok ([lit "[10:05] Assistant (Sisyphus):"; lit "ok"; lit "";
         lit "[10:06] Assistant (Sisyphus):"; lit "ok"; lit ""],
        {[ lit "sisyphus" := lit "Sisyphus" ]}).
Proof. vm_compute. reflexivity. Qed.

End AgentClaims.

(* ===================================================================== *)
(** ** Claims on the rendered document *)
(* ===================================================================== *)

Section RenderClaims.
Import Py Json Runtime Normalizer Reference.

Lemma speaker_is_speaker (E : runtime) (m : gmap str str) (msg : ConvertOpencode.turn) :
  forall label m', ConvertOpencode.speaker E m msg = Ok (label, m') -> is_speaker label.
Proof.
  intros label m'. unfold ConvertOpencode.speaker.
  destruct (is_str (lit "user") (ConvertOpencode.turn_role msg)).
  - intros H. injection H as <- _. left. reflexivity.
  - destruct (ConvertOpencode._normalize_agent_name E m (ConvertOpencode.turn_agent msg))
      as [[name m1]|]; [|discriminate].
    intros H. injection H as <- _. right. exists name. reflexivity.
Qed.

(** The rendering loop writes one block of three lines per turn. *)
Lemma render_turns_blocks (E : runtime) (msgs : list ConvertOpencode.turn) :
  forall m lines m',
    ConvertOpencode.render_turns E m msgs = Ok (lines, m') ->
    exists speakers,
      length speakers = length msgs
      /\ Forall is_speaker speakers
      /\ lines = List.concat (zip_with (ConvertOpencode.turn_block E) msgs speakers).
Proof.
  induction msgs as [|msg msgs IH]; intros m lines m' H.
  - injection H as <- _. exists []. repeat split. constructor.
  - cbn [ConvertOpencode.render_turns] in H.
    destruct (ConvertOpencode.speaker E m msg) as [[label m1]|] eqn:Hs; [|discriminate H].
    cbn [bind fst snd] in H.
    destruct (ConvertOpencode.render_turns E m1 msgs) as [[rest m2]|] eqn:Hr;
      [|discriminate H].
    cbn [bind fst snd] in H. injection H as <- _.
    destruct (IH m1 rest m2 Hr) as (speakers & Hlen & Hall & ->).
    exists (label :: speakers). split; [cbn [length]; lia|]. split.
    + constructor; [exact (speaker_is_speaker E m msg label m1 Hs) | exact Hall].
    + reflexivity.
Qed.

(** C3 (amended): a converted session is written as a header and one block
    of three lines per turn: [[HH:MM] <Speaker>:], the normalized text and
    an empty line.  In format A the header is [=== Session: <summary> ===],
    the date and time, the project path and the session id when they are
    truthy, the number of messages and [===]; in format B its first line is
    [=== Session: <title> (<slug>) ===], followed by the date and time, the
    session id, the number of messages and [===], and there is no project
    line. *)
Theorem rendered_document :
  (forall E c file lines p summary,
      ConvertExport.jsonl_content file = ConvertExport.Lines lines ->
      ConvertExport.parse_lines ConvertExport.parse_start lines = Ok p ->
      ConvertExport._get_summary file (ConvertExport.first_user_message p) = JStr summary ->
      ConvertExport.returned (ConvertExport.convert_jsonl E c file) = Some true ->
      ConvertExport.written (ConvertExport.after (ConvertExport.convert_jsonl E c file))
        !! ConvertExport.output_filename E p summary
      = Some (join_nl
          ([lit "=== Session: " ++ summary ++ lit " ===";
            lit "Date: " ++ ConvertExport.date_str E p ++ lit " "
              ++ replace_char 45%N 58%N (ConvertExport.time_str E p)]
           ++ (if truthy (ConvertExport.project_path p)
               then [lit "Project: " ++ fstr E (ConvertExport.project_path p)] else [])
           ++ (if truthy (ConvertExport.session_id p)
               then [lit "Session ID: " ++ fstr E (ConvertExport.session_id p)] else [])
           ++ [lit "Messages: " ++ decimal (length (ConvertExport.messages p));
               lit "===" ++ [newline]]
           ++ flat_map
                (fun t =>
                   [lit "["
                    ++ (if truthy (ConvertExport.turn_timestamp t)
                        then ConvertExport._format_timestamp E (ConvertExport.turn_timestamp t)
                        else lit "??:??")
                    ++ lit "] "
                    ++ match ConvertExport.turn_role t with
                       | ConvertExport.user => lit "User"
                       | ConvertExport.assistant => lit "Assistant"
                       end
                    ++ lit ":";
                    _collapse_code_blocks (ConvertExport.turn_text t);
                    []])
                (ConvertExport.messages p))))
  /\ (forall E S c file session session_id files messages first sorted title,
         ConvertOpencode.load_dict file = Some session ->
         get (lit "id") session = JStr session_id ->
         ConvertOpencode.message_files S session_id = Some files ->
         ConvertOpencode.collect_messages S JNull files = Ok (messages, first) ->
         ConvertOpencode.sort_messages messages = Ok sorted ->
         get_or (JStr (lit "Untitled Session")) (lit "title") session = JStr title ->
         ConvertOpencode.returned (ConvertOpencode.convert_session E S c file) = Some true ->
         exists speakers,
           length speakers = length sorted
           /\ Forall is_speaker speakers
           /\ ConvertOpencode.written
                (ConvertOpencode.after (ConvertOpencode.convert_session E S c file))
                !! ConvertOpencode.output_filename E first title
              = Some (join_nl
                  ([lit "=== Session: " ++ title ++ lit " (" ++ slug E title ++ lit ") ===";
                    lit "Date: " ++ ConvertOpencode._get_date_from_ms E first ++ lit " "
                      ++ replace_char 45%N 58%N (ConvertOpencode._get_time_from_ms E first);
                    lit "Session ID: " ++ session_id;
                    lit "Messages: " ++ decimal (length sorted);
                    lit "===" ++ [newline]]
                   ++ List.concat
                        (zip_with
                           (fun msg speaker =>
                              [lit "["
                               ++ ConvertOpencode._format_timestamp_ms E
                                    (ConvertOpencode.timestamp_ms msg)
                               ++ lit "] " ++ speaker ++ lit ":";
                               _collapse_code_blocks (ConvertOpencode.turn_text msg);
                               []])
                           sorted speakers)))).
Proof.
  split.
  - intros E c file lines p summary Hcontent Hparse Hsummary Hret.
    unfold ConvertExport.convert_jsonl in *. rewrite Hcontent, Hparse in *.
    destruct (ConvertExport.messages p) as [|t ts] eqn:Hmsgs; [discriminate Hret|].
    assert (Hwrite : forall c',
              ConvertExport.returned (ConvertExport.write_session E c' file p) = Some true ->
              ConvertExport.written
                (ConvertExport.after (ConvertExport.write_session E c' file p))
                !! ConvertExport.output_filename E p summary
              = Some (join_nl (ConvertExport.output_lines E p summary))).
    { intros c'. unfold ConvertExport.write_session. rewrite Hsummary.
      destruct (writable E (ConvertExport.output_filename E p summary));
        [|discriminate].
      intros _. cbn. apply lookup_insert_eq. }
    destruct (truthy (ConvertExport.session_id p)) eqn:Hid.
    + destruct (hash_key (ConvertExport.session_id p)) as [k|]; [|discriminate Hret].
      destruct (bool_decide (k ∈ ConvertExport.processed_sessions c));
        [discriminate Hret|].
      rewrite (Hwrite _ Hret). unfold ConvertExport.output_lines, ConvertExport.header.
      rewrite Hmsgs, Hid. rewrite <- !app_assoc. reflexivity.
    + rewrite (Hwrite _ Hret). unfold ConvertExport.output_lines, ConvertExport.header.
      rewrite Hmsgs, Hid. rewrite <- !app_assoc. reflexivity.
  - intros E S c file session session_id files messages first sorted title
      Hload Hid Hfiles Hcollect Hsort Htitle Hret.
    unfold ConvertOpencode.convert_session in *. rewrite Hload in *.
    destruct session as [|kv session]; [discriminate Hret|].
    destruct (truthy (get (lit "parentID") (kv :: session))); [discriminate Hret|].
    rewrite Hid in *. cbn [hash_key] in *.
    destruct (bool_decide (_ ∈ ConvertOpencode.processed_sessions c));
      [discriminate Hret|].
    destruct session_id as [|ch session_id]; [discriminate Hret|].
    cbn [truthy negb] in *. rewrite Hfiles in *.
    destruct files as [|f files]; [discriminate Hret|].
    rewrite Hcollect in *.
    destruct messages as [|t ts]; [discriminate Hret|].
    unfold ConvertOpencode.write_session in *. rewrite Hsort, Htitle in *.
    destruct (negb (truthy first)); [discriminate Hret|].
    destruct (ConvertOpencode.render_turns E _ sorted) as [[out agents]|] eqn:Hrender;
      [|discriminate Hret].
    destruct (writable E (ConvertOpencode.output_filename E first title));
      [|discriminate Hret].
    destruct (render_turns_blocks E sorted _ out agents Hrender)
      as (speakers & Hlen & Hall & ->).
    exists speakers. split; [exact Hlen|]. split; [exact Hall|].
    cbn. apply lookup_insert_eq.
Qed.

(** C3 on the sample sessions of the two formats, as written. *)
Lemma rendered_document_witness :
  ConvertExport.written
    (ConvertExport.after
       (ConvertExport.convert_jsonl cpython ConvertExport.new_converter hello_file))
    !! lit "session_2024-01-01_10-05_hello.txt"
  = Some (join_nl [lit "=== Session: hello ==="; lit "Date: 2024-01-01 10:05";
                   lit "Session ID: s1"; lit "Messages: 2"; lit "==="; lit "";
                   lit "[10:05] User:"; lit "hello"; lit "";
                   lit "[10:05] Assistant:"; lit "hi there"; lit ""])
  /\ exists speakers,
       length speakers = 1
       /\ Forall is_speaker speakers
       /\ ConvertOpencode.written
            (ConvertOpencode.after
               (ConvertOpencode.convert_session cpython (demo_storage [Some demo_session])
                  ConvertOpencode.new_converter (Some demo_session)))
            !! lit "session_2024-01-01_10-05_demo.txt"
          = Some (join_nl
              ([lit "=== Session: Demo (demo) ==="; lit "Date: 2024-01-01 10:05";
                lit "Session ID: s2"; lit "Messages: 1"; lit "==="; lit ""]
               ++ List.concat
                    (zip_with (fun _ speaker => [lit "[10:05] " ++ speaker ++ lit ":";
                                                 lit "hey"; lit ""])
                       [tt] speakers))).
Proof.
  split.
  - pose proof (proj1 rendered_document cpython ConvertExport.new_converter hello_file
                  hello_lines _ (lit "hello") eq_refl eq_refl eq_refl eq_refl) as H.
    vm_compute in H. vm_compute. exact H.
  - edestruct (proj2 rendered_document cpython (demo_storage [Some demo_session])
                 ConvertOpencode.new_converter (Some demo_session))
      as (speakers & Hlen & Hall & Hfile);
      [reflexivity | reflexivity | reflexivity | vm_compute; reflexivity
      | vm_compute; reflexivity | reflexivity | vm_compute; reflexivity | ].
    exists speakers. split; [exact Hlen|]. split; [exact Hall|].
    destruct speakers as [|speaker [|? ?]]; try discriminate Hlen.
    vm_compute in Hfile. vm_compute. exact Hfile.
Defined.

(** C3 (as stated) fails in format B: the first line of the document of the
    session titled [Demo] carries the slug after the title. *)
Lemma header_counterexample :
  ConvertOpencode.written
    (ConvertOpencode.after
       (ConvertOpencode.convert_session cpython (demo_storage [Some demo_session])
          ConvertOpencode.new_converter (Some demo_session)))
    !! lit "session_2024-01-01_10-05_demo.txt"
  = Some (join_nl [lit "=== Session: Demo (demo) ==="; lit "Date: 2024-01-01 10:05";
                   lit "Session ID: s2"; lit "Messages: 1"; lit "==="; lit "";
                   lit "[10:05] User:"; lit "hey"; lit ""])
  /\ lit "=== Session: Demo (demo) ===" <> lit "=== Session: Demo ===".
Proof. split; [vm_compute; reflexivity | vm_compute; discriminate]. Qed.

End RenderClaims.

(* ===================================================================== *)
(** ** Further properties of the text normalizer *)
(* ===================================================================== *)

Section NormalizerMore.
Import Py Normalizer.

(** [join] undoes [split]. *)
Lemma join_split (s : str) : join_nl (split_nl s) = s.
Proof.
  unfold split_nl. induction s as [|c s IH]; [reflexivity|].
  cbn [split_char]. pose proof (split_char_nonempty newline s) as Hne.
  destruct (c =? newline)%N eqn:Hc.
  - apply N.eqb_eq in Hc. subst c.
    destruct (split_char newline s) as [|l ls]; [congruence|].
    change (join_nl ([] :: l :: ls)) with ([] ++ newline :: join_nl (l :: ls)).
    rewrite IH. reflexivity.
  - destruct (split_char newline s) as [|l ls]; [congruence|].
    destruct ls as [|l' ls].
    + cbn [join_nl] in *. rewrite IH. reflexivity.
    + change (join_nl ((c :: l) :: l' :: ls))
        with (c :: (l ++ newline :: join_nl (l' :: ls))).
      change (join_nl (l :: l' :: ls)) with (l ++ newline :: join_nl (l' :: ls)) in IH.
      rewrite IH. reflexivity.
Qed.

Lemma split_nl_concat (a b : str) :
  split_nl (a ++ newline :: b) = split_nl a ++ split_nl b.
Proof.
  unfold split_nl. induction a as [|c a IH]; [reflexivity|].
  cbn [app split_char]. rewrite IH.
  pose proof (split_char_nonempty newline a) as Hne.
  destruct (c =? newline)%N; [reflexivity|].
  destruct (split_char newline a) as [|l ls]; [congruence | reflexivity].
Qed.

Lemma join_nl_app (l1 l2 : list str) :
  l1 <> [] -> l2 <> [] -> join_nl (l1 ++ l2) = join_nl l1 ++ newline :: join_nl l2.
Proof.
  intros H1 H2. induction l1 as [|l l1 IH]; [congruence|].
  destruct l1 as [|l' l1].
  - destruct l2 as [|m l2]; [congruence | reflexivity].
  - change (join_nl ((l :: l' :: l1) ++ l2))
      with (l ++ newline :: join_nl ((l' :: l1) ++ l2)).
    rewrite IH by discriminate.
    change (join_nl (l :: l' :: l1)) with (l ++ newline :: join_nl (l' :: l1)).
    rewrite <- app_assoc. reflexivity.
Qed.

Lemma scan_plain_lines (lines : list str) :
  forallb plain_line lines = true -> scan_lines lines = lines.
Proof.
  induction lines as [|l lines IH]; [reflexivity|].
  cbn [forallb]. intros H. apply andb_true_iff in H as [Hl Hls].
  unfold plain_line in Hl. apply andb_true_iff in Hl as [Hf Hd].
  apply negb_true_iff in Hf, Hd.
  cbn [scan_lines]. rewrite Hf. unfold emit_line. rewrite Hd, (IH Hls). reflexivity.
Qed.

(** X1: a text without fence lines and without long code-like lines is
    returned as it is. *)
Theorem plain_text_unchanged (x : str) :
  forallb plain_line (split_nl x) = true -> _collapse_code_blocks x = x.
Proof.
  intros H. unfold _collapse_code_blocks.
  rewrite (scan_plain_lines _ H). apply join_split.
Qed.

Lemma plain_text_unchanged_witness :
  forallb plain_line (split_nl (lit "def f(x): return {x}" ++ [newline] ++ lit "`inline`"))
  = true
  /\ _collapse_code_blocks (lit "def f(x): return {x}" ++ [newline] ++ lit "`inline`")
     = lit "def f(x): return {x}" ++ [newline] ++ lit "`inline`".
Proof.
  split; [vm_compute; reflexivity|].
  apply (plain_text_unchanged (lit "def f(x): return {x}" ++ [newline] ++ lit "`inline`")).
  vm_compute; reflexivity.
Defined.

Lemma emit_block_length (code_lines : list str) :
  length (emit_block code_lines) <= length code_lines.
Proof.
  unfold emit_block. destruct (Nat.ltb_spec 10 (length code_lines)); cbn [length]; lia.
Qed.

Lemma scan_length_both (lines : list str) :
  length (scan_lines lines) <= length lines
  /\ forall code_lines,
       length (scan_block code_lines lines) <= length code_lines + length lines.
Proof.
  induction lines as [|l lines [IHout IHin]].
  - split; [reflexivity|]. intros code_lines. cbn [scan_block length].
    pose proof (emit_block_length code_lines). lia.
  - cbn [scan_lines scan_block length]. split.
    + destruct (is_fence l).
      * specialize (IHin [l]). cbn [length] in IHin. lia.
      * cbn [length]. lia.
    + intros code_lines. destruct (is_fence l).
      * rewrite length_app. pose proof (emit_block_length (code_lines ++ [l])) as H.
        rewrite length_app in H. cbn [length] in H. lia.
      * specialize (IHin (code_lines ++ [l])). rewrite length_app in IHin.
        cbn [length] in IHin. lia.
Qed.

(** X2: the normalizer never adds a line: its output has at most as many
    lines as its input. *)
Theorem normalizer_line_count (x : str) :
  length (split_nl (_collapse_code_blocks x)) <= length (split_nl x).
Proof.
  unfold _collapse_code_blocks. rewrite split_join.
  - apply scan_length_both.
  - apply scan_lines_nonempty, split_char_nonempty.
  - apply scan_lines_newline_free, split_newline_free.
Qed.

Lemma blocks_of_inner (inner : list str) :
  forall code_lines rest,
    forallb not_fence inner = true ->
    block_from code_lines (inner ++ rest) = block_from (code_lines ++ inner) rest.
Proof.
  induction inner as [|l inner IH]; intros code_lines rest H.
  - rewrite app_nil_r. reflexivity.
  - cbn [forallb] in H. apply andb_true_iff in H as [Hl Hin].
    apply negb_true_iff in Hl. cbn [app block_from]. rewrite Hl.
    rewrite IH by exact Hin. rewrite <- app_assoc. reflexivity.
Qed.

(** The blocks of what the scan writes are the short blocks it met. *)
Lemma blocks_of_scan_both (lines : list str) :
  blocks_of (scan_lines lines) = List.filter short_block (blocks_of lines)
  /\ forall opening inner,
       is_fence opening = true -> forallb not_fence inner = true ->
       blocks_of (scan_block (opening :: inner) lines)
       = List.filter short_block (block_from (opening :: inner) lines).
Proof.
  induction lines as [|l lines [IHout IHin]].
  - split; [reflexivity|]. intros opening inner Ho Hin.
    cbn [scan_block block_from List.filter]. unfold emit_block, short_block.
    destruct (10 <? length (opening :: inner)); cbn [negb].
    + cbn [blocks_of]. rewrite is_fence_summary. reflexivity.
    + cbn [blocks_of]. rewrite Ho.
      rewrite <- (app_nil_r inner) at 1. rewrite blocks_of_inner by exact Hin.
      reflexivity.
  - cbn [scan_lines scan_block blocks_of block_from].
    destruct (is_fence l) eqn:Hl; split.
    + apply (IHin l []); [exact Hl | reflexivity].
    + intros opening inner Ho Hin. cbn [List.filter].
      unfold emit_block, short_block at 1.
      destruct (10 <? length ((opening :: inner) ++ [l])); cbn [negb].
      * cbn [app blocks_of]. rewrite is_fence_summary. exact IHout.
      * cbn [app blocks_of]. rewrite Ho. rewrite <- app_assoc. cbn [app].
        rewrite blocks_of_inner by exact Hin. cbn [block_from]. rewrite Hl.
        rewrite IHout. reflexivity.
    + cbn [blocks_of]. rewrite (emit_line_not_fence _ Hl). exact IHout.
    + intros opening inner Ho Hin. cbn [app].
      apply (IHin opening (inner ++ [l])); [exact Ho|].
      rewrite forallb_app, Hin. unfold not_fence at 1. cbn [forallb].
      rewrite Hl. reflexivity.
Qed.

(** X3: the fenced blocks of the normalized text are the blocks of the
    input that span at most 10 lines, in order; so no fenced block of the
    output spans more than 10 lines. *)
Theorem normalized_blocks_short (x : str) :
  blocks_of (split_nl (_collapse_code_blocks x))
  = List.filter short_block (blocks_of (split_nl x))
  /\ Forall (fun code_lines => length code_lines <= 10)
            (blocks_of (split_nl (_collapse_code_blocks x))).
Proof.
  assert (H : blocks_of (split_nl (_collapse_code_blocks x))
              = List.filter short_block (blocks_of (split_nl x))).
  { unfold _collapse_code_blocks. rewrite split_join.
    - apply blocks_of_scan_both.
    - apply scan_lines_nonempty, split_char_nonempty.
    - apply scan_lines_newline_free, split_newline_free. }
  split; [exact H|]. rewrite H. apply List.Forall_forall.
  intros code_lines Hin. apply List.filter_In in Hin as [_ Hshort].
  unfold short_block in Hshort. apply negb_true_iff in Hshort.
  apply Nat.ltb_ge in Hshort. exact Hshort.
Qed.

(** X4: two texts joined by a newline are normalized each on its own when
    the first one leaves no fenced block open. *)
Theorem normalizer_concat (a b : str) :
  outside_after (split_nl a) = true ->
  _collapse_code_blocks (a ++ newline :: b)
  = _collapse_code_blocks a ++ newline :: _collapse_code_blocks b.
Proof.
  intros H. unfold _collapse_code_blocks.
  rewrite split_nl_concat. rewrite scan_lines_app by exact H.
  apply join_nl_app; apply scan_lines_nonempty, split_char_nonempty.
Qed.

Lemma normalizer_concat_witness :
  outside_after (split_nl (join_nl ten_line_block)) = true
  /\ _collapse_code_blocks (join_nl ten_line_block ++ newline :: long_tag_text)
     = join_nl ten_line_block ++ newline :: _collapse_code_blocks long_tag_text.
Proof.
  split; [vm_compute; reflexivity|].
  rewrite (normalizer_concat (join_nl ten_line_block) long_tag_text)
    by (vm_compute; reflexivity).
  vm_compute. reflexivity.
Defined.

End NormalizerMore.

(* ===================================================================== *)
(** ** The slug of a file name *)
(* ===================================================================== *)

Section SlugFacts.
Import Py Runtime.

Lemma slug_char_not_hyphen (c : N) : is_slug_char c = true -> (c =? 45)%N = false.
Proof.
  unfold is_slug_char. intros H. apply N.eqb_neq. intros ->. discriminate H.
Qed.

Lemma no_double_hyphen_app_l (a b : str) :
  no_double_hyphen (a ++ b) = true -> no_double_hyphen a = true.
Proof.
  induction a as [|x a IH]; [reflexivity|].
  destruct a as [|y a]; [reflexivity|].
  cbn [app no_double_hyphen]. intros H. apply andb_true_iff in H as [Hxy H].
  rewrite Hxy. apply IH, H.
Qed.

Lemma no_double_hyphen_app_r (a b : str) :
  no_double_hyphen (a ++ b) = true -> no_double_hyphen b = true.
Proof.
  induction a as [|x a IH]; [exact (fun H => H)|].
  intros H. apply IH. destruct a as [|y a].
  - destruct b as [|z b]; [reflexivity|].
    cbn [app no_double_hyphen] in H. apply andb_true_iff in H as [_ H]. exact H.
  - cbn [app no_double_hyphen] in H. apply andb_true_iff in H as [_ H]. exact H.
Qed.

Lemma no_double_hyphen_cons (a : N) (s : str) :
  no_double_hyphen (a :: s)
  = negb ((a =? 45)%N && (List.hd 0%N s =? 45)%N) && no_double_hyphen s.
Proof. destruct s; [|reflexivity]. cbn. rewrite andb_false_r. reflexivity. Qed.

(** [hyphenate] writes slug characters and single hyphens, and no hyphen
    first when it starts inside a run. *)
Lemma hyphenate_shape (s : str) :
  forall in_run,
    forallb slug_or_hyphen (hyphenate in_run s) = true
    /\ no_double_hyphen (hyphenate in_run s) = true
    /\ (in_run = true -> List.hd 0%N (hyphenate in_run s) <> 45%N).
Proof.
  induction s as [|c s IH]; intros in_run.
  - repeat split. intros _. discriminate.
  - cbn [hyphenate]. destruct (is_slug_char c) eqn:Hc.
    + destruct (IH false) as (Hall & Hnd & _). repeat split.
      * cbn [forallb]. unfold slug_or_hyphen at 1. rewrite Hc. exact Hall.
      * rewrite no_double_hyphen_cons, (slug_char_not_hyphen c Hc), Hnd. reflexivity.
      * intros _. cbn [List.hd]. apply N.eqb_neq, slug_char_not_hyphen, Hc.
    + destruct in_run.
      * apply IH.
      * destruct (IH true) as (Hall & Hnd & Hhd). repeat split.
        -- cbn [forallb]. rewrite Hall. reflexivity.
        -- rewrite no_double_hyphen_cons, Hnd.
           specialize (Hhd eq_refl). apply N.eqb_neq in Hhd. rewrite Hhd.
           reflexivity.
        -- discriminate.
Qed.

Lemma lstrip_hyphen_suffix (s : str) : exists t, s = t ++ lstrip_hyphen s.
Proof.
  induction s as [|c s [t IH]]; [exists []; reflexivity|].
  cbn [lstrip_hyphen]. destruct (c =? 45)%N.
  - exists (c :: t). cbn [app]. rewrite <- IH. reflexivity.
  - exists []. reflexivity.
Qed.

Lemma lstrip_hyphen_head (s : str) : List.hd 0%N (lstrip_hyphen s) <> 45%N.
Proof.
  induction s as [|c s IH]; [discriminate|].
  cbn [lstrip_hyphen]. destruct (c =? 45)%N eqn:Hc; [exact IH|].
  cbn [List.hd]. apply N.eqb_neq, Hc.
Qed.

Lemma rstrip_hyphen_prefix (s : str) : exists t, s = rstrip_hyphen s ++ t.
Proof.
  induction s as [|c s [t IH]]; [exists []; reflexivity|].
  cbn [rstrip_hyphen]. destruct (rstrip_hyphen s) as [|r0 r].
  - destruct (c =? 45)%N.
    + exists (c :: s). reflexivity.
    + exists s. reflexivity.
  - exists t. change ((c :: r0 :: r) ++ t) with (c :: ((r0 :: r) ++ t)).
    rewrite <- IH. reflexivity.
Qed.

Lemma rstrip_hyphen_head (s : str) :
  List.hd 0%N s <> 45%N -> List.hd 0%N (rstrip_hyphen s) <> 45%N.
Proof.
  destruct s as [|c s]; [exact (fun H => H)|].
  cbn [rstrip_hyphen List.hd]. intros Hc.
  destruct (rstrip_hyphen s); [|exact Hc].
  destruct (c =? 45)%N; [discriminate | exact Hc].
Qed.

Lemma rstrip_hyphen_last (s : str) : List.last (rstrip_hyphen s) 0%N <> 45%N.
Proof.
  induction s as [|c s IH]; [discriminate|].
  cbn [rstrip_hyphen]. destruct (rstrip_hyphen s) as [|r0 r].
  - destruct (c =? 45)%N eqn:Hc; [discriminate|].
    cbn [List.last]. apply N.eqb_neq, Hc.
  - exact IH.
Qed.

(** X5: whatever [lower] does, a slug holds only lower-case ASCII letters,
    digits and hyphens, is at most 40 characters long, neither starts nor
    ends with a hyphen and has no two hyphens in a row. *)
Theorem slug_shape (E : runtime) (title : str) :
  forallb slug_or_hyphen (slug E title) = true
  /\ length (slug E title) <= 40
  /\ List.hd 0%N (slug E title) <> 45%N
  /\ List.last (slug E title) 0%N <> 45%N
  /\ no_double_hyphen (slug E title) = true.
Proof.
  unfold slug. set (h := hyphenate false (lower E title)).
  destruct (hyphenate_shape (lower E title) false) as (Hall & Hnd & _). fold h in Hall, Hnd.
  destruct (lstrip_hyphen_suffix (take 40 h)) as [t1 H1].
  destruct (rstrip_hyphen_prefix (lstrip_hyphen (take 40 h))) as [t2 H2].
  assert (Hh : h = (t1 ++ rstrip_hyphen (lstrip_hyphen (take 40 h)) ++ t2) ++ drop 40 h).
  { rewrite <- H2, <- H1. symmetry. apply take_drop. }
  assert (Hlen : length (take 40 h) <= 40) by (rewrite length_take; lia).
  rewrite H1, H2, !length_app in Hlen.
  split; [|split; [lia|split; [|split]]].
  - rewrite Hh, !forallb_app in Hall.
    apply andb_true_iff in Hall as [Hall _]. apply andb_true_iff in Hall as [_ Hall].
    apply andb_true_iff in Hall as [Hall _]. exact Hall.
  - apply rstrip_hyphen_head, lstrip_hyphen_head.
  - apply rstrip_hyphen_last.
  - rewrite Hh in Hnd. apply no_double_hyphen_app_l in Hnd.
    apply no_double_hyphen_app_r in Hnd. apply no_double_hyphen_app_l in Hnd. exact Hnd.
Qed.

End SlugFacts.

(* ===================================================================== *)
(** ** Further properties of the message filter of format A *)
(* ===================================================================== *)

Section FilterMore.
Import Py Json ConvertExport.

Lemma rstrip_idem (s : str) : rstrip (rstrip s) = rstrip s.
Proof.
  induction s as [|c s IH]; [reflexivity|].
  cbn [rstrip]. destruct (rstrip s) as [|r0 r] eqn:Hr.
  - destruct (is_space c) eqn:Hc; [reflexivity|]. cbn [rstrip]. rewrite Hc. reflexivity.
  - change (rstrip (c :: r0 :: r))
      with (match rstrip (r0 :: r) with
            | [] => if is_space c then [] else [c]
            | x :: y => c :: x :: y
            end).
    rewrite IH. reflexivity.
Qed.

Lemma lstrip_rstrip (s : str) : lstrip (rstrip (lstrip s)) = rstrip (lstrip s).
Proof.
  induction s as [|c s IH]; [reflexivity|].
  cbn [lstrip]. destruct (is_space c) eqn:Hc; [exact IH|].
  cbn [rstrip]. destruct (rstrip s); rewrite ?Hc; cbn [lstrip]; rewrite Hc; reflexivity.
Qed.

(** [strip] changes nothing the second time. *)
Lemma strip_idem (s : str) : strip (strip s) = strip s.
Proof. unfold strip. rewrite lstrip_rstrip. apply rstrip_idem. Qed.

Lemma nonempty_strip_kept (s text : str) :
  nonempty (Some (strip s)) = Some text -> kept_text text.
Proof.
  unfold nonempty. destruct (strip s) as [|c r] eqn:Hs; [discriminate|].
  intros H. injection H as <-. split; [discriminate|].
  rewrite <- Hs. apply strip_idem.
Qed.

(** Whatever the user extraction returns is a stripped text. *)
Lemma user_text_stripped (msg_obj : json) (text : str) :
  _extract_user_message msg_obj = Ok (Some text) -> exists s, text = strip s.
Proof.
  unfold _extract_user_message.
  destruct (_should_skip_message msg_obj) as [[|]|]; cbn [bind]; try discriminate.
  destruct msg_obj as [| | | | |o]; try discriminate.
  destruct (message_of o) as [message|]; cbn [bind]; [|discriminate].
  destruct (negb (is_str (lit "user") (get (lit "role") message))); [discriminate|].
  destruct (get (lit "content") message) as [| | |content|blocks|]; try discriminate.
  - destruct (_is_command_message content); [discriminate|].
    intros H. injection H as <-. eauto.
  - destruct (block_flags blocks) as [has_text has_tool_result].
    destruct (has_tool_result && negb has_text); [discriminate|].
    destruct (_extract_text_blocks (JArr blocks)); [discriminate|].
    destruct (join_texts _) as [s|]; cbn [bind]; [|discriminate].
    intros H. injection H as <-. eauto.
Qed.

Lemma assistant_text_stripped (msg_obj : json) (text : str) :
  _extract_assistant_message msg_obj = Ok (Some text) -> exists s, text = strip s.
Proof.
  unfold _extract_assistant_message.
  destruct (_should_skip_message msg_obj) as [[|]|]; cbn [bind]; try discriminate.
  destruct msg_obj as [| | | | |o]; try discriminate.
  destruct (message_of o) as [message|]; cbn [bind]; [|discriminate].
  destruct (negb (is_str (lit "assistant") (get (lit "role") message))); [discriminate|].
  destruct (get (lit "content") message) as [| | | |blocks|]; try discriminate.
  destruct (_extract_text_blocks (JArr blocks)); [discriminate|].
  destruct (join_texts _) as [s|]; cbn [bind]; [|discriminate].
  intros H. injection H as <-. eauto.
Qed.

Lemma nonempty_some (text : option str) (t : str) :
  nonempty text = Some t -> text = Some t /\ t <> [].
Proof.
  destruct text as [[|c s]|]; try discriminate.
  intros H. injection H as <-. split; [reflexivity | discriminate].
Qed.

(** A turn that a record contributes carries a kept text. *)
Lemma record_turn_kept (msg_obj : json) (t : turn) :
  record_turn msg_obj = Ok (Some t) -> kept_text (turn_text t).
Proof.
  unfold record_turn.
  destruct (_extract_user_message msg_obj) as [user_text|] eqn:Hu; cbn [bind];
    [|discriminate].
  destruct (nonempty user_text) as [text|] eqn:Hn.
  - intros H. injection H as <-. cbn [turn_text].
    apply nonempty_some in Hn as [-> Hne].
    destruct (user_text_stripped _ _ Hu) as [s ->].
    split; [exact Hne | apply strip_idem].
  - destruct (_extract_assistant_message msg_obj) as [assistant_text|] eqn:Ha;
      cbn [bind]; [|discriminate].
    destruct (nonempty assistant_text) as [text|] eqn:Hn'; [|discriminate].
    intros H. injection H as <-. cbn [turn_text].
    apply nonempty_some in Hn' as [-> Hne].
    destruct (assistant_text_stripped _ _ Ha) as [s ->].
    split; [exact Hne | apply strip_idem].
Qed.

(** What one iteration of the parse loop does to [messages] and to the
    captured metadata. *)
Lemma parse_record_effect (p p' : parsed) (msg_obj : json) :
  parse_record p msg_obj = Ok p' ->
  exists q,
    capture_metadata p msg_obj = Ok q
    /\ first_timestamp p' = first_timestamp q
    /\ session_id p' = session_id q
    /\ project_path p' = project_path q
    /\ messages q = messages p
    /\ (messages p' = messages p
        \/ exists t, record_turn msg_obj = Ok (Some t) /\ messages p' = messages p ++ [t]).
Proof.
  unfold parse_record.
  destruct (capture_metadata p msg_obj) as [q|] eqn:Hq; cbn [bind]; [|discriminate].
  assert (Hmsgs : messages q = messages p).
  { unfold capture_metadata in Hq. destruct (first_timestamp p);
      try (injection Hq as <-; reflexivity).
    destruct msg_obj; try discriminate Hq. injection Hq as <-. reflexivity. }
  destruct (record_turn msg_obj) as [[t|]|] eqn:Ht; cbn [bind]; [| |discriminate].
  - intros H. injection H as <-. exists q. cbn. repeat split; try assumption.
    right. exists t. rewrite Hmsgs. auto.
  - intros H. injection H as <-. exists q. repeat split; try assumption.
    left. exact Hmsgs.
Qed.

Lemma parse_lines_app (l1 l2 : list (option json)) :
  forall p, parse_lines p (l1 ++ l2) = (q <- parse_lines p l1 ;; parse_lines q l2).
Proof.
  induction l1 as [|[msg_obj|] l1 IH]; intros p; cbn [app parse_lines].
  - reflexivity.
  - destruct (parse_record p msg_obj) as [q|]; cbn [bind]; [apply IH | reflexivity].
  - apply IH.
Qed.

(** X6: every turn the parse loop of format A collects has a text that is
    not empty and has no whitespace at either end. *)
Theorem export_turns_kept (lines : list (option json)) (p : parsed) :
  parse_lines parse_start lines = Ok p ->
  Forall (fun t => kept_text (turn_text t)) (messages p).
Proof.
  assert (Hgen : forall q, Forall (fun t => kept_text (turn_text t)) (messages q) ->
                   parse_lines q lines = Ok p ->
                   Forall (fun t => kept_text (turn_text t)) (messages p)).
  { induction lines as [|[msg_obj|] lines IH]; intros q Hq H; cbn [parse_lines] in H.
    - injection H as <-. exact Hq.
    - destruct (parse_record q msg_obj) as [q'|] eqn:Hrec; cbn [bind] in H;
        [|discriminate H].
      apply (IH q'); [|exact H].
      destruct (parse_record_effect _ _ _ Hrec) as (_ & _ & _ & _ & _ & _ & [-> | Hadd]);
        [exact Hq|].
      destruct Hadd as (t & Ht & ->). apply Forall_app. split; [exact Hq|].
      constructor; [|constructor]. exact (record_turn_kept _ _ Ht).
    - apply (IH q Hq H). }
  apply Hgen. constructor.
Qed.

Lemma export_turns_kept_witness :
  parse_lines parse_start hello_lines = Ok hello_parsed
  /\ Forall (fun t => kept_text (turn_text t)) (messages hello_parsed).
Proof.
  split; [vm_compute; reflexivity|].
  apply (export_turns_kept hello_lines hello_parsed). vm_compute. reflexivity.
Defined.

(** X7: a record of a non-conversation type, a record without a [message]
    and a record flagged [isMeta] contribute no turn, whatever else they
    hold (the message is not looked at, so it cannot raise); the parse loop
    still reads the session metadata from such a record when none was
    captured before. *)
Theorem skipped_record_no_turn (o : list (str * json)) :
  existsb (fun t => is_str t (get (lit "type") o)) non_conversation_types = true
  \/ has_key (lit "message") o = false
  \/ truthy (get (lit "isMeta") o) = true ->
  record_turn (JObj o) = Ok None
  /\ forall p, parse_record p (JObj o) = capture_metadata p (JObj o).
Proof.
  intros H.
  assert (Hskip : _should_skip_message (JObj o) = Ok true).
  { unfold _should_skip_message.
    destruct (existsb _ non_conversation_types); [reflexivity|].
    destruct (has_key (lit "message") o); cbn [negb]; [|reflexivity].
    destruct (truthy (get (lit "isMeta") o)); [reflexivity|].
    destruct H as [H | [H | H]]; discriminate H. }
  assert (Hturn : record_turn (JObj o) = Ok None).
  { unfold record_turn, _extract_user_message, _extract_assistant_message.
    rewrite Hskip. reflexivity. }
  split; [exact Hturn|]. intros p. unfold parse_record. rewrite Hturn.
  destruct (capture_metadata p (JObj o)); reflexivity.
Qed.

Lemma skipped_record_no_turn_witness :
  existsb (fun t => is_str t (get (lit "type") system_record)) non_conversation_types
  = true
  /\ record_turn (JObj system_record) = Ok None
  /\ parse_record parse_start (JObj system_record)
     = Ok {| messages := []; first_timestamp := JStr (lit "2024-01-01T09:00:00Z");
             first_user_message := None; session_id := JNull; project_path := JNull |}.
Proof.
  split; [vm_compute; reflexivity|].
  destruct (skipped_record_no_turn system_record (or_introl eq_refl)) as [Hturn Hparse].
  split; [exact Hturn|]. rewrite Hparse. reflexivity.
Defined.

(** The flag [has_text] is set exactly when some block has the type [text]. *)
Lemma no_text_flag_no_texts (blocks : list json) :
  forall flags,
    (fold_left flag_block blocks flags).1 = false ->
    flat_map text_of_block blocks = [].
Proof.
  induction blocks as [|block blocks IH]; intros flags H; [reflexivity|].
  cbn [fold_left flat_map] in *.
  assert (Hmono : forall l f, f.1 = true -> (fold_left flag_block l f).1 = true).
  { induction l as [|b l IHl]; intros f Hf; [exact Hf|]. cbn [fold_left].
    apply IHl. unfold flag_block. destruct b; try exact Hf.
    destruct (is_str (lit "tool_result") _); [exact Hf|].
    destruct (is_str (lit "text") _); [reflexivity | exact Hf]. }
  rewrite (IH _ H), app_nil_r.
  destruct block as [| | | | |b]; try reflexivity.
  unfold text_of_block. destruct (is_str (lit "text") (get (lit "type") b)) eqn:Ht;
    [|reflexivity].
  exfalso. unfold flag_block in H.
  destruct (get (lit "type") b) as [| | |ty| |]; try discriminate Ht.
  unfold is_str in Ht. apply bool_decide_eq_true in Ht. subst ty.
  cbn in H. rewrite Hmono in H by reflexivity. discriminate H.
Qed.

(** X8: for a record that is not skipped and whose content is a block list,
    the turn is made of the texts of the [text] blocks alone, joined by
    newlines and stripped, with the role of the message; user and assistant
    records are treated alike, so the rule on tool results never changes
    the outcome, and blocks of other types play no part. *)
Theorem block_list_extraction
    (o message : list (str * json)) (blocks : list json) (r : role) :
  _should_skip_message (JObj o) = Ok false ->
  message_of o = Ok message ->
  get (lit "content") message = JArr blocks ->
  kept_role message = Some r ->
  record_turn (JObj o) = block_list_turn r (get (lit "timestamp") o) blocks.
Proof.
  intros Hskip Hm Hcontent Hrole. unfold kept_role in Hrole.
  unfold record_turn, block_list_turn.
  destruct (is_str (lit "user") (get (lit "role") message)) eqn:Huser.
  - injection Hrole as <-.
    assert (Hassist : _extract_assistant_message (JObj o) = Ok None).
    { unfold _extract_assistant_message. rewrite Hskip. cbn [bind]. rewrite Hm.
      cbn [bind]. destruct (get (lit "role") message) as [| | |ty| |];
        try discriminate Huser.
      unfold is_str in Huser. apply bool_decide_eq_true in Huser. subst ty.
      reflexivity. }
    unfold _extract_user_message. rewrite Hskip. cbn [bind]. rewrite Hm. cbn [bind].
    rewrite Huser, Hcontent. cbn [negb _extract_text_blocks].
    unfold block_flags.
    destruct (fold_left flag_block blocks (false, false)) as [has_text has_tool_result]
      eqn:Hflags.
    destruct (has_tool_result && negb has_text) eqn:Hdrop.
    + apply andb_true_iff in Hdrop as [_ Hno]. apply negb_true_iff in Hno. subst has_text.
      rewrite (no_text_flag_no_texts blocks (false, false)) by (rewrite Hflags; reflexivity).
      cbn [bind nonempty]. rewrite Hassist. reflexivity.
    + destruct (flat_map text_of_block blocks) as [|t ts].
      * cbn [bind nonempty]. rewrite Hassist. reflexivity.
      * destruct (join_texts (t :: ts)) as [s|]; cbn [bind]; [|reflexivity].
        unfold nonempty. destruct (strip s); [|reflexivity].
        rewrite Hassist. reflexivity.
  - destruct (is_str (lit "assistant") (get (lit "role") message)) eqn:Hassist;
      [|discriminate Hrole].
    injection Hrole as <-.
    unfold _extract_user_message, _extract_assistant_message.
    rewrite Hskip. cbn [bind]. rewrite Hm. cbn [bind].
    rewrite Huser, Hassist, Hcontent. cbn [negb bind nonempty _extract_text_blocks].
    destruct (flat_map text_of_block blocks) as [|t ts]; [reflexivity|].
    destruct (join_texts (t :: ts)) as [s|]; cbn [bind]; [|reflexivity].
    unfold nonempty. destruct (strip s); reflexivity.
Qed.

Lemma block_list_extraction_witness :
  _should_skip_message (JObj mixed_record) = Ok false
  /\ message_of mixed_record = Ok mixed_message
  /\ get (lit "content") mixed_message = JArr mixed_blocks
  /\ kept_role mixed_message = Some assistant
  /\ record_turn (JObj mixed_record)
     = Ok (Some {| turn_role := assistant;
                   turn_text := lit "one" ++ [newline] ++ lit "two";
                   turn_timestamp := JNull |}).
Proof.
  repeat (split; [vm_compute; reflexivity|]).
  rewrite (block_list_extraction mixed_record mixed_message mixed_blocks assistant
             eq_refl eq_refl eq_refl eq_refl).
  vm_compute. reflexivity.
Defined.

(** X9: the parse loop only appends: the turns collected before a run of
    lines stay where they are, each decoded line adds at most one turn after
    them, and a blank or undecodable line adds none. *)
Theorem parse_lines_appends (lines : list (option json)) (p p' : parsed) :
  parse_lines p lines = Ok p' ->
  exists added,
    messages p' = messages p ++ added
    /\ length added <= length (decoded lines).
Proof.
  revert p. induction lines as [|[msg_obj|] lines IH]; intros p H; cbn [parse_lines] in H.
  - injection H as <-. exists []. rewrite app_nil_r. split; [reflexivity|]. cbn. lia.
  - destruct (parse_record p msg_obj) as [q|] eqn:Hrec; cbn [bind] in H; [|discriminate H].
    destruct (IH q H) as (added & Hadded & Hlen).
    destruct (parse_record_effect _ _ _ Hrec) as (_ & _ & _ & _ & _ & _ & [Hq | Hq]).
    + exists added. rewrite Hadded, Hq. split; [reflexivity|].
      unfold decoded in *. cbn. lia.
    + destruct Hq as (t & _ & Hq). exists (t :: added).
      rewrite Hadded, Hq, <- app_assoc. split; [reflexivity|].
      unfold decoded in *. cbn. lia.
  - destruct (IH p H) as (added & Hadded & Hlen). exists added.
    split; [exact Hadded|]. unfold decoded in *. cbn. exact Hlen.
Qed.

Lemma parse_lines_appends_witness :
  parse_lines parse_start (None :: hello_lines ++ [Some (JObj tool_result_record)])
  = Ok hello_parsed
  /\ exists added,
       messages hello_parsed = messages parse_start ++ added
       /\ length added
          <= length (decoded (None :: hello_lines ++ [Some (JObj tool_result_record)])).
Proof.
  split; [vm_compute; reflexivity|].
  apply (parse_lines_appends (None :: hello_lines ++ [Some (JObj tool_result_record)])
           parse_start hello_parsed).
  vm_compute. reflexivity.
Defined.

(** Once a timestamp is captured, the metadata stay as they are. *)
Lemma metadata_frozen (lines : list (option json)) :
  forall p p',
    first_timestamp p <> JNull ->
    parse_lines p lines = Ok p' ->
    first_timestamp p' = first_timestamp p
    /\ session_id p' = session_id p
    /\ project_path p' = project_path p.
Proof.
  induction lines as [|[msg_obj|] lines IH]; intros p p' Hset H; cbn [parse_lines] in H.
  - injection H as <-. auto.
  - destruct (parse_record p msg_obj) as [q|] eqn:Hrec; cbn [bind] in H; [|discriminate H].
    destruct (parse_record_effect _ _ _ Hrec) as (q0 & Hcap & Hts & Hid & Hpath & _).
    assert (Hq0 : q0 = p).
    { unfold capture_metadata in Hcap. destruct (first_timestamp p); try congruence. }
    subst q0. destruct (IH q p') as (H1 & H2 & H3); [congruence | exact H |].
    repeat split; congruence.
  - apply (IH p p' Hset H).
Qed.

(** While no record has a timestamp, none is captured. *)
Lemma metadata_pending (lines : list (option json)) :
  forall p p',
    first_timestamp p = JNull ->
    forallb no_timestamp lines = true ->
    parse_lines p lines = Ok p' ->
    first_timestamp p' = JNull.
Proof.
  induction lines as [|[msg_obj|] lines IH]; intros p p' Hnull Hlines H;
    cbn [parse_lines forallb] in *.
  - injection H as <-. exact Hnull.
  - apply andb_true_iff in Hlines as [Hline Hlines].
    destruct (parse_record p msg_obj) as [q|] eqn:Hrec; cbn [bind] in H; [|discriminate H].
    destruct (parse_record_effect _ _ _ Hrec) as (q0 & Hcap & Hts & _).
    apply (IH q p'); [|exact Hlines | exact H].
    rewrite Hts. unfold capture_metadata in Hcap. rewrite Hnull in Hcap.
    destruct msg_obj as [| | | | |o]; try discriminate Hcap.
    injection Hcap as <-. cbn [first_timestamp]. cbn [no_timestamp] in Hline.
    destruct (get (lit "timestamp") o); (reflexivity || discriminate Hline).
  - apply andb_true_iff in Hlines as [_ Hlines]. apply (IH p p' Hnull Hlines H).
Qed.

(** X10: the first timestamp, the session id and the project path of a
    session all come from one record: the first record of the file that has
    a timestamp.  Records before it cannot set them, records after it cannot
    change them. *)
Theorem metadata_from_first_timestamp
    (before : list (option json)) (o : list (str * json))
    (rest : list (option json)) (p : parsed) :
  forallb no_timestamp before = true ->
  get (lit "timestamp") o <> JNull ->
  parse_lines parse_start (before ++ Some (JObj o) :: rest) = Ok p ->
  first_timestamp p = get (lit "timestamp") o
  /\ session_id p = get (lit "sessionId") o
  /\ project_path p = get (lit "cwd") o.
Proof.
  intros Hbefore Hts H. rewrite parse_lines_app in H.
  destruct (parse_lines parse_start before) as [q|] eqn:Hq; cbn [bind] in H;
    [|discriminate H].
  pose proof (metadata_pending before parse_start q eq_refl Hbefore Hq) as Hnull.
  cbn [parse_lines] in H.
  destruct (parse_record q (JObj o)) as [q'|] eqn:Hrec; cbn [bind] in H; [|discriminate H].
  destruct (parse_record_effect _ _ _ Hrec) as (q0 & Hcap & H1 & H2 & H3 & _).
  unfold capture_metadata in Hcap. rewrite Hnull in Hcap. injection Hcap as <-.
  cbn [first_timestamp session_id project_path] in H1, H2, H3.
  destruct (metadata_frozen rest q' p) as (F1 & F2 & F3); [congruence | exact H |].
  repeat split; congruence.
Qed.

(** A file whose first record has a session id and no timestamp: the
    session id of the next record is the one kept. *)
Lemma metadata_from_first_timestamp_witness :
  forallb no_timestamp [None; Some (JObj summary_record)] = true
  /\ get (lit "timestamp") command_record <> JNull
  /\ parse_lines parse_start
       ([None; Some (JObj summary_record)]
        ++ Some (JObj command_record) :: [Some (JObj tool_result_record)])
     = Ok {| messages := []; first_timestamp := JStr (lit "2024-01-01T10:05:00Z");
             first_user_message := None; session_id := JStr (lit "s1");
             project_path := JNull |}
  /\ session_id
       {| messages := []; first_timestamp := JStr (lit "2024-01-01T10:05:00Z");
          first_user_message := None; session_id := JStr (lit "s1");
          project_path := JNull |}
     = get (lit "sessionId") command_record.
Proof.
  split; [vm_compute; reflexivity|]. split; [discriminate|].
  split; [vm_compute; reflexivity|].
  apply (metadata_from_first_timestamp [None; Some (JObj summary_record)]
           command_record [Some (JObj tool_result_record)]).
  - vm_compute; reflexivity.
  - discriminate.
  - vm_compute; reflexivity.
Defined.

End FilterMore.

(* ===================================================================== *)
(** ** Further properties of a run of format A *)
(* ===================================================================== *)

(** Closes the cases in which the converter is handed back as it came. *)
Ltac unchanged := cbn; repeat split; intros; first [reflexivity | congruence].

Lemma insert_is_Some (name text x : Py.str) (m : gmap Py.str Py.str) :
  is_Some (<[name := text]> m !! x) <-> is_Some (m !! x) \/ x = name.
Proof.
  destruct (decide (name = x)) as [-> | Hne].
  - rewrite lookup_insert_eq. split; [right; reflexivity | eauto].
  - rewrite lookup_insert_ne by exact Hne. split; [left; assumption|].
    intros [H | H]; [exact H | congruence].
Qed.


Lemma left_behind_keeps (E : Runtime.runtime) (name text x : Py.str)
    (files : gmap Py.str Py.str) :
  is_Some (files !! x) -> is_Some (Runtime.left_behind E name text files !! x).
Proof.
  intros H. unfold Runtime.left_behind.
  destruct (Runtime.write_failure E name text); try exact H;
    apply insert_is_Some; left; exact H.
Qed.

Lemma left_behind_is_Some (E : Runtime.runtime) (name text x : Py.str)
    (files : gmap Py.str Py.str) :
  is_Some (Runtime.left_behind E name text files !! x) ->
  is_Some (files !! x) \/ x = name.
Proof.
  unfold Runtime.left_behind.
  destruct (Runtime.write_failure E name text); try (left; assumption);
    apply insert_is_Some.
Qed.

Section ExportRunMore.
Import Py Json Runtime Reference ConvertExport.

Lemma replace_newline_free (s : str) : newline_free (replace_char newline 32%N s) = true.
Proof.
  unfold replace_char. induction s as [|c s IH]; [reflexivity|].
  cbn [List.map]. rewrite newline_free_cons, IH.
  destruct (c =? newline)%N eqn:Hc; [reflexivity|]. rewrite Hc. reflexivity.
Qed.

(** X11: when the index gives no summary for a session, its title is one
    line of at least one and at most 63 characters: the first 60 characters
    of the first user message with newlines turned into spaces, followed by
    three dots when the message is longer, or [Untitled Session] when there
    is no user message. *)
Theorem summary_fallback (file : jsonl_file) (first_user_message : option str) :
  match _load_session_metadata file with
  | Some metadata => truthy (get (lit "summary") metadata) = false
  | None => True
  end ->
  exists summary,
    _get_summary file first_user_message = JStr summary
    /\ summary <> []
    /\ length summary <= 63
    /\ newline_free summary = true
    /\ match first_user_message with
       | Some (c :: message) =>
           summary = replace_char newline 32%N (take 60 (c :: message))
                     ++ (if 60 <? length (c :: message) then lit "..." else [])
       | _ => summary = lit "Untitled Session"
       end.
Proof.
  intros Hmeta.
  assert (Hshape :
    exists summary,
      match first_user_message with
      | Some (c :: s) =>
          JStr (if 60 <? length (c :: s)
                then replace_char newline 32%N (take 60 (c :: s)) ++ lit "..."
                else replace_char newline 32%N (take 60 (c :: s)))
      | _ => JStr (lit "Untitled Session")
      end = JStr summary
      /\ summary <> []
      /\ length summary <= 63
      /\ newline_free summary = true
      /\ match first_user_message with
         | Some (c :: message) =>
             summary = replace_char newline 32%N (take 60 (c :: message))
                       ++ (if 60 <? length (c :: message) then lit "..." else [])
         | _ => summary = lit "Untitled Session"
         end).
  { destruct first_user_message as [[|c message]|].
    - eexists. split; [reflexivity|]. repeat split; [discriminate | vm_compute; lia].
    - eexists. split; [reflexivity|].
      assert (Hlen : length (replace_char newline 32%N (take 60 (c :: message))) <= 60).
      { unfold replace_char. rewrite length_map, length_take. lia. }
      destruct (60 <? length (c :: message)).
      + repeat split.
        * discriminate.
        * rewrite length_app. change (length (lit "...")) with 3. lia.
        * rewrite newline_free_app, replace_newline_free. reflexivity.
      + repeat split.
        * discriminate.
        * lia.
        * apply replace_newline_free.
        * rewrite app_nil_r. reflexivity.
    - eexists. split; [reflexivity|]. repeat split; [discriminate | vm_compute; lia]. }
  unfold _get_summary.
  destruct (_load_session_metadata file) as [[|kv metadata]|]; try exact Hshape.
  rewrite Hmeta. exact Hshape.
Qed.

(** A session without an index and with a first message of 70 characters
    on two lines. *)
Lemma summary_fallback_witness :
  _load_session_metadata hello_file = None
  /\ _get_summary hello_file
       (Some (lit "fix" ++ [newline] ++ List.repeat 120%N 66))
     = JStr (lit "fix " ++ List.repeat 120%N 56 ++ lit "...").
Proof.
  split; [reflexivity|].
  destruct (summary_fallback hello_file
              (Some (lit "fix" ++ [newline] ++ List.repeat 120%N 66)) I)
    as (summary & Hsummary & _).
  rewrite Hsummary. vm_compute in Hsummary. injection Hsummary as <-.
  vm_compute. reflexivity.
Defined.






End ExportRunMore.

(* ===================================================================== *)
(** ** Further properties of the parts and messages of format B *)
(* ===================================================================== *)

Section OpencodeFilterMore.
Import Py Json Runtime ConvertOpencode.

(** X14: a part yields a text exactly when its type is [text], it is not
    flagged [synthetic] and its [text] is a string that is not empty once
    stripped; the text is that stripped string.  (The list of excluded types
    plays no part.) *)
Theorem part_text_kept_iff (part : list (str * json)) (text : str) :
  _extract_part_text part = Ok (Some text)
  <-> is_str (lit "text") (get (lit "type") part) = true
      /\ truthy (get (lit "synthetic") part) = false
      /\ exists s, get_or (JStr []) (lit "text") part = JStr s
                   /\ strip s = text /\ text <> [].
Proof.
  unfold _extract_part_text, _should_skip_part.
  destruct (is_str (lit "text") (get (lit "type") part)) eqn:Htype; cbn [negb].
  - assert (Hexcl : existsb (fun t => is_str t (get (lit "type") part)) excluded_types
                    = false).
    { destruct (get (lit "type") part) as [| | |ty| |]; try discriminate Htype.
      unfold is_str in Htype. apply bool_decide_eq_true in Htype. subst ty. reflexivity. }
    rewrite Hexcl. destruct (truthy (get (lit "synthetic") part)).
    + split; [discriminate | intros (_ & H & _); discriminate H].
    + destruct (get_or (JStr []) (lit "text") part) as [| | |s| |];
        try (split; [discriminate | intros (_ & _ & s' & H & _); discriminate H]).
      destruct (strip s) as [|c r] eqn:Hs.
      * split; [discriminate|]. intros (_ & _ & s' & H & <- & Hne).
        injection H as <-. congruence.
      * split.
        -- intros H. injection H as <-. repeat split. exists s. repeat split; congruence.
        -- intros (_ & _ & s' & H & <- & _). injection H as <-. rewrite Hs. reflexivity.
  - split; [discriminate | intros (H & _); discriminate H].
Qed.

Lemma part_text_kept (part : list (str * json)) (text : str) :
  _extract_part_text part = Ok (Some text) -> kept_text text.
Proof.
  unfold _extract_part_text. destruct (_should_skip_part part); [discriminate|].
  destruct (get_or (JStr []) (lit "text") part) as [| | |s| |]; try discriminate.
  destruct (strip s) as [|c r] eqn:Hs; [discriminate|].
  intros H. injection H as <-. split; [discriminate|].
  rewrite <- Hs. apply strip_idem.
Qed.

Lemma part_timestamp_truthy (part : list (str * json)) (message_time_ms : json) :
  truthy message_time_ms = true ->
  truthy (_get_part_timestamp part message_time_ms) = true.
Proof.
  intros H. rewrite part_timestamp_cases.
  destruct (truthy (part_start part)) eqn:Hp; assumption.
Qed.

Lemma part_turns_kept (role agent message_time_ms : json) (files : list (option json)) :
  forall turns,
    truthy message_time_ms = true ->
    part_turns role agent message_time_ms files = Ok turns ->
    length turns <= length files
    /\ Forall (fun t => kept_text (turn_text t) /\ truthy (timestamp_ms t) = true
                        /\ turn_role t = role /\ turn_agent t = agent) turns.
Proof.
  induction files as [|file files IH]; intros turns Ht H; cbn [part_turns] in H.
  - injection H as <-. split; [reflexivity | constructor].
  - assert (Hskip : part_turns role agent message_time_ms files = Ok turns ->
              length turns <= length (file :: files)
              /\ Forall (fun t => kept_text (turn_text t) /\ truthy (timestamp_ms t) = true
                                  /\ turn_role t = role /\ turn_agent t = agent) turns).
    { intros H'. destruct (IH turns Ht H') as [Hlen Hall]. split; [cbn; lia | exact Hall]. }
    destruct (load_dict file) as [[|kv part]|]; try (apply Hskip, H).
    destruct (_extract_part_text (kv :: part)) as [[text|]|] eqn:Htext; cbn [bind] in H;
      [| apply Hskip, H | discriminate H].
    destruct (part_turns role agent message_time_ms files) as [more|] eqn:Hmore;
      cbn [bind] in H; [|discriminate H].
    injection H as <-. destruct (IH more Ht eq_refl) as [Hlen Hall].
    split; [cbn; lia|]. constructor; [|exact Hall]. cbn.
    repeat split.
    + apply (part_text_kept _ _ Htext).
    + apply (part_text_kept _ _ Htext).
    + apply part_timestamp_truthy, Ht.
Qed.

(** What one message contributes, and what it does to the first timestamp. *)
Lemma message_turns_effect (S : storage) (first : json) (file : option json) :
  forall turns first',
    message_turns S first file = Ok (turns, first') ->
    Forall (fun t => kept_text (turn_text t) /\ truthy (timestamp_ms t) = true) turns
    /\ (first' = first
        \/ first = JNull /\ truthy first' = true
           /\ exists message, load_dict file = Some message /\ first' = message_time message)
    /\ (turns <> [] -> first' = first \/ truthy first' = true)
    /\ (turns <> [] -> first = JNull -> truthy first' = true).
Proof.
  intros turns first'. unfold message_turns.
  assert (Hnone : forall f, Ok ([] : list turn, f) = Ok (turns, first') ->
            Forall (fun t => kept_text (turn_text t) /\ truthy (timestamp_ms t) = true) turns
            /\ turns = [] /\ first' = f).
  { intros f H. injection H as <- <-. repeat split. constructor. }
  destruct (load_dict file) as [[|kv message]|] eqn:Hload.
  - intros H. destruct (Hnone _ H) as (Hall & -> & ->). repeat split; auto; congruence.
  - set (created := message_time (kv :: message)).
    destruct (truthy created) eqn:Hcreated; cbn [negb].
    + assert (Hfirst : forall f,
                f = match first with JNull => created | _ => first end ->
                (f = first
                 \/ first = JNull /\ truthy f = true
                    /\ exists m, Some (kv :: message) = Some m /\ f = message_time m)
                /\ (first = JNull -> truthy f = true)).
      { intros f ->. destruct first; split; try (left; reflexivity); try discriminate.
        - right. repeat split; [exact Hcreated|]. exists (kv :: message). auto.
        - intros _. exact Hcreated. }
      destruct (Hfirst _ eq_refl) as [Hcase Hnull].
      destruct (negb (truthy (get (lit "id") (kv :: message)))).
      * intros H. destruct (Hnone _ H) as (Hall & -> & ->).
        repeat split; auto; congruence.
      * destruct (get (lit "id") (kv :: message)) as [| | |message_id| |];
          try discriminate.
        destruct (part_files S message_id) as [files|].
        -- destruct (part_turns _ _ created files) as [ts|] eqn:Hparts; cbn [bind];
             [|discriminate].
           intros H. injection H as <- <-.
           destruct (part_turns_kept _ _ _ _ _ Hcreated Hparts) as [_ Hall].
           repeat split.
           ++ eapply Forall_impl; [exact Hall|]. intros t (H1 & H2 & _). auto.
           ++ exact Hcase.
           ++ intros _. destruct Hcase as [-> | (_ & H & _)]; auto.
           ++ intros _. exact Hnull.
        -- intros H. destruct (Hnone _ H) as (Hall & -> & ->).
           repeat split; auto; congruence.
    + intros H. destruct (Hnone _ H) as (Hall & -> & ->). repeat split; auto; congruence.
  - intros H. destruct (Hnone _ H) as (Hall & -> & ->). repeat split; auto; congruence.
Qed.

Lemma collect_messages_effect (S : storage) (files : list (option json)) :
  forall first turns first',
    collect_messages S first files = Ok (turns, first') ->
    Forall (fun t => kept_text (turn_text t) /\ truthy (timestamp_ms t) = true) turns
    /\ (first <> JNull -> first' = first)
    /\ (first = JNull -> turns <> [] ->
        truthy first' = true
        /\ exists file message,
             In file files /\ load_dict file = Some message
             /\ first' = message_time message).
Proof.
  induction files as [|file files IH]; intros first turns first' H;
    cbn [collect_messages] in H.
  - injection H as <- <-.
    split; [constructor|]. split; [reflexivity | congruence].
  - destruct (message_turns S first file) as [[ts1 f1]|] eqn:H1; cbn [bind fst snd] in H;
      [|discriminate H].
    destruct (collect_messages S f1 files) as [[ts2 f2]|] eqn:H2; cbn [bind fst snd] in H;
      [|discriminate H].
    injection H as <- <-.
    destruct (message_turns_effect _ _ _ _ _ H1) as (Hall1 & Hcase & _ & Hset).
    destruct (IH _ _ _ H2) as (Hall2 & Hkeep & Hlater).
    split; [apply Forall_app; auto|]. split.
    + intros Hne. destruct Hcase as [-> | (Hnull & _)]; [auto | congruence].
    + intros Hnull Hturns.
      destruct Hcase as [-> | (_ & Htruthy & message & Hload & Hf1)].
      * assert (Hts1 : ts1 = []).
        { destruct ts1 as [|t ts1]; [reflexivity|]. exfalso.
          specialize (Hset ltac:(discriminate) Hnull). rewrite Hnull in Hset.
          discriminate Hset. }
        subst ts1. cbn [app] in Hturns.
        destruct (Hlater Hnull Hturns) as (Ht & f & m & Hin & Hl & Hm).
        split; [exact Ht|]. exists f, m. repeat split; [right; exact Hin | | ]; assumption.
      * assert (Hne : f1 <> JNull) by (intros ->; discriminate Htruthy).
        rewrite (Hkeep Hne). split; [exact Htruthy|].
        exists file, message. repeat split; [left; reflexivity | | ]; assumption.
Qed.

(** X15: every turn format B collects for a session has a text that is not
    empty and has no whitespace at either end, and a truthy timestamp. *)
Theorem opencode_turns_kept
    (S : storage) (first : json) (files : list (option json))
    (turns : list turn) (first' : json) :
  collect_messages S first files = Ok (turns, first') ->
  Forall (fun t => kept_text (turn_text t) /\ truthy (timestamp_ms t) = true) turns.
Proof. intros H. apply (collect_messages_effect _ _ _ _ _ H). Qed.

Lemma opencode_turns_kept_witness :
  collect_messages (demo_storage []) JNull demo_messages
    = Ok ([demo_turn], JNum 1704103500000)
  /\ Forall (fun t => kept_text (turn_text t) /\ truthy (timestamp_ms t) = true)
       [demo_turn].
Proof.
  split; [vm_compute; reflexivity|].
  apply (opencode_turns_kept (demo_storage []) JNull demo_messages [demo_turn]
           (JNum 1704103500000)).
  vm_compute; reflexivity.
Defined.

(** X16: when the walk over the messages of a session of format B retains
    a turn, the first timestamp it leaves is truthy: it is the creation time
    of one of the messages.  (This is the value the check after the sort
    tests.) *)
Theorem first_timestamp_set
    (S : storage) (files : list (option json)) (t : turn) (turns : list turn)
    (first : json) :
  collect_messages S JNull files = Ok (t :: turns, first) ->
  truthy first = true
  /\ exists file message,
       In file files /\ load_dict file = Some message /\ first = message_time message.
Proof.
  intros H. apply (collect_messages_effect _ _ _ _ _ H); [reflexivity | discriminate].
Qed.

Lemma first_timestamp_set_witness :
  collect_messages (demo_storage []) JNull demo_messages
    = Ok ([demo_turn], JNum 1704103500000)
  /\ truthy (JNum 1704103500000) = true
  /\ exists file message,
       In file demo_messages /\ load_dict file = Some message
       /\ JNum 1704103500000 = message_time message.
Proof.
  split; [vm_compute; reflexivity|].
  apply (first_timestamp_set (demo_storage []) demo_messages demo_turn []
           (JNum 1704103500000)).
  vm_compute; reflexivity.
Defined.

End OpencodeFilterMore.

(* ===================================================================== *)
(** ** The sort of the turns of format B *)
(* ===================================================================== *)

Section SortFacts.
Import Py Json ConvertOpencode.

Lemma int_keyed_key (t : turn) : int_keyed t = true -> timestamp_ms t = JNum (key_of t).
Proof. unfold int_keyed, key_of. destruct (timestamp_ms t); try discriminate. reflexivity. Qed.

Lemma with_key_app (z : Z) (a b : list turn) :
  with_key z (a ++ b) = with_key z a ++ with_key z b.
Proof. apply List.filter_app. Qed.

Lemma with_key_above (z : Z) (turns : list turn) :
  Forall (fun u => (z < key_of u)%Z) turns -> with_key z turns = [].
Proof.
  induction 1 as [|u turns Hu _ IH]; [reflexivity|].
  unfold with_key in *. cbn [List.filter].
  destruct (Z.eqb_spec (key_of u) z); [lia | exact IH].
Qed.

Lemma keys_sorted_cons (t : turn) (rest : list turn) :
  keys_sorted (t :: rest) = true
  <-> Forall (fun u => (key_of t <= key_of u)%Z) rest /\ keys_sorted rest = true.
Proof.
  cbn [keys_sorted]. rewrite andb_true_iff, List.forallb_forall, List.Forall_forall.
  split; intros [H1 H2]; (split; [|exact H2]); intros u Hu; apply Z.leb_le, H1, Hu.
Qed.

(** One insertion into a sorted list of integer-keyed turns. *)
Lemma insert_turn_int (m : turn) (sorted : list turn) :
  int_keyed m = true ->
  forallb int_keyed sorted = true ->
  keys_sorted sorted = true ->
  exists out,
    insert_turn m sorted = Ok out
    /\ Permutation (sorted ++ [m]) out
    /\ forallb int_keyed out = true
    /\ keys_sorted out = true
    /\ forall z, with_key z out = with_key z sorted ++ with_key z [m].
Proof.
  intros Hm. induction sorted as [|x rest IH]; intros Hint Hsorted.
  - exists [m]. cbn. rewrite Hm. repeat split; auto.
  - cbn [forallb] in Hint. apply andb_true_iff in Hint as [Hx Hrest].
    apply keys_sorted_cons in Hsorted as Hcons. destruct Hcons as [Hle Hsrest].
    cbn [insert_turn]. rewrite (int_keyed_key _ Hm), (int_keyed_key _ Hx).
    cbn [py_lt bind]. destruct (Z.ltb_spec (key_of m) (key_of x)) as [Hlt | Hge].
    + exists (m :: x :: rest). split; [reflexivity|]. split.
      { symmetry. change (m :: x :: rest) with ([m] ++ (x :: rest)). apply Permutation_app_comm. }
      split; [cbn [forallb]; rewrite Hm, Hx, Hrest; reflexivity|]. split.
      * apply keys_sorted_cons. split; [|exact Hsorted].
        constructor; [lia|]. eapply Forall_impl; [exact Hle|]. cbn. intros; lia.
      * intros z. change (m :: x :: rest) with ([m] ++ (x :: rest)).
        rewrite with_key_app.
        destruct (Z.eqb_spec (key_of m) z) as [Hz | Hz].
        -- rewrite (with_key_above z (x :: rest)); [rewrite app_nil_r; reflexivity|].
           constructor; [lia|]. eapply Forall_impl; [exact Hle|]. cbn. intros; lia.
        -- assert (Hnil : with_key z [m] = []).
           { unfold with_key. cbn [List.filter].
             destruct (Z.eqb_spec (key_of m) z); [contradiction | reflexivity]. }
           rewrite Hnil, app_nil_r. reflexivity.
    + destruct (IH Hrest Hsrest) as (out & Hout & Hperm & Hints & Hsort & Hkeys).
      rewrite Hout. cbn [bind]. exists (x :: out). split; [reflexivity|]. split.
      { cbn [app]. constructor. exact Hperm. }
      split; [cbn [forallb]; rewrite Hx, Hints; reflexivity|]. split.
      * apply keys_sorted_cons. split; [|exact Hsort].
        eapply Permutation_Forall; [exact Hperm|].
        apply Forall_app. split; [exact Hle|]. constructor; [lia | constructor].
      * intros z. unfold with_key in *. cbn [List.filter app].
        rewrite Hkeys. destruct (key_of x =? z)%Z; reflexivity.
Qed.

Lemma sort_from (msgs : list turn) :
  forall acc,
    forallb int_keyed acc = true ->
    keys_sorted acc = true ->
    forallb int_keyed msgs = true ->
    exists out,
      fold_left (fun sorted m => sorted <- sorted ;; insert_turn m sorted) msgs (Ok acc)
        = Ok out
      /\ Permutation (acc ++ msgs) out
      /\ keys_sorted out = true
      /\ forall z, with_key z out = with_key z acc ++ with_key z msgs.
Proof.
  induction msgs as [|m msgs IH]; intros acc Hacc Hsorted Hmsgs.
  - exists acc. rewrite app_nil_r. repeat split; auto.
    intros z. unfold with_key. cbn. rewrite app_nil_r. reflexivity.
  - cbn [forallb] in Hmsgs. apply andb_true_iff in Hmsgs as [Hm Hmsgs].
    destruct (insert_turn_int m acc Hm Hacc Hsorted)
      as (acc' & Hins & Hperm & Hints & Hsort & Hkeys).
    cbn [fold_left bind]. rewrite Hins.
    destruct (IH acc' Hints Hsort Hmsgs) as (out & Hout & Hperm' & Hsort' & Hkeys').
    exists out. split; [exact Hout|]. split.
    { rewrite <- Hperm'. rewrite <- Hperm.
      change (m :: msgs) with ([m] ++ msgs). rewrite app_assoc. reflexivity. }
    split; [exact Hsort'|].
    intros z. rewrite Hkeys', Hkeys. change (m :: msgs) with ([m] ++ msgs).
    rewrite with_key_app, app_assoc. reflexivity.
Qed.

(** X17: when every sort key is an integer, the sort of format B succeeds;
    its result has the same turns, keys that never decrease, and the turns of
    each key in the order they were collected. *)
Theorem sort_messages_stable (msgs : list turn) :
  forallb int_keyed msgs = true ->
  exists sorted,
    sort_messages msgs = Ok sorted
    /\ Permutation msgs sorted
    /\ keys_sorted sorted = true
    /\ forall z, with_key z sorted = with_key z msgs.
Proof.
  intros H. destruct (sort_from msgs [] eq_refl eq_refl H) as (out & Hout & Hperm & Hs & Hk).
  exists out. repeat split; assumption.
Qed.

Lemma sort_messages_stable_witness :
  forallb int_keyed unsorted_turns = true
  /\ exists sorted,
       sort_messages unsorted_turns = Ok sorted
       /\ Permutation unsorted_turns sorted
       /\ keys_sorted sorted = true
       /\ forall z, with_key z sorted = with_key z unsorted_turns.
Proof.
  split; [reflexivity|]. apply (sort_messages_stable unsorted_turns). reflexivity.
Defined.

End SortFacts.

(* ===================================================================== *)
(** ** The agent names and the runs of format B *)
(* ===================================================================== *)

Section OpencodeRunMore.
Import Py Json Runtime Reference ConvertOpencode.

Lemma casing_consistent_empty (E : runtime) : casing_consistent E ∅.
Proof. intros k v H. rewrite lookup_empty in H. discriminate H. Qed.

Lemma normalize_consistent (E : runtime) (m : gmap str str) (agent : json) :
  forall shown m',
    casing_consistent E m ->
    _normalize_agent_name E m agent = Ok (shown, m') ->
    casing_consistent E m'
    /\ (truthy agent = false -> shown = [] /\ m' = m)
    /\ (forall a, agent = JStr a -> a <> [] ->
        lower E shown = lower E (base_agent a)
        /\ m' !! lower E (base_agent a) = Some shown).
Proof.
  intros shown m' Hm. unfold _normalize_agent_name.
  destruct (truthy agent) eqn:Ht; cbn [negb].
  - destruct agent as [| | |a| |]; try discriminate.
    destruct (m !! lower E (base_agent a)) as [seen|] eqn:Hseen; intros H;
      injection H as <- <-.
    + split; [exact Hm|]. split; [discriminate|].
      intros a' Ha' _. injection Ha' as <-. split; [apply Hm, Hseen | exact Hseen].
    + split.
      * intros k v. destruct (decide (lower E (base_agent a) = k)) as [<- | Hne].
        -- rewrite lookup_insert_eq. intros H. injection H as <-. reflexivity.
        -- rewrite lookup_insert_ne by exact Hne. apply Hm.
      * split; [discriminate|]. intros a' Ha' _. injection Ha' as <-.
        split; [reflexivity | apply lookup_insert_eq].
  - intros H. injection H as <- <-. split; [exact Hm|]. split; [auto|].
    intros a -> Ha. destruct a; [congruence | discriminate Ht].
Qed.

(** X18: for an agent string that is not empty, the name displayed and the
    name the agent string ends in are the same up to case, and the displayed
    name is the one remembered under that lower-case form; the remembered
    names keep lower-casing to their keys, and none is replaced. *)
Theorem displayed_name_matches (E : runtime) (m : gmap str str) (a : str) :
  casing_consistent E m ->
  a <> [] ->
  exists shown m',
    _normalize_agent_name E m (JStr a) = Ok (shown, m')
    /\ lower E shown = lower E (base_agent a)
    /\ m' !! lower E (base_agent a) = Some shown
    /\ casing_consistent E m'
    /\ (forall k v, m !! k = Some v -> m' !! k = Some v).
Proof.
  intros Hm Ha.
  destruct (_normalize_agent_name E m (JStr a)) as [[shown m']|] eqn:Hn.
  - exists shown, m'. split; [reflexivity|].
    destruct (normalize_consistent _ _ _ _ _ Hm Hn) as (Hm' & _ & Hshown).
    destruct (Hshown a eq_refl Ha) as [Hlow Hkey].
    repeat split; try assumption.
    intros k v Hk. revert Hn. unfold _normalize_agent_name.
    destruct (negb (truthy (JStr a))); [intros H; injection H as _ <-; exact Hk|].
    destruct (m !! lower E (base_agent a)) as [seen|] eqn:Hseen;
      intros H; injection H as _ <-; [exact Hk|].
    rewrite lookup_insert_ne; [exact Hk | congruence].
  - exfalso. revert Hn. unfold _normalize_agent_name.
    destruct (negb (truthy (JStr a))); [discriminate|].
    destruct (m !! lower E (base_agent a)); discriminate.
Qed.

Lemma displayed_name_matches_witness :
  casing_consistent cpython {[ lit "sisyphus" := lit "Sisyphus" ]}
  /\ lit "planner-SISYPHUS" <> []
  /\ exists shown m',
       _normalize_agent_name cpython {[ lit "sisyphus" := lit "Sisyphus" ]}
         (JStr (lit "planner-SISYPHUS")) = Ok (shown, m')
       /\ lower cpython shown = lower cpython (base_agent (lit "planner-SISYPHUS"))
       /\ m' !! lower cpython (base_agent (lit "planner-SISYPHUS")) = Some shown
       /\ casing_consistent cpython m'
       /\ (forall k v, ({[ lit "sisyphus" := lit "Sisyphus" ]} : gmap str str) !! k = Some v
                       -> m' !! k = Some v).
Proof.
  assert (Hm : casing_consistent cpython {[ lit "sisyphus" := lit "Sisyphus" ]}).
  { intros k v H. apply lookup_singleton_Some in H as [<- <-]. reflexivity. }
  split; [exact Hm|]. split; [discriminate|].
  apply (displayed_name_matches cpython _ (lit "planner-SISYPHUS") Hm). discriminate.
Defined.

Lemma speaker_consistent (E : runtime) (m : gmap str str) (msg : turn) :
  forall label m',
    casing_consistent E m -> speaker E m msg = Ok (label, m') -> casing_consistent E m'.
Proof.
  intros label m' Hm. unfold speaker.
  destruct (is_str (lit "user") (turn_role msg)).
  { intros H. injection H as _ <-. exact Hm. }
  destruct (_normalize_agent_name E m (turn_agent msg)) as [[shown m1]|] eqn:Hn;
    [|discriminate].
  cbn [bind fst snd]. intros H. injection H as _ <-.
  apply (normalize_consistent _ _ _ _ _ Hm Hn).
Qed.

Lemma render_turns_consistent (E : runtime) (msgs : list turn) :
  forall m lines m',
    casing_consistent E m -> render_turns E m msgs = Ok (lines, m') ->
    casing_consistent E m'.
Proof.
  induction msgs as [|msg msgs IH]; intros m lines m' Hm H.
  - injection H as _ <-. exact Hm.
  - cbn [render_turns] in H.
    destruct (speaker E m msg) as [[label m1]|] eqn:Hs; [|discriminate H].
    cbn [bind fst snd] in H.
    destruct (render_turns E m1 msgs) as [[rest m2]|] eqn:Hr; [|discriminate H].
    cbn [bind fst snd] in H. injection H as _ <-.
    eapply IH; [|exact Hr]. eapply speaker_consistent; eassumption.
Qed.

Lemma step_ok_silent (E : runtime) (c c' : converter) (ret : option bool) :
  ret <> Some true ->
  processed_sessions c ⊆ processed_sessions c' ->
  agent_case_map c' = agent_case_map c -> written c' = written c ->
  step_ok E c (silent ret c').
Proof.
  intros Hret Hsub Hagents Hw. unfold step_ok, silent. cbn.
  split; [exact Hsub|]. split; [rewrite Hagents; auto|].
  destruct ret as [[|]|]; [congruence | auto | auto].
Qed.

Lemma write_session_step (E : runtime) (c c' : converter) (session : list (str * json))
    (session_id : str) (messages : list turn) (first : json) :
  processed_sessions c ⊆ processed_sessions c' ->
  agent_case_map c' = agent_case_map c -> written c' = written c ->
  step_ok E c (write_session E c' session session_id messages first).
Proof.
  intros Hsub Hagents Hw. unfold write_session.
  destruct (sort_messages messages) as [sorted|];
    [|apply step_ok_silent; [discriminate | assumption ..]].
  destruct (negb (truthy first));
    [apply step_ok_silent; [discriminate | assumption ..]|].
  destruct (get_or (JStr (lit "Untitled Session")) (lit "title") session)
    as [| | |title| |];
    try (apply step_ok_silent; [discriminate | assumption ..]).
  destruct (render_turns E (agent_case_map c') sorted) as [[lines agents]|] eqn:Hr;
    [|apply step_ok_silent; [discriminate | assumption ..]].
  assert (Hagents' : casing_consistent E (agent_case_map c) -> casing_consistent E agents).
  { intros Hc. eapply render_turns_consistent; [|exact Hr]. rewrite Hagents. exact Hc. }
  destruct (writable E (output_filename E first title)) eqn:Hwritable; unfold step_ok; cbn.
  - split; [exact Hsub|]. split; [exact Hagents'|].
    eexists _, _, _. rewrite Hw. repeat split. exact Hwritable.
  - split; [exact Hsub|]. split; [exact Hagents'|]. right.
    eexists _, _. rewrite Hw. repeat split. exact Hwritable.
Qed.

Lemma convert_session_step (E : runtime) (S : storage) (c : converter)
    (file : option json) :
  step_ok E c (convert_session E S c file).
Proof.
  unfold convert_session.
  destruct (load_dict file) as [[|kv session]|];
    try (apply step_ok_silent; [discriminate | reflexivity ..]).
  destruct (truthy (get (lit "parentID") (kv :: session)));
    [apply step_ok_silent; [discriminate | reflexivity ..]|].
  destruct (hash_key (get (lit "id") (kv :: session))) as [k|];
    [|apply step_ok_silent; [discriminate | reflexivity ..]].
  destruct (bool_decide (k ∈ processed_sessions c));
    [apply step_ok_silent; [discriminate | reflexivity ..]|].
  assert (Hsub : processed_sessions c ⊆ processed_sessions (mark_processed c k)).
  { cbn. set_solver. }
  destruct (negb (truthy (get (lit "id") (kv :: session))));
    [apply step_ok_silent; [discriminate | exact Hsub | reflexivity ..]|].
  destruct (get (lit "id") (kv :: session)) as [| | |session_id| |];
    try (apply step_ok_silent; [discriminate | exact Hsub | reflexivity ..]).
  destruct (message_files S session_id) as [[|f files]|];
    try (apply step_ok_silent; [discriminate | exact Hsub | reflexivity ..]).
  destruct (collect_messages S JNull (f :: files)) as [[[|t turns] first]|];
    try (apply step_ok_silent; [discriminate | exact Hsub | reflexivity ..]).
  apply write_session_step; [exact Hsub | reflexivity ..].
Qed.


Lemma convert_sessions_accounting (E : runtime) (S : storage) (files : list (option json)) :
  forall c,
    count (convert_sessions E S c files)
    = length (List.filter opencode_converted (log (convert_sessions E S c files)))
    /\ count (convert_sessions E S c files) <= length files
    /\ length (log (convert_sessions E S c files)) <= length files
    /\ (forall name,
          is_Some (written c !! name)
          \/ In name (opencode_names (log (convert_sessions E S c files))) ->
          is_Some (written (final (convert_sessions E S c files)) !! name))
    /\ (forall name,
          is_Some (written (final (convert_sessions E S c files)) !! name) ->
          is_Some (written c !! name)
          \/ In name (opencode_names (log (convert_sessions E S c files)))
          \/ In name (opencode_failed (log (convert_sessions E S c files))))
    /\ (casing_consistent E (agent_case_map c) ->
        casing_consistent E (agent_case_map (final (convert_sessions E S c files)))).
Proof.
  induction files as [|file files IH]; intros c.
  - cbn. repeat split; auto. intros name [H | []]. exact H.
  - cbn [convert_sessions]. destruct (convert_session_step E S c file) as (_ & Hcase & Hp).
    destruct (IH (after (convert_session E S c file)))
      as (Hcount & Hle & Hlog & Hin & Hout & Hcase').
    destruct (returned (convert_session E S c file)) as [[|]|].
    + destruct Hp as (name & text & n & Hprint & _ & Hw).
      rewrite Hprint.
      cbn [count log crashed final app List.filter opencode_converted length].
      repeat split; try lia; auto.
      * intros x H. apply Hin. rewrite Hw, insert_is_Some.
        cbn [opencode_names omap] in H. destruct H as [H | [-> | H]]; auto.
      * intros x H. apply Hout in H. rewrite Hw, insert_is_Some in H.
        cbn [opencode_names opencode_failed omap].
        destruct H as [[H | ->] | [H | H]]; auto.
        -- right. left. left. reflexivity.
        -- right. left. right. exact H.
    + destruct Hp as [[Hprint Hw] | (name & text & Hprint & _ & Hw)]; rewrite Hprint;
        cbn [count log crashed final app List.filter opencode_converted length
             opencode_names opencode_failed omap].
      * rewrite <- Hw. repeat split; try lia; auto.
      * repeat split; try lia; auto.
        -- intros x H. apply Hin. rewrite Hw.
           destruct H as [H | H]; [left; apply left_behind_keeps, H | right; exact H].
        -- intros x H. apply Hout in H. rewrite Hw in H.
           destruct H as [H | [H | H]]; auto.
           ++ apply left_behind_is_Some in H as [H | ->]; auto.
              right. right. left. reflexivity.
           ++ right. right. right. exact H.
    + destruct Hp as [Hprint Hw]. cbn [count log crashed final]. rewrite Hprint, Hw.
      cbn. repeat split; try lia; auto.
      intros x [H | []]. exact H.
Qed.


(** X21: after a run of format B that starts with a new converter, every
    remembered agent name lower-cases to the key it is remembered under. *)
Theorem agent_map_consistent (E : runtime) (S : storage) :
  casing_consistent E (agent_case_map (final (convert_directory E S new_converter))).
Proof.
  unfold convert_directory. destruct (session_files S) as [|file files].
  - apply casing_consistent_empty.
  - apply convert_sessions_accounting, casing_consistent_empty.
Qed.

End OpencodeRunMore.

(* ===================================================================== *)
(** ** The name of the project directory *)
(* ===================================================================== *)

Section DiscoveryFacts.
Import Py Discovery.

Lemma lstrip_slash_length (s : str) : length (lstrip_slash s) <= length s.
Proof.
  induction s as [|c s IH]; [reflexivity|]. cbn [lstrip_slash].
  destruct (c =? slash)%N; cbn [length]; lia.
Qed.

Lemma replace_no_slash (s : str) :
  Forall (fun c => c <> slash) (replace_char slash hyphen s).
Proof.
  unfold replace_char. induction s as [|c s IH]; [constructor|].
  cbn [List.map]. constructor; [|exact IH].
  destruct (N.eqb_spec c slash); [discriminate | assumption].
Qed.

Lemma lstrip_slash_app (a t : str) :
  lstrip_slash a <> [] -> lstrip_slash (a ++ t) = lstrip_slash a ++ t.
Proof.
  induction a as [|c a IH]; [intros H; exfalso; apply H; reflexivity|].
  cbn [lstrip_slash app].
  destruct (c =? slash)%N; [exact IH | reflexivity].
Qed.

(** X22: the directory name looked up for a working directory is a hyphen
    followed by characters none of which is a slash, so it names an entry
    of the projects directory itself; it is at most one character longer
    than the path. *)
Theorem encoded_shape (cwd : str) :
  exists rest,
    encoded cwd = hyphen :: rest
    /\ Forall (fun c => c <> slash) rest
    /\ length rest <= length cwd.
Proof.
  exists (replace_char slash hyphen (lstrip_slash cwd)).
  split; [reflexivity|]. split; [apply replace_no_slash|].
  unfold replace_char. rewrite length_map. apply lstrip_slash_length.
Qed.

(** X23: the encoding does not tell a slash from a hyphen: a directory
    [a/b] and a directory [a-b] are looked up under the same name. *)
Theorem encoded_collision (a b : str) :
  lstrip_slash a <> [] ->
  encoded (a ++ slash :: b) = encoded (a ++ hyphen :: b).
Proof.
  intros Ha. unfold encoded. f_equal.
  rewrite !(lstrip_slash_app a _ Ha). unfold replace_char.
  rewrite !map_app. cbn [List.map]. reflexivity.
Qed.

Lemma encoded_collision_witness :
  lstrip_slash (lit "/home/me") <> []
  /\ encoded (lit "/home/me" ++ slash :: lit "app")
     = encoded (lit "/home/me" ++ hyphen :: lit "app").
Proof.
  split; [vm_compute; discriminate|].
  apply (encoded_collision (lit "/home/me") (lit "app")). vm_compute; discriminate.
Defined.

End DiscoveryFacts.
